(** * PetMent: availability expansion and booking engine

    A shallow embedding of the scheduling core of the PetMent application
    (the use cases [GetAvailableSlotsUseCase], [BookAppointmentUseCase],
    [CancelAppointmentUseCase], the helpers of [rruleHelpers.ts] and the
    repository [AppointmentRepositoryImpl]), with the properties its
    specification states about them, followed by further properties of the
    engine, of the repository, of the date helpers of [date.ts] and of the
    text and date helpers of the calendar export.

    Conventions of the embedding.
    - An instant is the time value of a JavaScript [Date]: a number of
      milliseconds since the epoch, in [Z].  A [Date] object is an
      [option Z]; [None] is the "Invalid Date" (time value NaN), on which
      every comparison is false.
    - The dates given to an operation are not bound to the range of a
      [Date], 8.64e15 ms either side of the epoch: the model also has the
      instants past it, written with years of seven digits or more.
      Where the code itself runs into the bound, as the loop of
      [generateSlotsForBlock] does with a negative duration, the bound is
      modelled ([timeClip]).
    - Numbers are integers and are computed with exactly.  This is the
      arithmetic of the engine, whose numbers are doubles, as long as the
      values stay below 2^53 in absolute value; where the code reads a
      numeral ([Number]) or subtracts two time values ([date.ts]), the
      rounding to the nearest double is modelled.
    - The device time zone is taken to be UTC, so that [getDay],
      [setDate] and [setHours] are arithmetic on the time value.
    - [new Date(string)] reads the date-time string format of the
      standard; what it makes of any other string is left to the engine
      and is a parameter of the model: see [JsEngine].  Every property
      below holds for every engine.
    - A string is a sequence of UTF-16 code units below 256, one [ascii]
      each; texts with other code units are outside the model.
    - [new Date()] is an explicit argument [now], read once per operation.
    - The identifier drawn by [generateUUID] is an explicit argument.
    - A batch runs one operation per element: the operation at position [k]
      reads the clock as [clock k] and draws the identifier [uuid k].
    - A required field of type [string] is missing when it is the empty
      string, the one falsy value of the type.
    - The stores behind [AsyncStorage] are two lists; reads and writes of
      the storage layer itself do not fail.
    - A call either returns, throws an [Error] with a message, or does not
      terminate: see [Outcome]. *)

From Stdlib Require Import ZArith Lia List Bool Ascii String Sorted Permutation.
Import ListNotations.

Local Open Scope string_scope.
Local Open Scope list_scope.
Local Open Scope Z_scope.

(* ================================================================= *)
(** ** The JavaScript engine *)

(** What the standard leaves to the engine.  [Date.parse] reads the
    date-time string format of the standard; with any other string it
    "may fall back to any implementation-specific heuristics or
    implementation-specific date formats".  [legacyParse] is that part of
    an engine: the time value it reads from a string that is not in the
    format of the standard, or [None] for NaN.  The wording of error
    messages is the engine's as well: [invalidTimeValue] is the message of
    the RangeError that [toISOString] throws on an Invalid Date. *)
Class JsEngine : Type := {
  legacyParse : string -> option Z;
  invalidTimeValue : string
}.

(* ================================================================= *)
(** ** Dates of the JavaScript engine *)

Module JsDate.

(** A [Date] object: its time value, or [None] for Invalid Date. *)
Definition Date : Type := option Z.

Definition msPerDay : Z := 86400000.
Definition msPerHour : Z := 3600000.
Definition msPerMinute : Z := 60000.
Definition msPerSecond : Z := 1000.

(** [a < b], [a <= b], [a > b], [a >= b] on [Date] objects: the time values
    are compared as numbers, and a comparison with NaN is false. *)
Definition date_ltb (a b : Date) : bool :=
  match a, b with Some x, Some y => x <? y | _, _ => false end.

Definition date_leb (a b : Date) : bool :=
  match a, b with Some x, Some y => x <=? y | _, _ => false end.

Definition date_gtb (a b : Date) : bool := date_ltb b a.

Definition date_geb (a b : Date) : bool := date_leb b a.

(** [Day(t)] and the start of the day of [t]. *)
Definition dayOf (t : Z) : Z := t / msPerDay.

Definition startOfDay (t : Z) : Z := dayOf t * msPerDay.

(** [getDay()]: 0 is Sunday; the epoch was a Thursday. *)
Definition getDay (t : Z) : Z := (dayOf t + 4) mod 7.

(** [d.setDate(d.getDate() + n)]: the same time of day, [n] days later. *)
Definition addDays (t n : Z) : Z := t + n * msPerDay.

(** [d.setHours(h, m, s, ms)]: the fields may overflow into the next days. *)
Definition setHours (t h m s ms : Z) : Z :=
  startOfDay t + h * msPerHour + m * msPerMinute + s * msPerSecond + ms.

(** [TimeClip]: the time value of a [Date] lies within 8.64e15 ms of the
    epoch; past that, [new Date(number)] and [setTime] give Invalid Date. *)
Definition maxTime : Z := 8640000000000000.

Definition timeClip (t : Z) : Date := if Z.abs t <=? maxTime then Some t else None.

(** *** Calendar dates (proleptic Gregorian), by days since the epoch *)

(** Year, month (1-12) and day of month (1-31) of a day number. *)
Definition civil_from_days (z : Z) : Z * Z * Z :=
  let z := z + 719468 in
  let era := z / 146097 in
  let doe := z - era * 146097 in
  let yoe := (doe - doe / 1460 + doe / 36524 - doe / 146096) / 365 in
  let doy := doe - (365 * yoe + yoe / 4 - yoe / 100) in
  let mp := (5 * doy + 2) / 153 in
  let d := doy - (153 * mp + 2) / 5 + 1 in
  let m := if mp <? 10 then mp + 3 else mp - 9 in
  (yoe + era * 400 + (if m <=? 2 then 1 else 0), m, d).

(** The day number of a calendar date; a day of month past the end of the
    month counts on into the next one. *)
Definition days_from_civil (y m d : Z) : Z :=
  let y := if m <=? 2 then y - 1 else y in
  let era := y / 400 in
  let yoe := y - era * 400 in
  let mp := if 2 <? m then m - 3 else m + 9 in
  let doy := (153 * mp + 2) / 5 + d - 1 in
  let doe := yoe * 365 + yoe / 4 - yoe / 100 + doy in
  era * 146097 + doe - 719468.

(** *** Decimal fields *)

Definition digit_char (d : Z) : ascii := ascii_of_nat (48 + Z.to_nat d).

Definition is_digit (c : ascii) : bool :=
  (48 <=? nat_of_ascii c)%nat && (nat_of_ascii c <=? 57)%nat.

Definition digit_value (c : ascii) : Z := Z.of_nat (nat_of_ascii c - 48).

(** The [w] low decimal digits of [n], most significant first. *)
Fixpoint digits (w : nat) (n : Z) : string :=
  match w with
  | O => ""
  | S w' => (digits w' (n / 10) ++ String (digit_char (n mod 10)) "")%string
  end.

(** Reads the longest run of digits at the head of [s]: its value on top of
    [acc], the number of digits read on top of [k], and the rest. *)
Fixpoint read_number (s : string) (acc : Z) (k : nat) : Z * nat * string :=
  match s with
  | String c s' =>
      if is_digit c then read_number s' (10 * acc + digit_value c) (S k)
      else (acc, k, s)
  | EmptyString => (acc, k, s)
  end.

(** *** [Date.prototype.toISOString] *)

(** The year: four digits from 0 to 9999, otherwise a sign and six
    digits.  The model also has the instants past the range of a [Date],
    on which the engine would raise a RangeError: their year is written
    with a sign and seven digits or more, which keeps the codec total. *)
Definition year_string (inRange : bool) (y : Z) : string :=
  if (0 <=? y) && (y <=? 9999) then digits 4 y
  else
    let a := Z.abs y in
    String (if y <? 0 then "-"%char else "+"%char)
           (if inRange && (a <? 1000000) then digits 6 a
            else digits (if a <? 10000000 then 7 else Z.to_nat (Z.log2_up (a + 1))) a).

Definition toISOString (t : Z) : string :=
  let '(y, m, d) := civil_from_days (dayOf t) in
  let r := t mod msPerDay in
  let inRange := Z.abs t <=? maxTime in
  (year_string inRange y ++ "-" ++ digits 2 m ++ "-" ++ digits 2 d ++ "T" ++
   digits 2 (r / msPerHour) ++ ":" ++ digits 2 (r / msPerMinute mod 60) ++ ":" ++
   digits 2 (r / msPerSecond mod 60) ++ "." ++ digits 3 (r mod 1000) ++ "Z")%string.

(** *** [new Date(string)] *)

(** Exactly [w] digits at the head of [s], and the rest. *)
Definition read_digits (w : nat) (s : string) : option (Z * string) :=
  match read_number s 0 0 with
  | (v, k, rest) => if (k =? w)%nat then Some (v, rest) else None
  end.

(** The character [c] at the head of [s], and the rest. *)
Definition expect (c : ascii) (s : string) : option string :=
  match s with
  | String x rest => if Ascii.eqb x c then Some rest else None
  | EmptyString => None
  end.

(** [sep] and exactly [w] digits where the text goes on with [sep]; the
    default where it does not. *)
Definition read_optional (sep : ascii) (w : nat) (default : Z) (s : string)
    : option (Z * string) :=
  match expect sep s with
  | Some rest => read_digits w rest
  | None => Some (default, s)
  end.

(** The year of a date-time string, and the number of its digits: [YYYY],
    or a sign and six digits or more; [-000000] is not a year. *)
Definition read_year (s : string) : option (Z * nat * string) :=
  match s with
  | String c s' =>
      if Ascii.eqb c "+" || Ascii.eqb c "-" then
        match read_number s' 0 0 with
        | (v, k, rest) =>
            if (6 <=? k)%nat && negb (Ascii.eqb c "-" && (v =? 0))
            then Some (if Ascii.eqb c "-" then - v else v, k, rest)
            else None
        end
      else
        match read_digits 4 s with
        | Some (y, rest) => Some (y, 4%nat, rest)
        | None => None
        end
  | EmptyString => None
  end.

(** The date: [YYYY], [YYYY-MM] or [YYYY-MM-DD]; a month or a day that is
    not written is 1. *)
Definition read_date (s : string) : option (Z * nat * Z * Z * string) :=
  match read_year s with
  | Some (y, k, s) =>
      match read_optional "-" 2 1 s with
      | Some (mo, s) =>
          match read_optional "-" 2 1 s with
          | Some (d, s) => Some (y, k, mo, d, s)
          | None => None
          end
      | None => None
      end
  | None => None
  end.

(** The time value [t] read from a string whose year [y] has [k] digits.
    A year of four digits lies in the range of a [Date]; with a year of
    six digits the time value is clipped to the range; a year of seven
    digits or more is read only where it stands for an instant past the
    range, as [toISOString] writes them here. *)
Definition instantOfForm (k : nat) (y t : Z) : option Z :=
  if (k =? 4)%nat then Some t
  else if (k =? 6)%nat then timeClip t
  else if (maxTime <? Z.abs t) || (1000000 <=? Z.abs y) then Some t
  else None.

(** The seconds and the milliseconds of a time, after the minutes:
    [:ss] or [:ss.sss], or nothing. *)
Definition read_seconds (s : string) : option (Z * Z * string) :=
  match expect ":" s with
  | Some rest =>
      match read_digits 2 rest with
      | Some (sec, s) =>
          match read_optional "." 3 0 s with
          | Some (ms, s) => Some (sec, ms, s)
          | None => None
          end
      | None => None
      end
  | None => Some (0, 0, s)
  end.

(** The time after the [T]: [HH:mm], [HH:mm:ss] or [HH:mm:ss.sss]. *)
Definition read_time (s : string) : option (Z * Z * Z * Z * string) :=
  match read_digits 2 s with
  | Some (h, s) =>
      match expect ":" s with
      | Some s =>
          match read_digits 2 s with
          | Some (mi, s) =>
              match read_seconds s with
              | Some (sec, ms, s) => Some (h, mi, sec, ms, s)
              | None => None
              end
          | None => None
          end
      | None => None
      end
  | None => None
  end.

(** The time zone that closes a date-time string, in minutes east of UTC:
    [Z], [+HH:mm] or [-HH:mm]; without one the time is local time, which
    is UTC here. *)
Definition read_offset (s : string) : option Z :=
  match s with
  | EmptyString => Some 0
  | String c s' =>
      if Ascii.eqb c "Z" then
        match s' with EmptyString => Some 0 | _ => None end
      else if Ascii.eqb c "+" || Ascii.eqb c "-" then
        match read_digits 2 s' with
        | Some (h, s) =>
            match expect ":" s with
            | Some s =>
                match read_digits 2 s with
                | Some (mi, EmptyString) =>
                    if (h <=? 23) && (mi <=? 59)
                    then Some ((if Ascii.eqb c "-" then -1 else 1) * (h * 60 + mi))
                    else None
                | _ => None
                end
            | None => None
            end
        | None => None
        end
      else None
  end.

(** A date of the calendar: the month has the day. *)
Definition isCalendarDate (y mo d : Z) : bool :=
  let '(y', mo', d') := civil_from_days (days_from_civil y mo d) in
  (y' =? y) && (mo' =? mo) && (d' =? d).

(** A date-time string: a date [YYYY], [YYYY-MM] or [YYYY-MM-DD] (the year
    also with a sign and six digits), alone or followed by [T] and a time
    [HH:mm], [HH:mm:ss] or [HH:mm:ss.sss] and then by nothing, [Z] or an
    offset [+HH:mm] or [-HH:mm].  [validDate] says which years, months and
    days are read.  [Some t] is the time value read; [None] says that the
    string is not of this form, or that a field or the instant is out of
    its bounds.  The time 24:00:00.000 is the end of the day. *)
Definition readDateTimeString (validDate : Z -> Z -> Z -> bool) (s : string) : option Z :=
  match read_date s with
  | Some (y, k, mo, d, s) =>
      if validDate y mo d then
        let day := days_from_civil y mo d * msPerDay in
        match s with
        | EmptyString => instantOfForm k y day
        | String c s' =>
            if Ascii.eqb c "T" then
              match read_time s' with
              | Some (h, mi, sec, ms, s) =>
                  match read_offset s with
                  | Some offset =>
                      if (mi <=? 59) && (sec <=? 59) &&
                         ((h <=? 23) || ((h =? 24) && (mi =? 0) && (sec =? 0) && (ms =? 0)))
                      then instantOfForm k y
                             (day + h * msPerHour + mi * msPerMinute +
                              sec * msPerSecond + ms - offset * msPerMinute)
                      else None
                  | None => None
                  end
              | None => None
              end
            else None
        end
      else None
  | None => None
  end.

(** The date-time string format of the standard, which every engine
    reads: the date-time strings whose date is a date of the calendar. *)
Definition parseDateTimeString (s : string) : option Z :=
  readDateTimeString isCalendarDate s.

(** The dates V8 reads in a date-time string: a month from 1 to 12 and a
    day from 1 to 31 in every month, the days a month does not have
    counting on into the next one. *)
Definition isDateOfV8 (y mo d : Z) : bool :=
  (1 <=? mo) && (mo <=? 12) && (1 <=? d) && (d <=? 31).

Section WithEngine.
Context {engine : JsEngine}.

(** [new Date(string)], that is [Date.parse]: a string in the date-time
    string format is read as the standard says, and any other string as
    the engine pleases. *)
Definition parseDate (s : string) : Date :=
  match parseDateTimeString s with
  | Some t => Some t
  | None => legacyParse s
  end.

End WithEngine.

(** *** Calendar fields and [Date.UTC] *)

Definition getFullYear (t : Z) : Z := let '(y, _, _) := civil_from_days (dayOf t) in y.

(** [getMonth()]: 0 is January. *)
Definition getMonth (t : Z) : Z := let '(_, m, _) := civil_from_days (dayOf t) in m - 1.

Definition getDate (t : Z) : Z := let '(_, _, d) := civil_from_days (dayOf t) in d.

(** [Date.UTC(year, month, day, hour, minute, second)] on integers: a year
    from 0 to 99 counts from 1900, and a month outside 0-11 carries into
    the years.  (The fields the application passes are of at most four
    digits, far inside the range of time values.) *)
Definition UTC (year month day hour minute second : Z) : Z :=
  let year := if (0 <=? year) && (year <=? 99) then 1900 + year else year in
  days_from_civil (year + month / 12) (month mod 12 + 1) day * msPerDay +
  hour * msPerHour + minute * msPerMinute + second * msPerSecond.

End JsDate.

Import JsDate.


(* ================================================================= *)
(** ** Outcomes of calls *)

(** What a call does: it returns a value, throws an [Error] carrying a
    message, or runs forever. *)
Inductive Outcome (A : Type) : Type :=
| Returns (a : A)
| Throws (message : string)
| Diverges.

Arguments Returns {A} a.
Arguments Throws {A} message.
Arguments Diverges {A}.

Definition bind {A B : Type} (c : Outcome A) (k : A -> Outcome B) : Outcome B :=
  match c with
  | Returns a => k a
  | Throws m => Throws m
  | Diverges => Diverges
  end.

Notation "x <- c ;; k" := (bind c (fun x => k))
  (at level 61, c at next level, right associativity).

(** [try { body } catch (error) { handler(error.message) }]. *)
Definition try_catch {A : Type} (body : Outcome A) (handler : string -> Outcome A) : Outcome A :=
  match body with
  | Throws m => handler m
  | o => o
  end.

(** Runs [f] on the elements of [l] in order and joins the results. *)
Fixpoint flat_mapM {A B : Type} (f : A -> Outcome (list B)) (l : list A) : Outcome (list B) :=
  match l with
  | [] => Returns []
  | x :: l' => ys <- f x ;; zs <- flat_mapM f l' ;; Returns (ys ++ zs)
  end.

(* ================================================================= *)
(** ** Numbers of the JavaScript engine *)

(** A number of the engine is a double.  The model keeps the integers and
    computes on them exactly, which is what the engine does as long as the
    values stay below 2^53 in absolute value; where the code can pass that
    bound on dates a [Date] can hold, or reads a numeral, the rounding to
    the nearest double is written out with the definitions below. *)
Module JsNumber.

(** [num / den] rounded to the nearest integer, a tie to the even one. *)
Definition round_half_even (num den : Z) : Z :=
  let q := num / den in
  let r := num mod den in
  if 2 * r <? den then q
  else if den <? 2 * r then q + 1
  else if Z.even q then q else q + 1.

(** The integer part of the double nearest to [p / q], for [0 <= p] and
    [0 < q]; [None] when that double is Infinity.  The double is
    [m * 2 ^ e] with [m] of at most 53 bits and [e] from -1074 on. *)
Definition double_integer_part (p q : Z) : option Z :=
  if p =? 0 then Some 0
  else
    let e0 := Z.log2 p - Z.log2 q - 52 in
    let normal :=
      if 0 <=? e0 then 2 ^ 52 * (q * 2 ^ e0) <=? p
      else 2 ^ 52 * q <=? p * 2 ^ (- e0) in
    let e := Z.max (if normal then e0 else e0 - 1) (-1074) in
    if 0 <=? e then
      let m := round_half_even p (q * 2 ^ e) in
      if 2 ^ 1024 <=? m * 2 ^ e then None else Some (m * 2 ^ e)
    else
      let m := round_half_even (p * 2 ^ (- e)) q in
      Some (m / 2 ^ (- e)).

(** The double nearest to an integer; [None] when it is an infinity. *)
Definition toDouble (x : Z) : option Z :=
  option_map (fun m => Z.sgn x * m) (double_integer_part (Z.abs x) 1).

End JsNumber.

Import JsNumber.

(* ================================================================= *)
(** ** Strings of the JavaScript engine *)

Module JsString.

Definition newline : string := String "010"%char "".

(** A string is falsy exactly when it is empty. *)
Definition truthy (s : string) : bool := negb (s =? "")%string.

(** An optional property is falsy when it is absent or the empty string. *)
Definition truthy_opt (s : option string) : bool :=
  match s with Some s => truthy s | None => false end.

(** [s || ''] on an optional property. *)
Definition or_empty (s : option string) : string :=
  match s with Some s => s | None => "" end.

(** White space and line terminators, as [trim], [Number] and [parseInt]
    skip them: of the code units below 256 these are 9 to 13, the space 32
    and the no-break space 160. *)
Definition is_space (c : ascii) : bool :=
  let n := nat_of_ascii c in
  ((9 <=? n)%nat && (n <=? 13)%nat) || (n =? 32)%nat || (n =? 160)%nat.

Fixpoint trimStart (s : string) : string :=
  match s with
  | String c s' => if is_space c then trimStart s' else s
  | EmptyString => ""
  end.

Fixpoint trimEnd (s : string) : string :=
  match s with
  | String c s' =>
      match trimEnd s' with
      | EmptyString => if is_space c then "" else String c ""
      | r => String c r
      end
  | EmptyString => ""
  end.

(** [String.prototype.trim]. *)
Definition trim (s : string) : string := trimEnd (trimStart s).

(** [s.split(sep)] for a one-character separator. *)
Fixpoint split (sep : ascii) (s : string) : list string :=
  match s with
  | EmptyString => [""]
  | String c s' =>
      if Ascii.eqb c sep then "" :: split sep s'
      else match split sep s' with
           | piece :: pieces => String c piece :: pieces
           | [] => [String c ""]
           end
  end.

(** The value of a hexadecimal digit. *)
Definition hex_value (c : ascii) : option Z :=
  let n := nat_of_ascii c in
  if (48 <=? n)%nat && (n <=? 57)%nat then Some (Z.of_nat (n - 48))
  else if (65 <=? n)%nat && (n <=? 70)%nat then Some (Z.of_nat (n - 55))
  else if (97 <=? n)%nat && (n <=? 102)%nat then Some (Z.of_nat (n - 87))
  else None.

(** The base a prefix [0x], [0o] or [0b] selects, by its letter. *)
Definition base_of_prefix (c : ascii) : option Z :=
  if Ascii.eqb c "x" || Ascii.eqb c "X" then Some 16
  else if Ascii.eqb c "o" || Ascii.eqb c "O" then Some 8
  else if Ascii.eqb c "b" || Ascii.eqb c "B" then Some 2
  else None.

(** The value of a text that consists of digits of the base. *)
Fixpoint read_in_base (base : Z) (s : string) (acc : Z) : option Z :=
  match s with
  | EmptyString => Some acc
  | String c s' =>
      match hex_value c with
      | Some v => if v <? base then read_in_base base s' (base * acc + v) else None
      | None => None
      end
  end.

(** A literal with a prefix, [0x1F], [0o17] or [0b101]: [Some] of what it
    reads as when the text begins with a prefix and goes on. *)
Definition nonDecimalLiteral (s : string) : option (option Z) :=
  match s with
  | String z (String p (String d ds)) =>
      if Ascii.eqb z "0" then
        match base_of_prefix p with
        | Some base =>
            Some (match read_in_base base (String d ds) 0 with
                  | Some v => double_integer_part v 1
                  | None => None
                  end)
        | None => None
        end
      else None
  | _ => None
  end.

(** The digits of a decimal literal, [12], [12.], [12.5] or [.5]: the
    number all its digits write, how many of them follow the point, and
    the rest of the text; [None] when there is no digit. *)
Definition read_mantissa (s : string) : option (Z * nat * string) :=
  let '(whole, k1, rest) := read_number s 0 0 in
  match expect "." rest with
  | Some rest' =>
      let '(all, k2, rest'') := read_number rest' whole 0 in
      if (k1 + k2 =? 0)%nat then None else Some (all, k2, rest'')
  | None => if (k1 =? 0)%nat then None else Some (whole, 0%nat, rest)
  end.

(** The exponent that closes a decimal literal, [e5], [E+5] or [e-5], or
    nothing, which is the exponent 0. *)
Definition read_exponent (s : string) : option Z :=
  match s with
  | EmptyString => Some 0
  | String c s' =>
      if Ascii.eqb c "e" || Ascii.eqb c "E" then
        let '(sign, s'') :=
          match s' with
          | String x r =>
              if Ascii.eqb x "-" then (-1, r)
              else if Ascii.eqb x "+" then (1, r)
              else (1, s')
          | EmptyString => (1, s')
          end in
        match read_number s'' 0 0 with
        | (v, S _, EmptyString) => Some (sign * v)
        | _ => None
        end
      else None
  end.

(** A decimal literal without sign. *)
Definition decimalLiteral (s : string) : option Z :=
  match read_mantissa s with
  | Some (n, k, rest) =>
      match read_exponent rest with
      | Some e =>
          let exponent := e - Z.of_nat k in
          if 0 <=? exponent then double_integer_part (n * 10 ^ exponent) 1
          else double_integer_part n (10 ^ (- exponent))
      | None => None
      end
  | None => None
  end.

(** [Number(s)], by its integer part, which is what [setHours] reads of
    an argument; [None] is NaN or an infinity, with which [setHours] gives
    Invalid Date.  White space around the numeral is skipped and the empty
    text is 0; the numeral is a decimal literal with an optional sign, an
    optional fraction and an optional exponent, or a literal with a prefix
    [0x], [0o] or [0b] and no sign; [Infinity] and every other text give
    [None].  The value is that of the double nearest to the numeral. *)
Definition Number (s : string) : option Z :=
  let s := trim s in
  match s with
  | EmptyString => Some 0
  | String c rest =>
      match nonDecimalLiteral s with
      | Some value => value
      | None =>
          if Ascii.eqb c "-" then option_map Z.opp (decimalLiteral rest)
          else if Ascii.eqb c "+" then decimalLiteral rest
          else decimalLiteral s
      end
  end.

(** [s.replace(/c/g, replacement)] for a pattern of one character. *)
Fixpoint replaceChar (c : ascii) (replacement : string) (s : string) : string :=
  match s with
  | EmptyString => ""
  | String x s' =>
      if Ascii.eqb x c then (replacement ++ replaceChar c replacement s')%string
      else String x (replaceChar c replacement s')
  end.

(** [s.replace(/ab/g, replacement)] for a pattern of two characters: the
    matches are taken from the left and do not overlap. *)
Fixpoint replacePair (a b : ascii) (replacement : string) (s : string) : string :=
  match s with
  | EmptyString => ""
  | String x s' =>
      match s' with
      | String y s'' =>
          if Ascii.eqb x a && Ascii.eqb y b
          then (replacement ++ replacePair a b replacement s'')%string
          else String x (replacePair a b replacement s')
      | EmptyString => s
      end
  end.

(** [s.replace(/[...]/g, '')]: the characters of a class removed. *)
Fixpoint removeChars (class : ascii -> bool) (s : string) : string :=
  match s with
  | EmptyString => ""
  | String x s' => if class x then removeChars class s' else String x (removeChars class s')
  end.

(** [s.replace(/\.\d{3}/, '')]: the first full stop followed by three
    digits is removed with them. *)
Fixpoint removeFraction (s : string) : string :=
  match s with
  | EmptyString => ""
  | String x s' =>
      match s' with
      | String a (String b (String c rest)) =>
          if Ascii.eqb x "." && is_digit a && is_digit b && is_digit c then rest
          else String x (removeFraction s')
      | _ => s
      end
  end.

(** Reads the longest run of hexadecimal digits at the head of [s]. *)
Fixpoint read_hex (s : string) (acc : Z) (k : nat) : Z * nat :=
  match s with
  | String c s' =>
      match hex_value c with
      | Some v => read_hex s' (16 * acc + v) (S k)
      | None => (acc, k)
      end
  | EmptyString => (acc, k)
  end.

(** [parseInt(s)] without radix: leading white space is skipped, a sign
    is read, a prefix [0x] selects base 16, and the longest run of digits
    is the value; [None] is NaN, when there is no digit.  (The value is
    exact: the rounding of integers past 2^53 is not modelled.) *)
Definition parseInt (s : string) : option Z :=
  let s := trimStart s in
  let '(sign, s) :=
    match s with
    | String c r =>
        if Ascii.eqb c "-" then (-1, r)
        else if Ascii.eqb c "+" then (1, r)
        else (1, s)
    | EmptyString => (1, s)
    end in
  let hexadecimal :=
    match s with
    | String z (String x r) =>
        if Ascii.eqb z "0" && (Ascii.eqb x "x" || Ascii.eqb x "X") then Some r else None
    | _ => None
    end in
  match hexadecimal with
  | Some r =>
      match read_hex r 0 0 with
      | (_, O) => None
      | (v, _) => Some (sign * v)
      end
  | None =>
      match read_number s 0 0 with
      | (_, O, _) => None
      | (v, _, _) => Some (sign * v)
      end
  end.

(** [s.substring(from, to)] with [from <= to]. *)
Definition substring (from to : nat) (s : string) : string :=
  String.substring from (to - from) s.

End JsString.

Import JsString.

(* ================================================================= *)
(** ** Entities *)

(** [domain/entities/Doctor.ts]. *)
Record Availability : Type := {
  availability_id : string;
  weekday : Z;                  (* 0-6 (Sunday-Saturday) *)
  startTime : string;           (* "HH:MM" *)
  endTime : string;             (* "HH:MM" *)
  rrule : option string         (* optional RFC rrule string *)
}.

Record TimeSlot : Type := {
  startISO : string;
  endISO : string;
  slot_doctorId : string
}.

Record Doctor : Type := {
  doctor_id : string;
  doctor_name : string;
  specialties : list string;
  weeklyAvailability : list Availability;
  rating : Z;                   (* in tenths; the engine never reads it *)
  doctor_location : string
}.

(** [domain/entities/Appointment.ts]. *)
Inductive AppointmentStatus : Type := scheduled | confirmed | cancelled | completed.

Definition status_eqb (a b : AppointmentStatus) : bool :=
  match a, b with
  | scheduled, scheduled | confirmed, confirmed
  | cancelled, cancelled | completed, completed => true
  | _, _ => false
  end.

Record Appointment : Type := {
  id : string;
  doctorId : string;
  doctorName : string;
  ownerName : string;
  petName : string;
  disease : option string;
  startDateISO : string;
  endDateISO : string;
  status : AppointmentStatus;
  location : option string;
  notes : option string;
  createdAt : option string;
  updatedAt : option string
}.

Record AppointmentCreate : Type := {
  new_doctorId : string;
  new_doctorName : string;
  new_ownerName : string;
  new_petName : string;
  new_disease : option string;
  new_startDateISO : string;
  new_endDateISO : string;
  new_location : option string;
  new_notes : option string
}.

(** The two collections of the storage layer. *)
Record Store : Type := {
  doctors : list Doctor;
  appointments : list Appointment
}.

(* ================================================================= *)
(** ** The rrule library *)

(** [RRule.fromString(descriptor).between(fromDate, toDate, true)] of the
    [rrule] package, which the repository imports: the occurrences it
    returns, or [None] when it throws.  The package reads the clock for the
    default start of a recurrence, so the current instant is an argument. *)
Class RRuleLibrary : Type := {
  rrule_between : Z -> string -> Date -> Date -> option (list Z)
}.

(* ================================================================= *)
(** ** [shared/utils/rruleHelpers.ts] *)

Module RruleHelpers.

(** A block of time, [{ start: Date; end: Date }]. *)
Record Slot : Type := { slot_start : Z; slot_end : Z }.

(** The first loop of [expandAvailabilityToDates]:
    [while (current.getDay() !== weekday && current <= toDate)
       current.setDate(current.getDate() + 1)].
    [fuel] bounds the number of turns. *)
Fixpoint find_weekday (fuel : nat) (weekday toDate current : Z) : Z :=
  match fuel with
  | O => current
  | S fuel' =>
      if negb (getDay current =? weekday) && (current <=? toDate)
      then find_weekday fuel' weekday toDate (addDays current 1)
      else current
  end.

(** The second loop:
    [while (current <= toDate) { dates.push(new Date(current));
       current.setDate(current.getDate() + 7) }]. *)
Fixpoint weekly_from (fuel : nat) (toDate current : Z) : list Z :=
  match fuel with
  | O => []
  | S fuel' =>
      if current <=? toDate
      then current :: weekly_from fuel' toDate (addDays current 7)
      else []
  end.

(** Turns that suffice for a loop which moves [current] up by [step] days
    while [current <= toDate]. *)
Definition turns (step current toDate : Z) : nat :=
  Z.to_nat ((toDate - current) / (step * msPerDay) + 1).

(** The branch [if (!availability.rrule)]: weekly occurrences of the
    weekday.  On an Invalid Date no loop is entered. *)
Definition weeklyOccurrences (weekday : Z) (fromDate toDate : Date) : list Z :=
  match fromDate, toDate with
  | Some from, Some to =>
      let current := find_weekday (turns 1 from to) weekday to from in
      weekly_from (turns 7 current to) to current
  | _, _ => []
  end.

Section WithRRule.
Context {lib : RRuleLibrary}.

(** [expandAvailabilityToDates(availability, fromDate, toDate)].  The
    [catch] branch calls the function again with [rrule: undefined], which
    is the branch without a descriptor. *)
Definition expandAvailabilityToDates (now : Z) (availability : Availability)
    (fromDate toDate : Date) : list Z :=
  if negb (truthy_opt (rrule availability)) then
    weeklyOccurrences (weekday availability) fromDate toDate
  else
    match rrule_between now (or_empty (rrule availability)) fromDate toDate with
    | Some occurrences => occurrences
    | None => weeklyOccurrences (weekday availability) fromDate toDate
    end.

End WithRRule.

(** The loop of [generateSlotsForBlock], [step] being the duration in
    milliseconds:
    [while (current < endDatetime) {
       slotEnd = current + step;
       if (slotEnd <= endDatetime) slots.push({start: current, end: slotEnd});
       current += step }]. *)
Fixpoint slots_from (fuel : nat) (endDatetime step current : Z) : list Slot :=
  match fuel with
  | O => []
  | S fuel' =>
      if current <? endDatetime then
        let slotEnd := current + step in
        (if slotEnd <=? endDatetime
         then [{| slot_start := current; slot_end := slotEnd |}] else [])
        ++ slots_from fuel' endDatetime step (current + step)
      else []
  end.

(** The same loop where the step is negative and [current] moves down:
    it goes on until [current + step] leaves the range of a [Date].
    There [slotEnd] is Invalid Date, which compares false with everything,
    no slot is pushed, [setTime] makes [current] Invalid Date too, and the
    test of the loop fails. *)
Fixpoint slots_back (fuel : nat) (endDatetime step current : Z) : list Slot :=
  match fuel with
  | O => []
  | S fuel' =>
      if current <? endDatetime then
        match timeClip (current + step) with
        | Some slotEnd =>
            (if slotEnd <=? endDatetime
             then [{| slot_start := current; slot_end := slotEnd |}] else [])
            ++ slots_back fuel' endDatetime step slotEnd
        | None => []
        end
      else []
  end.

(** [generateSlotsForBlock(startDatetime, endDatetime, slotDurationMinutes)],
    for a whole number of minutes.  On a block that is not empty: with a
    positive duration the loop ends once [current] has reached the end of
    the block; with a negative one it ends once [current] has left the
    range of a [Date], after a turn for every step that fits between the
    block start and the lower end of the range; with the duration 0
    [current] never moves and the loop runs forever. *)
Definition generateSlotsForBlock (startDatetime endDatetime : Date)
    (slotDurationMinutes : Z) : Outcome (list Slot) :=
  match startDatetime, endDatetime with
  | Some s, Some e =>
      let step := slotDurationMinutes * 60 * 1000 in
      if s <? e then
        if 0 <? step
        then Returns (slots_from (Z.to_nat ((e - s) / step + 1)) e step s)
        else if step <? 0
        then Returns (slots_back (Z.to_nat ((s + maxTime) / (- step) + 1)) e step s)
        else Diverges
      else Returns []
  | _, _ => Returns []
  end.

(** [combineDateAndTime(date, timeString)]:
    [[hours, minutes] = timeString.split(':').map(Number)], then
    [setHours(hours, minutes, 0, 0)]; a NaN field gives Invalid Date. *)
Definition combineDateAndTime (date : Z) (timeString : string) : Date :=
  match map Number (split ":" timeString) with
  | Some hours :: Some minutes :: _ => Some (setHours date hours minutes 0 0)
  | _ => None
  end.

End RruleHelpers.

Import RruleHelpers.

(* ================================================================= *)
(** ** [data/repositories/AppointmentRepositoryImpl.ts] *)

Module Repository.

Section WithEngine.
Context {engine : JsEngine}.

Definition getDoctorById (st : Store) (doctorId : string) : option Doctor :=
  find (fun doctor => (doctor_id doctor =? doctorId)%string) (doctors st).

Definition getAppointmentById (st : Store) (appointmentId : string) : option Appointment :=
  find (fun appointment => (id appointment =? appointmentId)%string) (appointments st).

Definition createAppointment (st : Store) (appointment : Appointment) : Store :=
  {| doctors := doctors st; appointments := appointments st ++ [appointment] |}.

(** [array.findIndex(p)]; [None] is -1. *)
Fixpoint findIndex {A : Type} (p : A -> bool) (l : list A) : option nat :=
  match l with
  | [] => None
  | x :: l' => if p x then Some O else option_map S (findIndex p l')
  end.

(** [array[index] = value] at an index inside the array. *)
Fixpoint assign {A : Type} (index : nat) (value : A) (l : list A) : list A :=
  match l, index with
  | [], _ => []
  | _ :: l', O => value :: l'
  | x :: l', S i => x :: assign i value l'
  end.

Definition updateAppointment (st : Store) (appointment : Appointment) : Outcome Store :=
  match findIndex (fun a => (id a =? id appointment)%string) (appointments st) with
  | None => Throws ("Appointment with ID " ++ id appointment ++ " not found")%string
  | Some index =>
      Returns {| doctors := doctors st;
                 appointments := assign index appointment (appointments st) |}
  end.

Definition getAppointmentsByDoctorAndDateRange (st : Store)
    (doctor : string) (startDate endDate : string) : list Appointment :=
  let start := parseDate startDate in
  let end_ := parseDate endDate in
  filter (fun appointment =>
    if negb (doctorId appointment =? doctor)%string then false
    else
      let appointmentStart := parseDate (startDateISO appointment) in
      let appointmentEnd := parseDate (endDateISO appointment) in
      (date_geb appointmentStart start && date_leb appointmentStart end_) ||
      (date_geb appointmentEnd start && date_leb appointmentEnd end_) ||
      (date_leb appointmentStart start && date_geb appointmentEnd end_))
    (appointments st).

Definition createDoctor (st : Store) (doctor : Doctor) : Store :=
  {| doctors := doctors st ++ [doctor]; appointments := appointments st |}.

Definition updateDoctor (st : Store) (doctor : Doctor) : Outcome Store :=
  match findIndex (fun d => (doctor_id d =? doctor_id doctor)%string) (doctors st) with
  | None => Throws ("Doctor with ID " ++ doctor_id doctor ++ " not found")%string
  | Some index =>
      Returns {| doctors := assign index doctor (doctors st);
                 appointments := appointments st |}
  end.

(** [deleteAppointment(id)]: every appointment with the identifier is
    filtered out; when none was, the call throws. *)
Definition deleteAppointment (st : Store) (appointmentId : string) : Outcome Store :=
  let filteredAppointments :=
    filter (fun a => negb (id a =? appointmentId)%string) (appointments st) in
  if (List.length filteredAppointments =? List.length (appointments st))%nat
  then Throws ("Appointment with ID " ++ appointmentId ++ " not found")%string
  else Returns {| doctors := doctors st; appointments := filteredAppointments |}.

Definition getAppointmentsByDoctorId (st : Store) (doctor : string) : list Appointment :=
  filter (fun appointment => (doctorId appointment =? doctor)%string) (appointments st).

Definition getAppointmentsByDateRange (st : Store)
    (startDate endDate : string) : list Appointment :=
  let start := parseDate startDate in
  let end_ := parseDate endDate in
  filter (fun appointment =>
      let appointmentStart := parseDate (startDateISO appointment) in
      let appointmentEnd := parseDate (endDateISO appointment) in
      (date_geb appointmentStart start && date_leb appointmentStart end_) ||
      (date_geb appointmentEnd start && date_leb appointmentEnd end_) ||
      (date_leb appointmentStart start && date_geb appointmentEnd end_))
    (appointments st).

End WithEngine.

End Repository.

Import Repository.

(* ================================================================= *)
(** ** [domain/usecases/GetAvailableSlotsUseCase.ts] *)

Module GetAvailableSlotsUseCase.

Section WithEngine.
Context {engine : JsEngine}.

(** The overlap test of [filterBookedSlots] between a slot and an
    appointment that is not cancelled. *)
Definition overlaps (slotStart slotEnd appointmentStart appointmentEnd : Date) : bool :=
  (date_geb slotStart appointmentStart && date_ltb slotStart appointmentEnd) ||
  (date_gtb slotEnd appointmentStart && date_leb slotEnd appointmentEnd) ||
  (date_leb slotStart appointmentStart && date_geb slotEnd appointmentEnd).

(** The callback of [existingAppointments.some(...)]. *)
Definition conflictsWith (slot : TimeSlot) (appointment : Appointment) : bool :=
  if status_eqb (status appointment) cancelled then false
  else overlaps (parseDate (startISO slot)) (parseDate (endISO slot))
                (parseDate (startDateISO appointment)) (parseDate (endDateISO appointment)).

Definition filterBookedSlots (allSlots : list TimeSlot)
    (existingAppointments : list Appointment) : list TimeSlot :=
  filter (fun slot =>
            let hasConflict := existsb (conflictsWith slot) existingAppointments in
            negb hasConflict)
         allSlots.

(** The comparator of the final sort,
    [new Date(a.startISO).getTime() - new Date(b.startISO).getTime()];
    a NaN result counts as 0. *)
Definition compareSlots (a b : TimeSlot) : Z :=
  match parseDate (startISO a), parseDate (startISO b) with
  | Some x, Some y => x - y
  | _, _ => 0
  end.

(** [Array.prototype.sort] with a comparator is a stable sort; it is
    modelled by insertion from the right, which keeps the order of
    elements that compare equal. *)
Fixpoint insertSorted {A : Type} (cmp : A -> A -> Z) (x : A) (l : list A) : list A :=
  match l with
  | [] => [x]
  | y :: l' => if cmp x y <=? 0 then x :: l else y :: insertSorted cmp x l'
  end.

Fixpoint sort {A : Type} (cmp : A -> A -> Z) (l : list A) : list A :=
  match l with
  | [] => []
  | x :: l' => insertSorted cmp x (sort cmp l')
  end.

Section WithRRule.
Context {lib : RRuleLibrary}.

(** The body of the loop [for (const date of availableDates)]. *)
Definition slotsOfDate (now : Z) (doctor : Doctor) (availability : Availability)
    (slotDurationMinutes : Z) (date : Z) : Outcome (list TimeSlot) :=
  let startDateTime := combineDateAndTime date (startTime availability) in
  let endDateTime := combineDateAndTime date (endTime availability) in
  if date_ltb endDateTime (Some now) then Returns []
  else
    timeSlots <- generateSlotsForBlock startDateTime endDateTime slotDurationMinutes ;;
    Returns (map (fun slot => {| startISO := toISOString (slot_start slot);
                                 endISO := toISOString (slot_end slot);
                                 slot_doctorId := doctor_id doctor |})
                 (filter (fun slot => negb (slot_start slot <? now)) timeSlots)).

Definition generateAllPossibleSlots (now : Z) (doctor : Doctor)
    (startDate endDate : Date) (slotDurationMinutes : Z) : Outcome (list TimeSlot) :=
  flat_mapM (fun availability =>
               let availableDates :=
                 expandAvailabilityToDates now availability startDate endDate in
               flat_mapM (slotsOfDate now doctor availability slotDurationMinutes)
                         availableDates)
            (weeklyAvailability doctor).

(** [execute(doctorId, fromDate, toDate, slotDurationMinutes = 30)]; its
    [catch] logs and throws the error again. *)
Definition execute (st : Store) (now : Z) (doctor : string) (fromDate toDate : string)
    (slotDurationMinutes : Z) : Outcome (list TimeSlot) :=
  match getDoctorById st doctor with
  | None => Throws ("Doctor with ID " ++ doctor ++ " not found")%string
  | Some doctor' =>
      let existingAppointments :=
        getAppointmentsByDoctorAndDateRange st doctor fromDate toDate in
      let startDate := parseDate fromDate in
      let endDate := parseDate toDate in
      allPossibleSlots <-
        generateAllPossibleSlots now doctor' startDate endDate slotDurationMinutes ;;
      let availableSlots := filterBookedSlots allPossibleSlots existingAppointments in
      Returns (sort compareSlots availableSlots)
  end.

(** [getNextAvailableSlots(doctorId, count = 3, slotDurationMinutes = 30)];
    [count] is a natural number, as at every call. *)
Definition getNextAvailableSlots (st : Store) (now : Z) (doctor : string)
    (count : nat) (slotDurationMinutes : Z) : Outcome (list TimeSlot) :=
  let futureDate := addDays now 30 in
  allSlots <- execute st now doctor (toISOString now) (toISOString futureDate)
                      slotDurationMinutes ;;
  Returns (firstn count allSlots).

End WithRRule.

End WithEngine.

End GetAvailableSlotsUseCase.

(* ================================================================= *)
(** ** [domain/usecases/BookAppointmentUseCase.ts] *)

Record BookingResult : Type := {
  success : bool;
  appointment : option Appointment;
  error : option string;
  nextAvailableSlots : option (list (string * string))   (* startISO, endISO *)
}.

Module BookAppointmentUseCase.

Section WithEngine.
Context {engine : JsEngine}.

Definition failure (message : string) : BookingResult :=
  {| success := false; appointment := None; error := Some message;
     nextAvailableSlots := None |}.

Definition unavailable (message : string) (nextSlots : list TimeSlot) : BookingResult :=
  {| success := false; appointment := None; error := Some message;
     nextAvailableSlots := Some (map (fun slot => (startISO slot, endISO slot)) nextSlots) |}.

Definition booked (a : Appointment) : BookingResult :=
  {| success := true; appointment := Some a; error := None;
     nextAvailableSlots := None |}.

Section WithRRule.
Context {lib : RRuleLibrary}.

(** [validateSlotAvailability(doctorId, startISO, endISO)].  On an Invalid
    Date [dayStart.toISOString()] throws a RangeError, which the [catch]
    turns into [false] as it does every other error. *)
Definition validateSlotAvailability (st : Store) (now : Z)
    (doctor startISO' endISO' : string) : Outcome bool :=
  try_catch
    (match parseDate startISO' with
     | None => Throws invalidTimeValue
     | Some requestedDate =>
         let dayStart := setHours requestedDate 0 0 0 0 in
         let dayEnd := setHours requestedDate 23 59 59 999 in
         availableSlots <-
           GetAvailableSlotsUseCase.execute st now doctor
             (toISOString dayStart) (toISOString dayEnd) 30 ;;
         Returns (existsb (fun slot => (startISO slot =? startISO')%string &&
                                       (endISO slot =? endISO')%string)
                          availableSlots)
     end)
    (fun _ => Returns false).

(** [execute(appointmentData)]: books an appointment.  [uuid] is the
    identifier [generateUUID()] draws.  The result comes with the store as
    the call leaves it. *)
Definition execute (st : Store) (now : Z) (uuid : string)
    (appointmentData : AppointmentCreate) : Outcome (BookingResult * Store) :=
  try_catch
    (if negb (truthy (new_doctorId appointmentData))
        || negb (truthy (new_startDateISO appointmentData))
        || negb (truthy (new_endDateISO appointmentData))
     then Returns (failure "Missing required appointment data", st)
     else
       let startTime := parseDate (new_startDateISO appointmentData) in
       let endTime := parseDate (new_endDateISO appointmentData) in
       if date_leb endTime startTime
       then Returns (failure "End time must be after start time", st)
       else if date_ltb startTime (Some now)
       then Returns (failure "Cannot book appointments in the past", st)
       else
         isSlotAvailable <-
           validateSlotAvailability st now (new_doctorId appointmentData)
             (new_startDateISO appointmentData) (new_endDateISO appointmentData) ;;
         if negb isSlotAvailable then
           nextSlots <-
             GetAvailableSlotsUseCase.getNextAvailableSlots st now
               (new_doctorId appointmentData) 3 30 ;;
           Returns (unavailable "Slot already booked" nextSlots, st)
         else
           let appointment' :=
             {| id := uuid;
                doctorId := new_doctorId appointmentData;
                doctorName := new_doctorName appointmentData;
                ownerName := new_ownerName appointmentData;
                petName := new_petName appointmentData;
                disease := new_disease appointmentData;
                startDateISO := new_startDateISO appointmentData;
                endDateISO := new_endDateISO appointmentData;
                status := scheduled;
                location := new_location appointmentData;
                notes := new_notes appointmentData;
                createdAt := Some (toISOString now);
                updatedAt := Some (toISOString now) |} in
           Returns (booked appointment', createAppointment st appointment'))
    (fun message => Returns (failure message, st)).

(** The appointment [reschedule] writes:
    [{...existingAppointment, startDateISO, endDateISO, updatedAt}]. *)
Definition rescheduled (existing : Appointment) (now : Z)
    (newStartISO newEndISO : string) : Appointment :=
  {| id := id existing;
     doctorId := doctorId existing;
     doctorName := doctorName existing;
     ownerName := ownerName existing;
     petName := petName existing;
     disease := disease existing;
     startDateISO := newStartISO;
     endDateISO := newEndISO;
     status := status existing;
     location := location existing;
     notes := notes existing;
     createdAt := createdAt existing;
     updatedAt := Some (toISOString now) |}.

(** [reschedule(appointmentId, newStartISO, newEndISO)]. *)
Definition reschedule (st : Store) (now : Z)
    (appointmentId newStartISO newEndISO : string) : Outcome (BookingResult * Store) :=
  try_catch
    (match getAppointmentById st appointmentId with
     | None => Returns (failure "Appointment not found", st)
     | Some existingAppointment =>
         isSlotAvailable <-
           validateSlotAvailability st now (doctorId existingAppointment)
             newStartISO newEndISO ;;
         if negb isSlotAvailable then
           nextSlots <-
             GetAvailableSlotsUseCase.getNextAvailableSlots st now
               (doctorId existingAppointment) 3 30 ;;
           Returns (unavailable "New slot already booked" nextSlots, st)
         else
           let updatedAppointment :=
             rescheduled existingAppointment now newStartISO newEndISO in
           st' <- updateAppointment st updatedAppointment ;;
           Returns (booked updatedAppointment, st')
     end)
    (fun message => Returns (failure message, st)).

(** The loop of [executeMultiple(appointmentsData)]: the requests are
    booked one after the other, each on the store the one before left.
    The request at position [k] reads the clock as [clock k] and draws the
    identifier [uuid k]. *)
Fixpoint executeMultiple_from (k : nat) (st : Store) (clock : nat -> Z)
    (uuid : nat -> string) (appointmentsData : list AppointmentCreate)
    : Outcome (list BookingResult * Store) :=
  match appointmentsData with
  | [] => Returns ([], st)
  | appointmentData :: rest =>
      first <- execute st (clock k) (uuid k) appointmentData ;;
      others <- executeMultiple_from (S k) (snd first) clock uuid rest ;;
      Returns (fst first :: fst others, snd others)
  end.

(** [executeMultiple(appointmentsData)]. *)
Definition executeMultiple (st : Store) (clock : nat -> Z) (uuid : nat -> string)
    (appointmentsData : list AppointmentCreate) : Outcome (list BookingResult * Store) :=
  executeMultiple_from 0 st clock uuid appointmentsData.

End WithRRule.

End WithEngine.

End BookAppointmentUseCase.

(* ================================================================= *)
(** ** [domain/usecases/CancelAppointmentUseCase.ts] *)

Record CancelResult : Type := {
  cancel_success : bool;
  cancel_appointment : option Appointment;
  cancel_error : option string
}.

Module CancelAppointmentUseCase.

Section WithEngine.
Context {engine : JsEngine}.

Definition failure (message : string) : CancelResult :=
  {| cancel_success := false; cancel_appointment := None; cancel_error := Some message |}.

(** The [notes] of a cancelled appointment:
    [reason ? `${notes || ''}\nCancellation reason: ${reason}`.trim() : notes]. *)
Definition cancelledNotes (existingNotes reason : option string) : option string :=
  if truthy_opt reason
  then Some (trim (or_empty existingNotes ++ newline ++ "Cancellation reason: "
                   ++ or_empty reason)%string)
  else existingNotes.

(** The appointment [execute] writes:
    [{...existingAppointment, status: 'cancelled', notes, updatedAt}]. *)
Definition cancelledAppointment (existing : Appointment) (now : Z)
    (reason : option string) : Appointment :=
  {| id := id existing;
     doctorId := doctorId existing;
     doctorName := doctorName existing;
     ownerName := ownerName existing;
     petName := petName existing;
     disease := disease existing;
     startDateISO := startDateISO existing;
     endDateISO := endDateISO existing;
     status := cancelled;
     location := location existing;
     notes := cancelledNotes (notes existing) reason;
     createdAt := createdAt existing;
     updatedAt := Some (toISOString now) |}.

(** [execute(appointmentId, reason?)]: cancels an appointment. *)
Definition execute (st : Store) (now : Z) (appointmentId : string)
    (reason : option string) : Outcome (CancelResult * Store) :=
  try_catch
    (match getAppointmentById st appointmentId with
     | None => Returns (failure "Appointment not found", st)
     | Some existingAppointment =>
         if status_eqb (status existingAppointment) cancelled
         then Returns (failure "Appointment is already cancelled", st)
         else
           let appointmentStart := parseDate (startDateISO existingAppointment) in
           if date_ltb appointmentStart (Some now)
           then Returns (failure "Cannot cancel past appointments", st)
           else
             let cancelled' := cancelledAppointment existingAppointment now reason in
             st' <- updateAppointment st cancelled' ;;
             Returns ({| cancel_success := true;
                         cancel_appointment := Some cancelled';
                         cancel_error := None |}, st')
     end)
    (fun message => Returns (failure message, st)).

(** The loop of [executeMultiple(appointmentIds, reason)]: one cancellation
    after the other, each on the store the one before left; the one at
    position [k] reads the clock as [clock k]. *)
Fixpoint executeMultiple_from (k : nat) (st : Store) (clock : nat -> Z)
    (appointmentIds : list string) (reason : option string)
    : Outcome (list CancelResult * Store) :=
  match appointmentIds with
  | [] => Returns ([], st)
  | appointmentId :: rest =>
      first <- execute st (clock k) appointmentId reason ;;
      others <- executeMultiple_from (S k) (snd first) clock rest reason ;;
      Returns (fst first :: fst others, snd others)
  end.

(** [executeMultiple(appointmentIds, reason?)]. *)
Definition executeMultiple (st : Store) (clock : nat -> Z)
    (appointmentIds : list string) (reason : option string)
    : Outcome (list CancelResult * Store) :=
  executeMultiple_from 0 st clock appointmentIds reason.

(** The appointments [cancelDoctorAppointmentsForDate] selects: those of
    the provider which the range query returns for the day and which are
    not cancelled. *)
Definition activeAppointmentsOfDay (st : Store) (doctor : string) (day : Z)
    : list Appointment :=
  let dayStart := setHours day 0 0 0 0 in
  let dayEnd := setHours day 23 59 59 999 in
  let appointments' :=
    getAppointmentsByDoctorAndDateRange st doctor
      (toISOString dayStart) (toISOString dayEnd) in
  filter (fun apt => negb (status_eqb (status apt) cancelled)) appointments'.

(** [cancelDoctorAppointmentsForDate(doctorId, date, reason)].  On an
    Invalid Date [dayStart.toISOString()] throws a RangeError before
    anything is written, and the [catch] answers with one failure. *)
Definition cancelDoctorAppointmentsForDate (st : Store) (clock : nat -> Z)
    (doctor date reason : string) : Outcome (list CancelResult * Store) :=
  try_catch
    (match parseDate date with
     | None => Throws invalidTimeValue
     | Some day =>
         let activateAppointments := activeAppointmentsOfDay st doctor day in
         let appointmentIds := map id activateAppointments in
         executeMultiple st clock appointmentIds (Some reason)
     end)
    (fun message => Returns ([failure message], st)).

End WithEngine.

End CancelAppointmentUseCase.

(* ================================================================= *)
(** ** [shared/utils/date.ts] *)

(** The helpers take a [Date] object; where the source also takes a
    string, [new Date] reads it first, which is [parseDate] here. *)
Module DateUtils.



(** [isSameDay(date1, date2)]: year, month and day of month are compared
    with [===]; on an Invalid Date they are NaN, which equals nothing. *)
Definition isSameDay (date1 date2 : Date) : bool :=
  match date1, date2 with
  | Some d1, Some d2 =>
      (getFullYear d1 =? getFullYear d2) && (getMonth d1 =? getMonth d2) &&
      (getDate d1 =? getDate d2)
  | _, _ => false
  end.

(** [getDaysBetween(startDate, endDate)]:
    [Math.ceil(timeDiff / (1000 * 3600 * 24))]; [None] is NaN.  The
    difference of the two time values is a double: the difference itself
    below 2^53, the double nearest to it above.  For the dates a [Date]
    can hold, the quotient the engine computes has the ceiling of the
    exact one. *)
Definition getDaysBetween (startDate endDate : Date) : option Z :=
  match startDate, endDate with
  | Some start, Some end_ =>
      option_map (fun timeDiff => - ((- timeDiff) / (1000 * 3600 * 24)))
                 (toDouble (end_ - start))
  | _, _ => None
  end.

(** [addDays(date, days)], for a whole number of days. *)
Definition addDays (date : Date) (days : Z) : Date :=
  option_map (fun t => JsDate.addDays t days) date.

(** [getNextWeekday(weekday, fromDate)]; [%] is the remainder of
    JavaScript, which has the sign of the dividend. *)
Definition getNextWeekday (weekday : Z) (from : Date) : Date :=
  option_map (fun t =>
    let daysUntilWeekday := Z.rem (weekday - getDay t + 7) 7 in
    JsDate.addDays t (if daysUntilWeekday =? 0 then 7 else daysUntilWeekday))
    from.

(** [isToday(date)]. *)
Definition isToday (now : Z) (date : Date) : bool := isSameDay date (Some now).

(** [isTomorrow(date)]. *)
Definition isTomorrow (now : Z) (date : Date) : bool :=
  let tomorrow := addDays (Some now) 1 in
  isSameDay date tomorrow.

(** [getDurationInMinutes(startDate, endDate)]:
    [Math.round(milliseconds / (1000 * 60))], which rounds a half up.  The
    difference is a double, as in [getDaysBetween], and for the dates a
    [Date] can hold the quotient the engine computes rounds as the exact
    one does. *)
Definition getDurationInMinutes (startDate endDate : Date) : option Z :=
  match startDate, endDate with
  | Some start, Some end_ =>
      option_map (fun milliseconds => (2 * milliseconds + 1000 * 60) / (2 * (1000 * 60)))
                 (toDouble (end_ - start))
  | _, _ => None
  end.

End DateUtils.

(* ================================================================= *)
(** ** [LocalStorageDataSource.ts]: the date of the seeded appointment *)

Module LocalStorageDataSource.

(** [getNextMondayAt(time)]. *)
Definition getNextMondayAt (now : Z) (time : string) : Date :=
  match map Number (split ":" time) with
  | Some hours :: Some minutes :: _ =>
      let remainder := Z.rem (1 - getDay now + 7) 7 in
      let daysUntilMonday := if remainder =? 0 then 7 else remainder in
      let nextMonday := addDays now daysUntilMonday in
      Some (setHours nextMonday hours minutes 0 0)
  | _ => None
  end.

End LocalStorageDataSource.

(* ================================================================= *)
(** ** [shared/utils/icalHelpers.ts] *)

Module IcalHelpers.

Definition backslash : ascii := "\"%char.

Definition lineFeed : ascii := "010"%char.

Definition carriageReturn : ascii := "013"%char.

(** [formatDateForICal(date)] on a valid date:
    [date.toISOString().replace(/[-:]/g, '').replace(/\.\d{3}/, '')]. *)
Definition formatDateForICal (date : Z) : string :=
  removeFraction
    (removeChars (fun c => Ascii.eqb c "-" || Ascii.eqb c ":") (toISOString date)).

(** [parseInt(...) || 0]. *)
Definition or_zero (n : option Z) : Z := match n with Some v => v | None => 0 end.

(** [parseICalDate(icalDate)]; a NaN year, month or day gives Invalid
    Date. *)
Definition parseICalDate (icalDate : string) : Date :=
  let cleanDate := removeChars (fun c => Ascii.eqb c "T" || Ascii.eqb c "Z") icalDate in
  let year := parseInt (substring 0 4 cleanDate) in
  let month := option_map (fun m => m - 1) (parseInt (substring 4 6 cleanDate)) in
  let day := parseInt (substring 6 8 cleanDate) in
  let hour := or_zero (parseInt (substring 8 10 cleanDate)) in
  let minute := or_zero (parseInt (substring 10 12 cleanDate)) in
  let second := or_zero (parseInt (substring 12 14 cleanDate)) in
  match year, month, day with
  | Some year, Some month, Some day => Some (UTC year month day hour minute second)
  | _, _, _ => None
  end.

(** [escapeICalText(text)]. *)
Definition escapeICalText (text : string) : string :=
  replaceChar carriageReturn ""
    (replaceChar lineFeed (String backslash "n")
       (replaceChar "," (String backslash ",")
          (replaceChar ";" (String backslash ";")
             (replaceChar backslash (String backslash (String backslash "")) text)))).

(** [unescapeICalText(text)]. *)
Definition unescapeICalText (text : string) : string :=
  replacePair backslash backslash (String backslash "")
    (replacePair backslash ";" ";"
       (replacePair backslash "," ","
          (replacePair backslash "n" (String lineFeed "") text))).

End IcalHelpers.

(* ================================================================= *)
(** ** The error conditions of the specification *)

(** The specification names the failures of the engine by kind; the code
    reports them by message. *)
Inductive ErrorKind : Type :=
| InvalidRequest | InThePast | SlotUnavailable | NotFound | AlreadyCancelled.

(** The kind of a message.  An unknown provider is reported by the message
    [GetAvailableSlotsUseCase.execute] throws, which carries its
    identifier. *)
Definition kindOf (message : string) : option ErrorKind :=
  if (message =? "Missing required appointment data")%string then Some InvalidRequest
  else if (message =? "End time must be after start time")%string then Some InvalidRequest
  else if (message =? "Cannot book appointments in the past")%string then Some InThePast
  else if (message =? "Cannot cancel past appointments")%string then Some InThePast
  else if (message =? "Slot already booked")%string then Some SlotUnavailable
  else if (message =? "New slot already booked")%string then Some SlotUnavailable
  else if (message =? "Appointment not found")%string then Some NotFound
  else if prefix "Doctor with ID " message then Some NotFound
  else if (message =? "Appointment is already cancelled")%string then Some AlreadyCancelled
  else None.

(** A result reports a failure of kind [k]. *)
Definition reports (k : ErrorKind) (e : option string) : Prop :=
  match e with Some m => kindOf m = Some k | None => False end.

(* ================================================================= *)
(** ** The properties in the words of the specification *)

Section InTheWordsOfTheSpecification.
Context {engine : JsEngine}.

(** Comparisons of [Date] objects as propositions: both dates are valid
    and their instants compare. *)
Definition date_le (a b : Date) : Prop :=
  exists x y, a = Some x /\ b = Some y /\ x <= y.

Definition date_lt (a b : Date) : Prop :=
  exists x y, a = Some x /\ b = Some y /\ x < y.

(** The overlap predicate of the Conflict Filter between a slot [s1, e1)
    and an appointment [s2, e2): [s1] in [s2, e2), or [e1] in (s2, e2], or
    the slot contains the appointment. *)
Definition overlap_spec (s1 e1 s2 e2 : Date) : Prop :=
  (date_le s2 s1 /\ date_lt s1 e2) \/
  (date_lt s2 e1 /\ date_le e1 e2) \/
  (date_le s1 s2 /\ date_le e2 e1).

(** A candidate is blocked by a list of appointments when one that is not
    cancelled overlaps it. *)
Definition blocked (slot : TimeSlot) (existing : list Appointment) : Prop :=
  exists a, In a existing /\ status a <> cancelled /\
    overlap_spec (parseDate (startISO slot)) (parseDate (endISO slot))
                 (parseDate (startDateISO a)) (parseDate (endDateISO a)).

(** The slots of the Slot Slicer: steps of [step] milliseconds from the
    block start, as many as fit before the block end. *)
Definition slices (blockStart blockEnd step : Z) : list Slot :=
  map (fun k => {| slot_start := blockStart + Z.of_nat k * step;
                   slot_end := blockStart + Z.of_nat k * step + step |})
      (seq 0 (Z.to_nat ((blockEnd - blockStart) / step))).

(** The slots of the Slot Slicer for a negative step: steps down from
    the block start, as many as fit above the lower end of the range of a
    [Date]; each slot ends before it starts. *)
Definition slices_back (blockStart step : Z) : list Slot :=
  map (fun k => {| slot_start := blockStart + Z.of_nat k * step;
                   slot_end := blockStart + Z.of_nat k * step + step |})
      (seq 0 (Z.to_nat ((blockStart + maxTime) / (- step)))).

(** A date and every seventh day after it, up to [to]. *)
Definition every_seventh (to first : Z) : list Z :=
  map (fun k => addDays first (7 * Z.of_nat k))
      (seq 0 (Z.to_nat ((to - first) / (7 * msPerDay) + 1))).

(** The dates of the Recurrence Expander for a rule without descriptor:
    the first day from [from] on whose weekday is the rule's, and every
    seventh day after it, up to [to]. *)
Definition weekly_spec (weekday from to : Z) : list Z :=
  if (0 <=? weekday) && (weekday <=? 6)
  then every_seventh to (addDays from ((weekday - getDay from) mod 7))
  else [].

(** A time slot starts no later than another: both starts are valid
    dates, in this order. *)
Definition starts_before (a b : TimeSlot) : Prop :=
  date_le (parseDate (startISO a)) (parseDate (startISO b)).

(** A slot whose start is a valid date. *)
Definition starts_valid (slot : TimeSlot) : Prop :=
  exists t, parseDate (startISO slot) = Some t.

(** The candidate a block contributes for one of its slots. *)
Definition candidate (doctor : Doctor) (slot : Slot) : TimeSlot :=
  {| startISO := toISOString (slot_start slot);
     endISO := toISOString (slot_end slot);
     slot_doctorId := doctor_id doctor |}.

(** What a store holds after an appointment was replaced at [index]. *)
Definition replacedAt (st st' : Store) (index : nat) (updated : Appointment) : Prop :=
  doctors st' = doctors st /\
  List.length (appointments st') = List.length (appointments st) /\
  nth_error (appointments st') index = Some updated /\
  forall j, j <> index -> nth_error (appointments st') j = nth_error (appointments st) j.

(** The occurrences [between(fromDate, toDate, true)] returns lie between
    the two dates, the ends included: what the [rrule] package documents
    of it. *)
Definition between_in_range (lib : RRuleLibrary) : Prop :=
  forall now descriptor from to occurrences,
    rrule_between now descriptor (Some from) (Some to) = Some occurrences ->
    forall date, In date occurrences -> from <= date <= to.

(** A rule whose block ends within the day it begins on: its end time, as
    [combineDateAndTime] reads it, is before 24:00. *)
Definition endsWithinDay (availability : Availability) : bool :=
  match map Number (split ":" (endTime availability)) with
  | Some hours :: Some minutes :: _ => hours * msPerHour + minutes * msPerMinute <? msPerDay
  | _ => true
  end.

(** A time of day as the rules of a provider write it, "HH:MM": hours
    from 0 to 23 and minutes from 0 to 59, as [combineDateAndTime] reads
    the text. *)
Definition timeOfDay (time : string) : bool :=
  match map Number (split ":" time) with
  | Some hours :: Some minutes :: _ =>
      (0 <=? hours) && (hours <=? 23) && (0 <=? minutes) && (minutes <=? 59)
  | _ => false
  end.

(** A rule that keeps to its day: its start and its end are times of
    day. *)
Definition keepsToItsDay (availability : Availability) : bool :=
  timeOfDay (startTime availability) && timeOfDay (endTime availability).

(** The appointments a list of booking results reports as created. *)
Definition createdBy (results : list BookingResult) : list Appointment :=
  flat_map (fun result => match appointment result with Some a => [a] | None => [] end)
           results.

(** What a cancellation may change of an appointment: the identifier, the
    provider, the owner, the pet and the times stay, and the status stays
    or becomes [cancelled]. *)
Definition keptOrCancelled (before after : Appointment) : Prop :=
  id after = id before /\ doctorId after = doctorId before /\
  ownerName after = ownerName before /\ petName after = petName before /\
  startDateISO after = startDateISO before /\ endDateISO after = endDateISO before /\
  (status after = status before \/ status after = cancelled).

(** [st'] holds the providers of [st], and each of its appointments is
    one of [st] or is cancelled. *)
Definition freer (st st' : Store) : Prop :=
  doctors st' = doctors st /\
  forall a, In a (appointments st') -> In a (appointments st) \/ status a = cancelled.

End InTheWordsOfTheSpecification.

Section Candidates.
Context {engine : JsEngine}.
Context {lib : RRuleLibrary}.

(** The candidates of one expanded date of a rule: the slots of the block
    of that date which do not start in the past. *)
Definition candidatesOfDate (now : Z) (doctor : Doctor) (availability : Availability)
    (slotDurationMinutes : Z) (date : Z) : list TimeSlot :=
  match combineDateAndTime date (startTime availability),
        combineDateAndTime date (endTime availability) with
  | Some blockStart, Some blockEnd =>
      map (candidate doctor)
          (filter (fun slot => now <=? slot_start slot)
                  (slices blockStart blockEnd (slotDurationMinutes * 60 * 1000)))
  | _, _ => []
  end.

(** The candidates of a provider in a window, before conflict filtering:
    rule by rule, date by date. *)
Definition candidatesOf (now : Z) (doctor : Doctor) (startDate endDate : Date)
    (slotDurationMinutes : Z) : list TimeSlot :=
  flat_map (fun availability =>
              flat_map (candidatesOfDate now doctor availability slotDurationMinutes)
                       (expandAvailabilityToDates now availability startDate endDate))
           (weeklyAvailability doctor).

(** The candidate list recomputed for the calendar day of a requested
    start: what [execute] returns for that day, with slots of 30 minutes;
    no candidate when the start is not a date or the query fails. *)
Definition dayCandidates (st : Store) (now : Z) (doctor startISO' : string) : list TimeSlot :=
  match parseDate startISO' with
  | Some requested =>
      match GetAvailableSlotsUseCase.execute st now doctor
              (toISOString (setHours requested 0 0 0 0))
              (toISOString (setHours requested 23 59 59 999)) 30 with
      | Returns slots => slots
      | _ => []
      end
  | None => []
  end.

(** A candidate matches a request exactly: the same start and the same end,
    as strings. *)
Definition exactMatch (startISO' endISO' : string) (slot : TimeSlot) : bool :=
  (startISO slot =? startISO')%string && (endISO slot =? endISO')%string.

(** A request passes the basic validations of booking: the required fields
    are present, the end is not at or before the start, and the start is
    not in the past. *)
Definition passesValidation (now : Z) (request : AppointmentCreate) : bool :=
  truthy (new_doctorId request) && truthy (new_startDateISO request) &&
  truthy (new_endDateISO request) &&
  negb (date_leb (parseDate (new_endDateISO request)) (parseDate (new_startDateISO request))) &&
  negb (date_ltb (parseDate (new_startDateISO request)) (Some now)).

(** The appointment a successful booking creates. *)
Definition newAppointment (now : Z) (uuid : string) (request : AppointmentCreate) : Appointment :=
  {| id := uuid;
     doctorId := new_doctorId request;
     doctorName := new_doctorName request;
     ownerName := new_ownerName request;
     petName := new_petName request;
     disease := new_disease request;
     startDateISO := new_startDateISO request;
     endDateISO := new_endDateISO request;
     status := scheduled;
     location := new_location request;
     notes := new_notes request;
     createdAt := Some (toISOString now);
     updatedAt := Some (toISOString now) |}.

End Candidates.

(* ================================================================= *)
(** ** A reference instance and sample data *)

(** The engine of the examples: V8, as far as the model follows it.  Of
    the strings outside the standard format it reads the date-time strings
    with a day its month does not have, and it words its RangeError as V8
    does; the further formats of V8 are not modelled, and this engine says
    Invalid Date on them.  The sample data is written in the standard
    format, which every engine reads in the same way. *)
#[global] Instance v8 : JsEngine :=
  {| legacyParse := readDateTimeString isDateOfV8;
     invalidTimeValue := "Invalid time value" |}.

(** An [rrule] package that rejects every descriptor, so that every rule
    falls back to the plain weekly expansion.  The samples below carry no
    descriptor: on them the package is never called. *)
#[global] Instance rejecting_rrule : RRuleLibrary := {| rrule_between := fun _ _ _ _ => None |}.

Module Sample.

(** Monday 09:00-12:00, each week, no descriptor. *)
Definition mondayMorning : Availability :=
  {| availability_id := "a1"; weekday := 1; startTime := "09:00"; endTime := "12:00";
     rrule := None |}.

Definition drJohnson : Doctor :=
  {| doctor_id := "d1"; doctor_name := "Dr. Sarah Johnson";
     specialties := ["dental"; "general"];
     weeklyAvailability := [mondayMorning];
     rating := 48; doctor_location := "Downtown Clinic" |}.

(** Friday 3 January 2025, 12:00 UTC. *)
Definition friday : Z := 1735905600000.

(** Monday 6 January 2025, 00:00 UTC: the next Monday. *)
Definition monday : Z := 1736121600000.

(** Buddy's appointment, Monday 09:00-09:30. *)
Definition buddy : Appointment :=
  {| id := "b1"; doctorId := "d1"; doctorName := "Dr. Sarah Johnson";
     ownerName := "John Smith"; petName := "Buddy"; disease := Some "dental cleaning";
     startDateISO := "2025-01-06T09:00:00.000Z";
     endDateISO := "2025-01-06T09:30:00.000Z";
     status := scheduled; location := Some "Downtown Clinic"; notes := Some "a";
     createdAt := Some "2025-01-01T00:00:00.000Z";
     updatedAt := Some "2025-01-01T00:00:00.000Z" |}.

Definition store : Store := {| doctors := [drJohnson]; appointments := [buddy] |}.

(** Ann Lee's request for Rex, with the provider and the times given. *)
Definition request (doctor start end_ : string) : AppointmentCreate :=
  {| new_doctorId := doctor; new_doctorName := "Dr. Sarah Johnson";
     new_ownerName := "Ann Lee"; new_petName := "Rex"; new_disease := None;
     new_startDateISO := start; new_endDateISO := end_;
     new_location := None; new_notes := None |}.

(** Ann Lee's request for Monday 10:00-10:30, and the appointment it
    creates when it is booked on the Friday under the identifier "u1". *)
Definition tenOClock : AppointmentCreate :=
  request "d1" "2025-01-06T10:00:00.000Z" "2025-01-06T10:30:00.000Z".

Definition rex : Appointment :=
  {| id := "u1"; doctorId := "d1"; doctorName := "Dr. Sarah Johnson";
     ownerName := "Ann Lee"; petName := "Rex"; disease := None;
     startDateISO := "2025-01-06T10:00:00.000Z";
     endDateISO := "2025-01-06T10:30:00.000Z";
     status := scheduled; location := None; notes := None;
     createdAt := Some "2025-01-03T12:00:00.000Z";
     updatedAt := Some "2025-01-03T12:00:00.000Z" |}.

(** The store after that booking. *)
Definition storeWithRex : Store := {| doctors := [drJohnson]; appointments := [buddy; rex] |}.

(** A slot of Dr. Johnson on the Monday, by its times of day. *)
Definition mondaySlot (start end_ : string) : TimeSlot :=
  {| startISO := "2025-01-06T" ++ start ++ ":00.000Z";
     endISO := "2025-01-06T" ++ end_ ++ ":00.000Z";
     slot_doctorId := "d1" |}.

(** A second provider, with her rules that carry no descriptor: Monday
    13:00-18:00 and Tuesday 09:00-14:00. *)
Definition drRodriguez : Doctor :=
  {| doctor_id := "d3"; doctor_name := "Dr. Emily Rodriguez";
     specialties := ["dermatology"; "general"];
     weeklyAvailability :=
       [{| availability_id := "a3"; weekday := 1; startTime := "13:00"; endTime := "18:00";
           rrule := None |};
        {| availability_id := "a4"; weekday := 2; startTime := "09:00"; endTime := "14:00";
           rrule := None |}];
     rating := 47; doctor_location := "Westside Animal Care" |}.

(** The store with both providers, before and after Rex is booked with
    Dr. Johnson. *)
Definition twoProviders : Store :=
  {| doctors := [drJohnson; drRodriguez]; appointments := [buddy] |}.

Definition twoProvidersWithRex : Store :=
  {| doctors := [drJohnson; drRodriguez]; appointments := [buddy; rex] |}.

(** A clock that stands at the Friday, and the identifiers "u1" for every
    position. *)
Definition fridayClock : nat -> Z := fun _ => friday.

Definition sameUuid : nat -> string := fun _ => "u1".

(** The slots of the Monday that are free while Buddy's appointment
    stands. *)
Definition mondayFree : list TimeSlot :=
  [mondaySlot "09:30" "10:00"; mondaySlot "10:00" "10:30"; mondaySlot "10:30" "11:00";
   mondaySlot "11:00" "11:30"; mondaySlot "11:30" "12:00"].

End Sample.


(* ================================================================= *)
(** * Properties *)

Import GetAvailableSlotsUseCase.

(** ** The date codec: reading back what [toISOString] writes *)

Section DateCodec.
Context {engine : JsEngine}.

Local Open Scope string_scope.
Local Open Scope Z_scope.

Lemma digit_char_spec d : 0 <= d <= 9 ->
  is_digit (digit_char d) = true /\ digit_value (digit_char d) = d.
Proof.
  intros H.
  assert (E : d = 0 \/ d = 1 \/ d = 2 \/ d = 3 \/ d = 4 \/ d = 5 \/ d = 6 \/ d = 7 \/ d = 8 \/ d = 9) by lia.
  repeat (destruct E as [E | E]; [subst d; split; reflexivity | ]).
  subst d; split; reflexivity.
Qed.

Lemma string_app_assoc (a b c : string) : (a ++ b) ++ c = a ++ (b ++ c).
Proof. induction a as [| x a IH]; simpl; [reflexivity | now rewrite IH]. Qed.

Lemma read_number_digits w : forall n rest acc k,
  0 <= n < 10 ^ Z.of_nat w ->
  read_number (digits w n ++ rest) acc k = read_number rest (acc * 10 ^ Z.of_nat w + n) (k + w).
Proof.
  induction w as [| w IH]; intros n rest acc k H.
  - simpl in *. replace n with 0 by lia. f_equal; [lia | lia].
  - rewrite Nat2Z.inj_succ, Z.pow_succ_r in H by lia.
    cbn [digits]. rewrite string_app_assoc.
    rewrite IH by (split; [apply Z.div_pos; lia | apply Z.div_lt_upper_bound; lia]).
    cbn [append read_number].
    destruct (digit_char_spec (n mod 10)) as [Hd Hv]; [pose proof (Z.mod_pos_bound n 10); lia |].
    rewrite Hd, Hv. f_equal.
    + rewrite Nat2Z.inj_succ, Z.pow_succ_r by lia.
      pose proof (Z.div_mod n 10). lia.
    + lia.
Qed.

Lemma read_digits_digits w n c rest :
  0 <= n < 10 ^ Z.of_nat w -> is_digit c = false ->
  read_digits w (digits w n ++ String c rest) = Some (n, String c rest).
Proof.
  intros Hn Hs. unfold read_digits.
  rewrite read_number_digits by assumption.
  cbn [read_number]. rewrite Hs. cbn [Nat.add].
  rewrite Nat.eqb_refl. f_equal.
Qed.

Lemma digits_head w n :
  exists c, is_digit c = true /\ exists s, digits (S w) n = String c s.
Proof.
  revert n. induction w as [| w IH]; intros n.
  - exists (digit_char (n mod 10)). split.
    + apply digit_char_spec. pose proof (Z.mod_pos_bound n 10). lia.
    + exists "". reflexivity.
  - destruct (IH (n / 10)) as (c & Hc & s & Hs).
    exists c. split; [assumption |].
    exists (s ++ String (digit_char (n mod 10)) "").
    change (digits (S (S w)) n) with (digits (S w) (n / 10) ++ String (digit_char (n mod 10)) "").
    rewrite Hs. reflexivity.
Qed.

Lemma read_year_string b y c rest :
  is_digit c = false ->
  exists k,
    read_year (year_string b y ++ String c rest) = Some (y, k, String c rest) /\
    forall t, b = (Z.abs t <=? maxTime) -> instantOfForm k y t = Some t.
Proof.
  intros Hstop. unfold year_string.
  destruct ((0 <=? y) && (y <=? 9999)) eqn:Hy.
  - apply andb_true_iff in Hy. destruct Hy as [H0 H1].
    apply Z.leb_le in H0, H1.
    destruct (digits_head 3 y) as (c0 & Hc & s & Hs).
    assert (Hf : read_digits 4 (digits 4 y ++ String c rest) = Some (y, String c rest)).
    { apply read_digits_digits; [simpl; lia | assumption]. }
    exists 4%nat. split; [| reflexivity].
    rewrite Hs in *. cbn [append read_year].
    replace (Ascii.eqb c0 "+" || Ascii.eqb c0 "-") with false;
      [cbn [append] in Hf; now rewrite Hf |].
    symmetry. apply orb_false_iff. split; apply Ascii.eqb_neq; intros ->; discriminate Hc.
  - set (a := Z.abs y).
    assert (Hy' : y < 0 \/ 9999 < y).
    { apply andb_false_iff in Hy.
      destruct Hy as [H | H]; [apply Z.leb_gt in H | apply Z.leb_gt in H]; lia. }
    assert (Hread : forall w, (6 <= w)%nat -> a < 10 ^ Z.of_nat w ->
      read_year (String (if y <? 0 then "-"%char else "+"%char) (digits w a) ++ String c rest)
      = Some (y, w, String c rest)).
    { intros w Hw6 Hw. cbn [append read_year].
      replace (Ascii.eqb (if y <? 0 then "-"%char else "+"%char) "+" ||
               Ascii.eqb (if y <? 0 then "-"%char else "+"%char) "-") with true
        by (destruct (y <? 0); reflexivity).
      rewrite read_number_digits by (subst a; lia).
      cbn [read_number]. rewrite Hstop. cbn [Nat.add].
      replace (0 * 10 ^ Z.of_nat w + a) with a by lia.
      replace (6 <=? w)%nat with true by (symmetry; apply Nat.leb_le; exact Hw6).
      destruct (y <? 0) eqn:Hneg.
      + apply Z.ltb_lt in Hneg.
        replace (a =? 0) with false by (symmetry; apply Z.eqb_neq; subst a; lia).
        cbn. f_equal. f_equal. f_equal. subst a. lia.
      + apply Z.ltb_ge in Hneg. cbn. f_equal. f_equal. f_equal. subst a. lia. }
    cbv zeta. fold a.
    destruct (b && (a <? 1000000)) eqn:Hform.
    + apply andb_true_iff in Hform. destruct Hform as [-> Ha]. apply Z.ltb_lt in Ha.
      exists 6%nat. split; [apply Hread; [lia | simpl; lia] |].
      intros t Ht. unfold instantOfForm, timeClip. cbn [Nat.eqb]. now rewrite <- Ht.
    + set (w := if a <? 10000000 then 7%nat else Z.to_nat (Z.log2_up (a + 1))).
      assert (Hw : (7 <= w)%nat /\ a < 10 ^ Z.of_nat w).
      { subst w. destruct (a <? 10000000) eqn:Ha.
        - apply Z.ltb_lt in Ha. split; [lia | simpl; lia].
        - apply Z.ltb_ge in Ha.
          assert (Hl : 23 <= Z.log2_up (a + 1)).
          { pose proof (Z.log2_up_le_mono 10000000 (a + 1) ltac:(lia)) as Hm.
            change (Z.log2_up 10000000) with 24 in Hm. lia. }
          split; [lia |].
          rewrite Z2Nat.id by lia.
          pose proof (Z.log2_up_spec (a + 1) ltac:(lia)) as [_ Hs].
          assert (2 ^ Z.log2_up (a + 1) <= 10 ^ Z.log2_up (a + 1)).
          { apply Z.pow_le_mono_l. lia. }
          lia. }
      destruct Hw as [Hw7 Hw]. clearbody w.
      exists w. split; [apply Hread; [lia | exact Hw] |].
      intros t Ht. unfold instantOfForm.
      replace (w =? 4)%nat with false by (symmetry; apply Nat.eqb_neq; lia).
      replace (w =? 6)%nat with false by (symmetry; apply Nat.eqb_neq; lia).
      fold a. apply andb_false_iff in Hform. destruct Hform as [Hb | Ha].
      * rewrite Hb in Ht. symmetry in Ht. apply Z.leb_gt in Ht.
        replace (maxTime <? Z.abs t) with true by (symmetry; apply Z.ltb_lt; exact Ht).
        reflexivity.
      * apply Z.ltb_ge in Ha.
        replace (1000000 <=? a) with true by (symmetry; apply Z.leb_le; exact Ha).
        now rewrite orb_true_r.
Qed.

Lemma civil_roundtrip z :
  let '(y, m, d) := civil_from_days z in
  days_from_civil y m d = z /\ 1 <= m <= 12 /\ 1 <= d <= 31.
Proof.
  unfold civil_from_days, days_from_civil.
  set (z' := z + 719468).
  set (era := z' / 146097).
  set (doe := z' - era * 146097).
  assert (Hdoe : 0 <= doe <= 146096).
  { subst doe era. pose proof (Z.div_mod z' 146097 ltac:(lia)).
    pose proof (Z.mod_pos_bound z' 146097 ltac:(lia)). lia. }
  assert (Hz : z = era * 146097 + doe - 719468) by (subst doe z'; lia).
  clearbody doe.
  set (yoe := (doe - doe / 1460 + doe / 36524 - doe / 146096) / 365).
  set (doy := doe - (365 * yoe + yoe / 4 - yoe / 100)).
  assert (Hy : 0 <= yoe <= 399 /\ 0 <= doy <= 365).
  { subst doy yoe. Z.div_mod_to_equations; lia. }
  clearbody yoe. destruct Hy as [Hyoe Hdoy]. 
  set (mp := (5 * doy + 2) / 153).
  assert (Hmp : 0 <= mp <= 11) by (subst mp; Z.div_mod_to_equations; lia).
  set (d := doy - (153 * mp + 2) / 5 + 1).
  assert (Hd : 1 <= d <= 31) by (subst d mp; Z.div_mod_to_equations; lia).
  set (m := if mp <? 10 then mp + 3 else mp - 9).
  assert (Hm : 1 <= m <= 12 /\ (if 2 <? m then m - 3 else m + 9) = mp /\ ((m <=? 2) = negb (mp <? 10))).
  { subst m. destruct (mp <? 10) eqn:E; [apply Z.ltb_lt in E | apply Z.ltb_ge in E].
    - replace (2 <? mp + 3) with true by (symmetry; apply Z.ltb_lt; lia).
      replace (mp + 3 <=? 2) with false by (symmetry; apply Z.leb_gt; lia). repeat split; lia.
    - replace (2 <? mp - 9) with false by (symmetry; apply Z.ltb_ge; lia).
      replace (mp - 9 <=? 2) with true by (symmetry; apply Z.leb_le; lia). repeat split; lia. }
  destruct Hm as (Hm & Hmp' & Hle).
  clearbody m. rewrite Hmp'.
  split; [| split; assumption].
  assert (Hyy : (if m <=? 2 then yoe + era * 400 + (if m <=? 2 then 1 else 0) - 1
                 else yoe + era * 400 + (if m <=? 2 then 1 else 0)) = yoe + era * 400).
  { destruct (m <=? 2); lia. }
  rewrite Hyy.
  assert (He : (yoe + era * 400) / 400 = era).
  { rewrite Z.div_add by lia. rewrite Z.div_small by lia. lia. }
  rewrite He.
  replace (yoe + era * 400 - era * 400) with yoe by lia.
  subst d doy. lia.
Qed.

Lemma time_within_day_roundtrip t :
  let r := t mod msPerDay in
  dayOf t * msPerDay + (r / msPerHour) * msPerHour + (r / msPerMinute mod 60) * msPerMinute
    + (r / msPerSecond mod 60) * msPerSecond + r mod 1000 = t
  /\ 0 <= r / msPerHour <= 23 /\ 0 <= r / msPerMinute mod 60 <= 59
  /\ 0 <= r / msPerSecond mod 60 <= 59 /\ 0 <= r mod 1000 <= 999.
Proof.
  unfold dayOf, msPerDay, msPerHour, msPerMinute, msPerSecond. cbv zeta.
  Z.div_mod_to_equations; lia.
Qed.

(** What [toISOString] writes is in the format of the standard, and reads
    as the instant it was written from. *)
Lemma parseDateTimeString_toISOString t : parseDateTimeString (toISOString t) = Some t.
Proof.
  unfold toISOString.
  pose proof (civil_roundtrip (dayOf t)) as Hc.
  destruct (civil_from_days (dayOf t)) as [[y m] d] eqn:Hciv.
  destruct Hc as (Hc & Hm & Hd).
  assert (Hvalid : isCalendarDate y m d = true).
  { unfold isCalendarDate. rewrite Hc, Hciv. now rewrite !Z.eqb_refl. }
  pose proof (time_within_day_roundtrip t) as Ht. cbv zeta in Ht.
  set (r := t mod msPerDay) in *.
  destruct Ht as (Ht & Hh & Hmi & Hs & Hms).
  unfold parseDateTimeString, readDateTimeString, read_date.
  cbn [append].
  destruct (read_year_string (Z.abs t <=? maxTime) y "-"%char
              (digits 2 m ++ String "-" (digits 2 d ++ String "T"
                 (digits 2 (r / msPerHour) ++ String ":"
                    (digits 2 (r / msPerMinute mod 60) ++ String ":"
                       (digits 2 (r / msPerSecond mod 60) ++ String "."
                          (digits 3 (r mod 1000) ++ "Z"))))))%string eq_refl)
    as (k & Hyear & Hform).
  specialize (Hform t eq_refl).
  cbn [append] in Hyear. rewrite Hyear.
  unfold read_optional at 1. cbn [expect]. change (Ascii.eqb "-" "-") with true. cbv iota.
  rewrite read_digits_digits by (simpl; try reflexivity; lia).
  unfold read_optional at 1. cbn [expect]. change (Ascii.eqb "-" "-") with true. cbv iota.
  rewrite read_digits_digits by (simpl; try reflexivity; lia).
  rewrite Hvalid.
  cbv zeta. change (Ascii.eqb "T" "T") with true. cbv iota.
  unfold read_time.
  rewrite read_digits_digits by (simpl; try reflexivity; lia).
  cbn [expect]. change (Ascii.eqb ":" ":") with true. cbv iota.
  rewrite read_digits_digits by (simpl; try reflexivity; lia).
  unfold read_seconds. cbn [expect]. change (Ascii.eqb ":" ":") with true. cbv iota.
  rewrite read_digits_digits by (simpl; try reflexivity; lia).
  unfold read_optional. cbn [expect]. change (Ascii.eqb "." ".") with true. cbv iota.
  rewrite read_digits_digits by (simpl; try reflexivity; lia).
  cbn [read_offset]. change (Ascii.eqb "Z" "Z") with true. cbv iota.
  replace (r / msPerMinute mod 60 <=? 59) with true by (symmetry; apply Z.leb_le; lia).
  replace (r / msPerSecond mod 60 <=? 59) with true by (symmetry; apply Z.leb_le; lia).
  replace (r / msPerHour <=? 23) with true by (symmetry; apply Z.leb_le; lia).
  cbn [andb orb]. rewrite Hc. rewrite <- Hform. f_equal. lia.
Qed.

(** Every engine reads back what [toISOString] writes. *)
Theorem parseDate_toISOString t : parseDate (toISOString t) = Some t.
Proof. unfold parseDate. now rewrite parseDateTimeString_toISOString. Qed.

Lemma toISOString_inj t u : toISOString t = toISOString u -> t = u.
Proof.
  intros H. apply (f_equal parseDate) in H.
  rewrite !parseDate_toISOString in H. now injection H.
Qed.

End DateCodec.

(** Strings of the standard format other than the one [toISOString]
    writes: without milliseconds, without a time (UTC), without a time zone
    (local time, UTC here), with an offset.  An instant past the range of a
    [Date], a day its month does not have and a text that is not in the
    format are not read here: they are left to the engine, and V8 reads
    30 February as 2 March. *)
Example date_time_strings :
  parseDateTimeString "2025-01-06T10:30:00Z" =
    Some (Sample.monday + 10 * msPerHour + 30 * msPerMinute) /\
  parseDateTimeString "2025-01-06" = Some Sample.monday /\
  parseDateTimeString "2025-01-06T10:30" =
    Some (Sample.monday + 10 * msPerHour + 30 * msPerMinute) /\
  parseDateTimeString "2025-01-06T16:00:00+05:30" =
    Some (Sample.monday + 10 * msPerHour + 30 * msPerMinute) /\
  parseDateTimeString "+275760-09-13T00:00:00.000Z" = Some maxTime /\
  parseDateTimeString "+275760-09-13T00:00:00.001Z" = None /\
  parseDateTimeString "2025-02-30" = None /\
  parseDate "2025-02-30" = parseDate "2025-03-02" /\
  parseDateTimeString "January 6, 2025" = None.
Proof. repeat split; vm_compute; reflexivity. Qed.

(** ** The Slot Slicer *)

Section SlotSlicer.
Context {engine : JsEngine}.

Lemma slots_from_done fuel e step cur : e <= cur -> slots_from fuel e step cur = [].
Proof.
  intros H. destruct fuel as [| fuel]; [reflexivity |].
  cbn [slots_from]. now replace (cur <? e) with false by (symmetry; apply Z.ltb_ge; exact H).
Qed.

Lemma slices_nil s e step : 0 < step -> e - s < step -> slices s e step = [].
Proof.
  intros Hs H. unfold slices.
  assert ((e - s) / step <= 0).
  { destruct (Z_lt_le_dec (e - s) 0) as [Hn | Hp].
    - pose proof (Z.div_lt_upper_bound (e - s) step 0 Hs). lia.
    - rewrite Z.div_small by lia. lia. }
  replace (Z.to_nat ((e - s) / step)) with 0%nat by lia. reflexivity.
Qed.

Lemma slices_cons s e step : 0 < step -> step <= e - s ->
  slices s e step =
  {| slot_start := s; slot_end := s + step |} :: slices (s + step) e step.
Proof.
  intros Hs H. unfold slices.
  assert (Hq : (e - s) / step = (e - (s + step)) / step + 1).
  { replace (e - s) with (e - (s + step) + 1 * step) by lia.
    now rewrite Z.div_add by lia. }
  assert (0 <= (e - (s + step)) / step) by (apply Z.div_pos; lia).
  rewrite Hq, Z2Nat.inj_add by lia.
  change (Z.to_nat 1) with 1%nat. rewrite Nat.add_1_r.
  cbn [seq map]. f_equal; [f_equal; lia |].
  rewrite <- seq_shift, map_map. apply map_ext. intros k.
  f_equal; lia.
Qed.

(** The loop of the Slot Slicer, given turns enough, builds [slices]. *)
Lemma slots_from_slices fuel : forall e step cur,
  0 < step -> (e - cur) / step < Z.of_nat fuel ->
  slots_from fuel e step cur = slices cur e step.
Proof.
  induction fuel as [| fuel IH]; intros e step cur Hs Hf.
  - cbn [slots_from]. symmetry. apply slices_nil; [assumption |].
    destruct (Z_lt_le_dec (e - cur) step) as [H | H]; [assumption |].
    assert (1 <= (e - cur) / step) by (apply Z.div_le_lower_bound; lia). lia.
  - cbn [slots_from].
    destruct (cur <? e) eqn:Hc; [apply Z.ltb_lt in Hc | apply Z.ltb_ge in Hc].
    + cbv zeta.
      destruct (cur + step <=? e) eqn:Hfit; [apply Z.leb_le in Hfit | apply Z.leb_gt in Hfit].
      * rewrite slices_cons by lia. cbn [app]. f_equal.
        apply IH; [assumption |].
        replace (e - cur) with (e - (cur + step) + 1 * step) in Hf by lia.
        rewrite Z.div_add in Hf by lia. lia.
      * rewrite slots_from_done by lia. symmetry. apply slices_nil; lia.
    + symmetry. apply slices_nil; lia.
Qed.

Lemma generateSlotsForBlock_slices s e d : 0 < d ->
  generateSlotsForBlock (Some s) (Some e) d = Returns (slices s e (d * 60 * 1000)).
Proof.
  intros Hd. unfold generateSlotsForBlock. cbv zeta.
  destruct (s <? e) eqn:Hse; [apply Z.ltb_lt in Hse | apply Z.ltb_ge in Hse].
  - replace (0 <? d * 60 * 1000) with true by (symmetry; apply Z.ltb_lt; lia).
    f_equal. apply slots_from_slices; [lia |].
    assert (0 <= (e - s) / (d * 60 * 1000)) by (apply Z.div_pos; lia). lia.
  - f_equal. symmetry. apply slices_nil; lia.
Qed.

Lemma slices_length s e step : 0 < step ->
  Z.of_nat (List.length (slices s e step)) = Z.max 0 ((e - s) / step).
Proof.
  intros Hs. unfold slices. rewrite length_map, length_seq. lia.
Qed.

Lemma slices_nth s e step k slot :
  nth_error (slices s e step) k = Some slot ->
  slot = {| slot_start := s + Z.of_nat k * step;
            slot_end := s + Z.of_nat k * step + step |}
  /\ (k < Z.to_nat ((e - s) / step))%nat.
Proof.
  unfold slices. intros H.
  rewrite nth_error_map in H.
  destruct (nth_error (seq 0 (Z.to_nat ((e - s) / step))) k) as [j |] eqn:Hj; [| discriminate].
  assert (Hk : (k < List.length (seq 0 (Z.to_nat ((e - s) / step))))%nat).
  { apply nth_error_Some. congruence. }
  rewrite length_seq in Hk.
  rewrite nth_error_nth' with (d := 0%nat) in Hj by (rewrite length_seq; exact Hk).
  rewrite seq_nth in Hj by exact Hk.
  injection Hj as <-. cbn in H. injection H as <-. split; [reflexivity | exact Hk].
Qed.

Lemma slices_in s e step slot : 0 < step ->
  In slot (slices s e step) <->
  exists k, 0 <= k /\ slot_start slot = s + k * step /\
            slot_end slot = slot_start slot + step /\ slot_end slot <= e.
Proof.
  intros Hs. unfold slices. rewrite in_map_iff. split.
  - intros (k & <- & Hin). apply in_seq in Hin. cbn [slot_start slot_end].
    exists (Z.of_nat k). repeat split; try lia.
    assert (Z.of_nat k + 1 <= (e - s) / step) by lia.
    assert ((Z.of_nat k + 1) * step <= e - s); [| lia].
    transitivity (step * ((e - s) / step)); [nia | apply Z.mul_div_le; lia].
  - intros (k & Hk & H1 & H2 & H3).
    exists (Z.to_nat k). split.
    + destruct slot as [a b]. cbn in *. subst. f_equal; lia.
    + apply in_seq. split; [lia |]. cbn.
      assert (k + 1 <= (e - s) / step); [| lia].
      apply Z.div_le_lower_bound; [lia | nia].
Qed.

End SlotSlicer.

(** ** The Recurrence Expander *)

Section RecurrenceExpander.
Context {engine : JsEngine}.

Lemma dayOf_addDays t k : dayOf (addDays t k) = dayOf t + k.
Proof. unfold dayOf, addDays, msPerDay. now rewrite Z.div_add by lia. Qed.

Lemma getDay_addDays t k : getDay (addDays t k) = (getDay t + k) mod 7.
Proof.
  unfold getDay. rewrite dayOf_addDays.
  rewrite Zplus_mod_idemp_l. f_equal. lia.
Qed.

Lemma getDay_range t : 0 <= getDay t <= 6.
Proof. unfold getDay. pose proof (Z.mod_pos_bound (dayOf t + 4) 7). lia. Qed.

Lemma addDays_0 t : addDays t 0 = t.
Proof. unfold addDays. lia. Qed.

Lemma addDays_addDays t j k : addDays (addDays t j) k = addDays t (j + k).
Proof. unfold addDays. lia. Qed.

Lemma addDays_le t j k : j <= k -> addDays t j <= addDays t k.
Proof. unfold addDays, msPerDay. lia. Qed.

Lemma addDays_lt_inv t j k : addDays t j < addDays t k -> j < k.
Proof. unfold addDays, msPerDay. lia. Qed.

(** The scan for the weekday stops at the first day, from [current] on,
    that has the weekday or lies past the window. *)
Lemma find_weekday_spec fuel : forall weekday to cur,
  (to - cur) / msPerDay < Z.of_nat fuel ->
  exists k, 0 <= k /\ find_weekday fuel weekday to cur = addDays cur k /\
    (forall j, 0 <= j < k -> getDay (addDays cur j) <> weekday /\ addDays cur j <= to) /\
    (getDay (addDays cur k) = weekday \/ to < addDays cur k).
Proof.
  induction fuel as [| fuel IH]; intros weekday to cur Hf.
  - exists 0. rewrite addDays_0. cbn [find_weekday].
    assert (to < cur).
    { destruct (Z_lt_le_dec to cur) as [H | H]; [assumption |].
      assert (0 <= (to - cur) / msPerDay) by (apply Z.div_pos; unfold msPerDay; lia). lia. }
    repeat split; try lia; auto.
  - cbn [find_weekday].
    destruct (getDay cur =? weekday) eqn:Hw; cbn [negb andb].
    + apply Z.eqb_eq in Hw. exists 0. rewrite addDays_0. repeat split; try lia; auto.
    + apply Z.eqb_neq in Hw.
      destruct (cur <=? to) eqn:Hc; [apply Z.leb_le in Hc | apply Z.leb_gt in Hc].
      * destruct (IH weekday to (addDays cur 1)) as (k & Hk & Hr & Hbefore & Hat).
        { unfold addDays. replace (to - (cur + 1 * msPerDay)) with (to - cur + (-1) * msPerDay) by lia.
          rewrite Z.div_add by (unfold msPerDay; lia). lia. }
        exists (1 + k). rewrite addDays_addDays in Hr, Hat.
        split; [lia |]. split; [exact Hr |]. split; [| exact Hat].
        intros j Hj. destruct (Z.eq_dec j 0) as [-> | Hj0].
        -- rewrite addDays_0. now split.
        -- specialize (Hbefore (j - 1) ltac:(lia)).
           rewrite addDays_addDays in Hbefore.
           now replace (1 + (j - 1)) with j in Hbefore by lia.
      * exists 0. rewrite addDays_0. repeat split; try lia; auto.
Qed.

Lemma weekly_from_done fuel to cur : to < cur -> weekly_from fuel to cur = [].
Proof.
  intros H. destruct fuel; [reflexivity |]. cbn [weekly_from].
  now replace (cur <=? to) with false by (symmetry; apply Z.leb_gt; exact H).
Qed.

Lemma every_seventh_nil to cur : to < cur -> every_seventh to cur = [].
Proof.
  intros H. unfold every_seventh.
  assert ((to - cur) / (7 * msPerDay) < 0).
  { apply Z.div_lt_upper_bound; unfold msPerDay; lia. }
  now replace (Z.to_nat ((to - cur) / (7 * msPerDay) + 1)) with 0%nat by lia.
Qed.

Lemma every_seventh_cons to cur : cur <= to ->
  every_seventh to cur = cur :: every_seventh to (addDays cur 7).
Proof.
  intros H. unfold every_seventh.
  assert (Hq : (to - cur) / (7 * msPerDay) = (to - addDays cur 7) / (7 * msPerDay) + 1).
  { unfold addDays. replace (to - cur) with (to - (cur + 7 * msPerDay) + 1 * (7 * msPerDay)) by lia.
    now rewrite Z.div_add by (unfold msPerDay; lia). }
  assert (-1 <= (to - addDays cur 7) / (7 * msPerDay)).
  { apply Z.div_le_lower_bound; unfold addDays, msPerDay; lia. }
  rewrite Hq.
  replace (Z.to_nat ((to - addDays cur 7) / (7 * msPerDay) + 1 + 1))
    with (S (Z.to_nat ((to - addDays cur 7) / (7 * msPerDay) + 1))) by lia.
  cbn [seq map]. f_equal; [unfold addDays; lia |].
  rewrite <- seq_shift, map_map. apply map_ext. intros k.
  rewrite addDays_addDays. f_equal. lia.
Qed.

Lemma weekly_from_spec fuel : forall to cur,
  (to - cur) / (7 * msPerDay) < Z.of_nat fuel ->
  weekly_from fuel to cur = every_seventh to cur.
Proof.
  induction fuel as [| fuel IH]; intros to cur Hf.
  - cbn [weekly_from]. symmetry. apply every_seventh_nil.
    destruct (Z_lt_le_dec to cur) as [H | H]; [assumption |].
    assert (0 <= (to - cur) / (7 * msPerDay)) by (apply Z.div_pos; unfold msPerDay; lia). lia.
  - cbn [weekly_from].
    destruct (cur <=? to) eqn:Hc; [apply Z.leb_le in Hc | apply Z.leb_gt in Hc].
    + rewrite every_seventh_cons by assumption. f_equal. apply IH.
      unfold addDays. replace (to - (cur + 7 * msPerDay)) with (to - cur + (-1) * (7 * msPerDay)) by lia.
      rewrite Z.div_add by (unfold msPerDay; lia). lia.
    + symmetry. now apply every_seventh_nil.
Qed.

Lemma turns_enough step cur to : 0 < step ->
  (to - cur) / (step * msPerDay) < Z.of_nat (turns step cur to).
Proof. intros Hs. unfold turns. lia. Qed.

(** The plain weekly branch computes the dates of [weekly_spec]. *)
Lemma weeklyOccurrences_spec weekday from to :
  weeklyOccurrences weekday (Some from) (Some to) = weekly_spec weekday from to.
Proof.
  unfold weeklyOccurrences, weekly_spec.
  destruct (find_weekday_spec (turns 1 from to) weekday to from) as (k & Hk & -> & Hbefore & Hat).
  { pose proof (turns_enough 1 from to ltac:(lia)) as H. now rewrite Z.mul_1_l in H. }
  rewrite weekly_from_spec by (apply turns_enough; lia).
  set (off := (weekday - getDay from) mod 7).
  assert (Hoff : 0 <= off < 7) by (apply Z.mod_pos_bound; lia).
  destruct ((0 <=? weekday) && (weekday <=? 6)) eqn:Hwd.
  - apply andb_true_iff in Hwd. destruct Hwd as [H0 H6].
    apply Z.leb_le in H0, H6.
    assert (Hmatch : getDay (addDays from off) = weekday).
    { rewrite getDay_addDays. subst off. rewrite Zplus_mod_idemp_r.
      replace (getDay from + (weekday - getDay from)) with weekday by lia.
      apply Z.mod_small. lia. }
    assert (Hle : k <= off).
    { destruct (Z_le_gt_dec k off) as [H | H]; [assumption |].
      destruct (Hbefore off ltac:(lia)) as [Hne _]. contradiction. }
    destruct Hat as [Hat | Hat].
    + assert (k = off); [| now subst k].
      rewrite getDay_addDays in Hat.
      assert (Hk7 : k mod 7 = off).
      { subst off. rewrite <- Hat at 1. rewrite Zminus_mod_idemp_l.
        f_equal. lia. }
      rewrite Z.mod_small in Hk7 by lia. exact Hk7.
    + rewrite !every_seventh_nil; [reflexivity | | assumption].
      pose proof (addDays_le from k off Hle). lia.
  - apply every_seventh_nil.
    destruct Hat as [Hat | Hat]; [| assumption].
    pose proof (getDay_range (addDays from k)) as Hr.
    apply andb_false_iff in Hwd.
    destruct Hwd as [H | H]; [apply Z.leb_gt in H | apply Z.leb_gt in H]; lia.
Qed.

End RecurrenceExpander.

(** C4 -- Slot Slicer.  For a block [blockStart, blockEnd) and a duration
    of [d > 0] minutes, [generateSlotsForBlock] returns; its slots are
    stepped by the duration from the block start (slot number [k] starts
    [k] durations after the block start), each is exactly one duration long
    and ends no later than the block, each starts where the one before it
    ends, they are as many as fit into the block, so that a trailing
    remainder shorter than the duration gives no slot, and a block with
    [blockEnd <= blockStart] gives none. *)
Theorem slot_slicer_contract (blockStart blockEnd d : Z) :
  0 < d ->
  exists slots,
    generateSlotsForBlock (Some blockStart) (Some blockEnd) d = Returns slots /\
    (forall k slot, nth_error slots k = Some slot ->
       slot_start slot = blockStart + Z.of_nat k * (d * 60 * 1000) /\
       slot_end slot = slot_start slot + d * 60 * 1000 /\
       slot_end slot <= blockEnd) /\
    (forall k a b, nth_error slots k = Some a -> nth_error slots (S k) = Some b ->
       slot_start b = slot_end a) /\
    Z.of_nat (List.length slots) = Z.max 0 ((blockEnd - blockStart) / (d * 60 * 1000)) /\
    (blockEnd <= blockStart -> slots = []).
Proof.
  intros Hd. set (step := d * 60 * 1000). assert (Hs : 0 < step) by (subst step; lia).
  exists (slices blockStart blockEnd step).
  split; [now apply generateSlotsForBlock_slices |].
  split; [| split; [| split]].
  - intros k slot H. apply slices_nth in H. destruct H as [-> Hk]. cbn [slot_start slot_end].
    repeat split; try reflexivity.
    assert (Z.of_nat k + 1 <= (blockEnd - blockStart) / step) by lia.
    assert (step * ((blockEnd - blockStart) / step) <= blockEnd - blockStart)
      by (apply Z.mul_div_le; lia).
    nia.
  - intros k a b Ha Hb. apply slices_nth in Ha, Hb.
    destruct Ha as [-> _], Hb as [-> _]. cbn [slot_start slot_end]. lia.
  - now apply slices_length.
  - intros H. apply slices_nil; lia.
Qed.

(** A block of 70 minutes cut into slots of 30: two slots, the last ten
    minutes are dropped. *)
Lemma slot_slicer_contract_witness :
  0 < 30 /\
  exists slots,
    generateSlotsForBlock (Some 0) (Some 4200000) 30 = Returns slots /\
    (forall k slot, nth_error slots k = Some slot ->
       slot_start slot = 0 + Z.of_nat k * (30 * 60 * 1000) /\
       slot_end slot = slot_start slot + 30 * 60 * 1000 /\
       slot_end slot <= 4200000) /\
    (forall k a b, nth_error slots k = Some a -> nth_error slots (S k) = Some b ->
       slot_start b = slot_end a) /\
    Z.of_nat (List.length slots) = Z.max 0 ((4200000 - 0) / (30 * 60 * 1000)) /\
    (4200000 <= 0 -> slots = []).
Proof.
  split; [reflexivity | apply (slot_slicer_contract 0 4200000 30); reflexivity].
Defined.

Section ExpanderContract.
Context {engine : JsEngine}.
Context {lib : RRuleLibrary}.

Lemma every_seventh_in to cur date :
  In date (every_seventh to cur) <->
  exists k, 0 <= k /\ date = addDays cur (7 * k) /\ date <= to.
Proof.
  unfold every_seventh. rewrite in_map_iff. split.
  - intros (k & <- & Hin). apply in_seq in Hin. exists (Z.of_nat k).
    repeat split; try lia.
    assert (Z.of_nat k <= (to - cur) / (7 * msPerDay)) by lia.
    assert (7 * msPerDay * ((to - cur) / (7 * msPerDay)) <= to - cur)
      by (apply Z.mul_div_le; unfold msPerDay; lia).
    unfold addDays, msPerDay in *. nia.
  - intros (k & Hk & -> & Hle). exists (Z.to_nat k). split.
    + f_equal. lia.
    + apply in_seq. split; [lia |]. rewrite Nat.add_0_l.
      assert (k <= (to - cur) / (7 * msPerDay)); [| lia].
      apply Z.div_le_lower_bound; unfold addDays, msPerDay in *; lia.
Qed.

Lemma every_seventh_nth to cur k date :
  nth_error (every_seventh to cur) k = Some date -> date = addDays cur (7 * Z.of_nat k).
Proof.
  unfold every_seventh. intros H. rewrite nth_error_map in H.
  destruct (nth_error (seq 0 _) k) as [j |] eqn:Hj; [| discriminate].
  assert (Hk : (k < List.length (seq 0 (Z.to_nat ((to - cur) / (7 * msPerDay) + 1))))%nat).
  { apply nth_error_Some. congruence. }
  rewrite nth_error_nth' with (d := 0%nat) in Hj by exact Hk.
  rewrite length_seq in Hk. rewrite seq_nth in Hj by exact Hk.
  injection Hj as <-. cbn in H. now injection H as <-.
Qed.

(** C5 -- Recurrence Expander without descriptor.  For a rule with no
    recurrence descriptor and a window [from, to],
    [expandAvailabilityToDates] gives exactly the dates of [weekly_spec]:
    the first day from [from] on with the rule's weekday, and every seventh
    day after it, up to [to].  Hence every date has the rule's weekday and
    lies within [from, to], each date is seven days after the one before
    it, and no day of the window that has the weekday (counted in whole
    days from [from]) is left out. *)
Theorem recurrence_expander_plain (now : Z) (availability : Availability) (from to : Z) :
  truthy_opt (rrule availability) = false ->
  let dates := expandAvailabilityToDates now availability (Some from) (Some to) in
  dates = weekly_spec (weekday availability) from to /\
  (forall date, In date dates ->
     getDay date = weekday availability /\ from <= date <= to) /\
  (forall k a b, nth_error dates k = Some a -> nth_error dates (S k) = Some b ->
     b = addDays a 7) /\
  (forall j, 0 <= j -> getDay (addDays from j) = weekday availability ->
     addDays from j <= to -> In (addDays from j) dates).
Proof.
  intros Hr dates.
  assert (Hd : dates = weekly_spec (weekday availability) from to).
  { subst dates. unfold expandAvailabilityToDates. rewrite Hr. cbn [negb].
    apply weeklyOccurrences_spec. }
  split; [exact Hd |]. rewrite Hd. clear Hd dates.
  unfold weekly_spec. set (wd := weekday availability).
  set (off := (wd - getDay from) mod 7).
  assert (Hoff : 0 <= off < 7) by (apply Z.mod_pos_bound; lia).
  assert (Hoff' : off = (wd - getDay from) mod 7) by reflexivity.
  clearbody off wd.
  destruct ((0 <=? wd) && (wd <=? 6)) eqn:Hwd.
  - apply andb_true_iff in Hwd. destruct Hwd as [H0 H6]. apply Z.leb_le in H0, H6.
    assert (Hmatch : forall k, getDay (addDays (addDays from off) (7 * k)) = wd).
    { intros k. rewrite addDays_addDays, getDay_addDays.
      replace (getDay from + (off + 7 * k)) with (getDay from + off + k * 7) by lia.
      rewrite Z.mod_add by lia. rewrite Hoff'. rewrite Zplus_mod_idemp_r.
      replace (getDay from + (wd - getDay from)) with wd by lia.
      apply Z.mod_small. lia. }
    split; [| split].
    + intros date Hin. apply every_seventh_in in Hin.
      destruct Hin as (k & Hk & -> & Hle). split; [apply Hmatch |].
      split; [| assumption]. unfold addDays, msPerDay. lia.
    + intros k a b Ha Hb. apply every_seventh_nth in Ha, Hb. subst a b.
      rewrite !addDays_addDays. f_equal. lia.
    + intros j Hj Hday Hle. apply every_seventh_in.
      rewrite getDay_addDays in Hday.
      assert (Hj7 : j mod 7 = off).
      { rewrite Hoff'. rewrite <- Hday at 1. rewrite Zminus_mod_idemp_l. f_equal. lia. }
      exists (j / 7). pose proof (Z.div_mod j 7 ltac:(lia)) as Hdm.
      split; [apply Z.div_pos; lia |]. split; [| assumption].
      rewrite addDays_addDays. f_equal. lia.
  - split; [| split].
    + intros date [].
    + intros [| k] a b Ha; discriminate Ha.
    + intros j Hj Hday Hle. exfalso.
      pose proof (getDay_range (addDays from j)) as Hg.
      apply andb_false_iff in Hwd.
      destruct Hwd as [H | H]; apply Z.leb_gt in H; lia.
Qed.

End ExpanderContract.

(** The Mondays from Friday 3 January 2025 to Monday 20 January 2025. *)
Lemma recurrence_expander_plain_witness :
  truthy_opt (rrule Sample.mondayMorning) = false /\
  let dates := expandAvailabilityToDates Sample.friday Sample.mondayMorning
                 (Some Sample.friday) (Some (addDays Sample.monday 14)) in
  dates = weekly_spec 1 Sample.friday (addDays Sample.monday 14) /\
  (forall date, In date dates ->
     getDay date = 1 /\ Sample.friday <= date <= addDays Sample.monday 14) /\
  (forall k a b, nth_error dates k = Some a -> nth_error dates (S k) = Some b ->
     b = addDays a 7) /\
  (forall j, 0 <= j -> getDay (addDays Sample.friday j) = 1 ->
     addDays Sample.friday j <= addDays Sample.monday 14 ->
     In (addDays Sample.friday j) dates).
Proof.
  split; [reflexivity |].
  apply (recurrence_expander_plain Sample.friday Sample.mondayMorning
           Sample.friday (addDays Sample.monday 14)).
  reflexivity.
Defined.

(** ** The Conflict Filter *)

Section ConflictFilter.
Context {engine : JsEngine}.

Lemma date_leb_le a b : date_leb a b = true <-> date_le a b.
Proof.
  unfold date_leb, date_le. destruct a as [x |], b as [y |]; split.
  - intros H. apply Z.leb_le in H. now exists x, y.
  - intros (x' & y' & [= <-] & [= <-] & H). now apply Z.leb_le.
  - discriminate.
  - intros (x' & y' & _ & [=] & _).
  - discriminate.
  - intros (x' & y' & [=] & _).
  - discriminate.
  - intros (x' & y' & [=] & _).
Qed.

Lemma date_ltb_lt a b : date_ltb a b = true <-> date_lt a b.
Proof.
  unfold date_ltb, date_lt. destruct a as [x |], b as [y |]; split.
  - intros H. apply Z.ltb_lt in H. now exists x, y.
  - intros (x' & y' & [= <-] & [= <-] & H). now apply Z.ltb_lt.
  - discriminate.
  - intros (x' & y' & _ & [=] & _).
  - discriminate.
  - intros (x' & y' & [=] & _).
  - discriminate.
  - intros (x' & y' & [=] & _).
Qed.

Lemma overlaps_spec s1 e1 s2 e2 :
  overlaps s1 e1 s2 e2 = true <-> overlap_spec s1 e1 s2 e2.
Proof.
  unfold overlaps, overlap_spec, date_geb, date_gtb.
  rewrite !orb_true_iff, !andb_true_iff, !date_leb_le, !date_ltb_lt.
  tauto.
Qed.

Lemma status_eqb_eq a b : status_eqb a b = true <-> a = b.
Proof. destruct a, b; cbn; split; intros H; try reflexivity; discriminate H. Qed.

Lemma conflictsWith_spec slot a :
  conflictsWith slot a = true <->
  status a <> cancelled /\
  overlap_spec (parseDate (startISO slot)) (parseDate (endISO slot))
               (parseDate (startDateISO a)) (parseDate (endDateISO a)).
Proof.
  unfold conflictsWith.
  destruct (status_eqb (status a) cancelled) eqn:Hs.
  - apply status_eqb_eq in Hs. split; [discriminate | intros [H _]; contradiction].
  - rewrite overlaps_spec. split.
    + intros H. split; [| assumption]. intros Hc. apply status_eqb_eq in Hc. congruence.
    + now intros [_ H].
Qed.

Lemma hasConflict_blocked slot existing :
  existsb (conflictsWith slot) existing = true <-> blocked slot existing.
Proof.
  unfold blocked. rewrite existsb_exists. split.
  - intros (a & Hin & Hc). apply conflictsWith_spec in Hc. now exists a.
  - intros (a & Hin & Hc). exists a. split; [assumption |]. now apply conflictsWith_spec.
Qed.

(** A candidate is kept exactly when no appointment blocks it. *)
Lemma filterBookedSlots_in allSlots existing slot :
  In slot (filterBookedSlots allSlots existing) <->
  In slot allSlots /\ ~ blocked slot existing.
Proof.
  unfold filterBookedSlots. rewrite filter_In.
  rewrite negb_true_iff, <- not_true_iff_false, hasConflict_blocked. reflexivity.
Qed.

(** C3 -- Conflict Filter.  [filterBookedSlots] keeps a candidate exactly
    when it is not blocked, that is, it removes a candidate [s1, e1) if and
    only if some appointment [s2, e2) of the list is not cancelled and
    [s2 <= s1 < e2], or [s2 < e1 <= e2], or [s1 <= s2] and [e2 <= e1]
    (first and second part).  On instants that are valid dates the test of
    the code is this disjunction of inequalities (third part), and a list
    of cancelled appointments removes nothing (fourth part). *)
Theorem conflict_filter_contract (allSlots : list TimeSlot) (existing : list Appointment) :
  (forall slot, In slot allSlots ->
     (~ In slot (filterBookedSlots allSlots existing) <-> blocked slot existing)) /\
  (forall slot, In slot (filterBookedSlots allSlots existing) <->
                In slot allSlots /\ ~ blocked slot existing) /\
  (forall s1 e1 s2 e2,
     overlaps (Some s1) (Some e1) (Some s2) (Some e2) = true <->
     (s2 <= s1 /\ s1 < e2) \/ (s2 < e1 /\ e1 <= e2) \/ (s1 <= s2 /\ e2 <= e1)) /\
  ((forall a, In a existing -> status a = cancelled) ->
   filterBookedSlots allSlots existing = allSlots).
Proof.
  split; [| split; [| split]].
  - intros slot Hin. unfold filterBookedSlots. rewrite filter_In.
    rewrite <- hasConflict_blocked.
    destruct (existsb (conflictsWith slot) existing); cbn; split.
    + reflexivity.
    + intros _ [_ H]. discriminate H.
    + intros H. exfalso. apply H. now split.
    + discriminate.
  - intros slot. apply filterBookedSlots_in.
  - intros s1 e1 s2 e2. unfold overlaps, date_geb, date_gtb, date_leb, date_ltb.
    rewrite !orb_true_iff, !andb_true_iff, !Z.leb_le, !Z.ltb_lt. tauto.
  - intros Hall. unfold filterBookedSlots.
    apply forallb_filter_id. apply forallb_forall. intros slot _.
    apply negb_true_iff, not_true_iff_false. rewrite hasConflict_blocked.
    intros (a & Hin & Hs & _). apply Hs. now apply Hall.
Qed.

End ConflictFilter.

(** An appointment whose times are written without milliseconds blocks the
    slot of Monday 10:00 as any other does. *)
Example conflict_filter_short_form :
  filterBookedSlots [Sample.mondaySlot "10:00" "10:30"; Sample.mondaySlot "10:30" "11:00"]
    [BookAppointmentUseCase.rescheduled Sample.rex Sample.friday
       "2025-01-06T10:00:00Z" "2025-01-06T10:30:00Z"] =
  [Sample.mondaySlot "10:30" "11:00"].
Proof. vm_compute. reflexivity. Qed.

(** ** The final sort *)

Section FinalSort.
Context {engine : JsEngine}.

Lemma insertSorted_perm {A : Type} (cmp : A -> A -> Z) x l :
  Permutation (insertSorted cmp x l) (x :: l).
Proof.
  induction l as [| y l IH]; cbn [insertSorted]; [reflexivity |].
  destruct (cmp x y <=? 0); [reflexivity |].
  rewrite IH. apply perm_swap.
Qed.

Lemma sort_perm {A : Type} (cmp : A -> A -> Z) l : Permutation (sort cmp l) l.
Proof.
  induction l as [| x l IH]; cbn [sort]; [reflexivity |].
  rewrite insertSorted_perm. now apply perm_skip.
Qed.

Lemma starts_before_trans a b c :
  starts_before a b -> starts_before b c -> starts_before a c.
Proof.
  intros (x & y & Hx & Hy & Hxy) (y' & z & Hy' & Hz & Hyz).
  exists x, z. rewrite Hy in Hy'. injection Hy' as <-. repeat split; try assumption. lia.
Qed.

Lemma compareSlots_le a b : starts_valid a -> starts_valid b ->
  (compareSlots a b <=? 0) = true -> starts_before a b.
Proof.
  intros [x Hx] [y Hy] H. unfold compareSlots in H. rewrite Hx, Hy in H.
  apply Z.leb_le in H. exists x, y. repeat split; try assumption. lia.
Qed.

Lemma compareSlots_gt a b : starts_valid a -> starts_valid b ->
  (compareSlots a b <=? 0) = false -> starts_before b a.
Proof.
  intros [x Hx] [y Hy] H. unfold compareSlots in H. rewrite Hx, Hy in H.
  apply Z.leb_gt in H. exists y, x. repeat split; try assumption. lia.
Qed.

Lemma insertSorted_sorted x l :
  starts_valid x -> Forall starts_valid l ->
  StronglySorted starts_before l ->
  StronglySorted starts_before (insertSorted compareSlots x l).
Proof.
  intros Hx Hl Hs. induction Hs as [| y l Hs IH Hy]; cbn [insertSorted].
  - constructor; constructor.
  - inversion Hl as [| ? ? Hvy Hvl]; subst.
    destruct (compareSlots x y <=? 0) eqn:Hc.
    + pose proof (compareSlots_le x y Hx Hvy Hc) as Hxy.
      constructor; [now constructor |].
      constructor; [assumption |].
      eapply Forall_impl; [| exact Hy]. intros z Hz. now apply starts_before_trans with y.
    + pose proof (compareSlots_gt x y Hx Hvy Hc) as Hyx.
      constructor; [now apply IH |].
      eapply Permutation_Forall; [symmetry; apply insertSorted_perm |].
      now constructor.
Qed.

(** Sorting slots whose starts are valid dates puts them in ascending
    order of start. *)
Lemma sort_sorted l :
  Forall starts_valid l -> StronglySorted starts_before (sort compareSlots l).
Proof.
  induction 1 as [| x l Hx Hl IH]; cbn [sort]; [constructor |].
  apply insertSorted_sorted; [assumption | | assumption].
  eapply Permutation_Forall; [symmetry; apply sort_perm | assumption].
Qed.

Lemma firstn_in {A : Type} n (l : list A) x : In x (firstn n l) -> In x l.
Proof.
  intros H. rewrite <- (firstn_skipn n l). apply in_or_app. now left.
Qed.

Lemma firstn_sorted {A : Type} (R : A -> A -> Prop) n l :
  StronglySorted R l -> StronglySorted R (firstn n l).
Proof.
  intros H. revert n. induction H as [| x l Hs IH Hx]; intros [| n]; cbn; try constructor.
  - apply IH.
  - apply Forall_forall. intros y Hy. apply firstn_in in Hy.
    rewrite Forall_forall in Hx. now apply Hx.
Qed.

End FinalSort.

(** ** The Availability Aggregator *)

Section Aggregator.
Context {engine : JsEngine}.
Context {lib : RRuleLibrary}.

Lemma flat_mapM_returns {A B : Type} (f : A -> Outcome (list B)) (g : A -> list B) l :
  (forall x, In x l -> f x = Returns (g x)) ->
  flat_mapM f l = Returns (flat_map g l).
Proof.
  induction l as [| x l IH]; intros H; cbn [flat_mapM flat_map]; [reflexivity |].
  rewrite (H x) by now left. cbn [bind].
  rewrite IH by (intros y Hy; apply H; now right). reflexivity.
Qed.

Lemma flat_mapM_in {A B : Type} (f : A -> Outcome (list B)) l ys :
  flat_mapM f l = Returns ys ->
  forall y, In y ys -> exists x zs, In x l /\ f x = Returns zs /\ In y zs.
Proof.
  revert ys. induction l as [| x l IH]; intros ys H y Hy; cbn [flat_mapM] in H.
  - injection H as <-. destruct Hy.
  - destruct (f x) as [zs | |] eqn:Hf; cbn [bind] in H; try discriminate.
    destruct (flat_mapM f l) as [ws | |] eqn:Hl; cbn [bind] in H; try discriminate.
    injection H as <-. apply in_app_or in Hy. destruct Hy as [Hy | Hy].
    + exists x, zs. repeat split; try assumption. now left.
    + destruct (IH ws eq_refl y Hy) as (x' & zs' & Hin & Hf' & Hy').
      exists x', zs'. repeat split; try assumption. now right.
Qed.

Lemma past_filter now l :
  filter (fun slot => negb (slot_start slot <? now)) l =
  filter (fun slot => now <=? slot_start slot) l.
Proof.
  apply filter_ext. intros slot. rewrite Z.ltb_antisym. apply negb_involutive.
Qed.

(** Whatever [slotsOfDate] returns is made of candidates that do not start
    in the past. *)
Lemma slotsOfDate_future now doctor availability d date zs :
  slotsOfDate now doctor availability d date = Returns zs ->
  forall z, In z zs -> exists slot, z = candidate doctor slot /\ now <= slot_start slot.
Proof.
  unfold slotsOfDate. cbv zeta.
  destruct (date_ltb _ _); [intros [= <-] z [] |].
  destruct (generateSlotsForBlock _ _ _) as [slots | |]; cbn [bind]; try discriminate.
  intros [= <-] z Hz. apply in_map_iff in Hz. destruct Hz as (slot & <- & Hin).
  apply filter_In in Hin. destruct Hin as [_ Hn].
  exists slot. split; [reflexivity |].
  apply negb_true_iff, Z.ltb_ge in Hn. exact Hn.
Qed.

(** With a positive duration [slotsOfDate] returns the candidates of the
    date. *)
Lemma slotsOfDate_returns now doctor availability d date : 0 < d ->
  slotsOfDate now doctor availability d date =
  Returns (candidatesOfDate now doctor availability d date).
Proof.
  intros Hd. unfold slotsOfDate, candidatesOfDate. cbv zeta.
  destruct (combineDateAndTime date (endTime availability)) as [e |] eqn:He;
    destruct (combineDateAndTime date (startTime availability)) as [s |] eqn:Hs;
    cbn [date_ltb]; try reflexivity.
  - destruct (e <? now) eqn:Hpast.
    + apply Z.ltb_lt in Hpast. f_equal. symmetry.
      rewrite (filter_ext_in _ (fun _ => false)); [now rewrite filter_false |].
      intros slot Hin. apply slices_in in Hin; [| lia].
      destruct Hin as (k & Hk & H1 & H2 & H3). apply Z.leb_gt. lia.
    + rewrite generateSlotsForBlock_slices by assumption. cbn [bind].
      now rewrite past_filter.
  - destruct (e <? now); reflexivity.
Qed.

Lemma generateAllPossibleSlots_returns now doctor startDate endDate d : 0 < d ->
  generateAllPossibleSlots now doctor startDate endDate d =
  Returns (candidatesOf now doctor startDate endDate d).
Proof.
  intros Hd. unfold generateAllPossibleSlots, candidatesOf.
  apply flat_mapM_returns. intros availability _.
  apply flat_mapM_returns. intros date _. now apply slotsOfDate_returns.
Qed.

(** Whatever [generateAllPossibleSlots] returns is made of candidates that
    do not start in the past. *)
Lemma generateAllPossibleSlots_future now doctor startDate endDate d all :
  generateAllPossibleSlots now doctor startDate endDate d = Returns all ->
  forall z, In z all -> exists slot, z = candidate doctor slot /\ now <= slot_start slot.
Proof.
  intros H z Hz. unfold generateAllPossibleSlots in H.
  destruct (flat_mapM_in _ _ _ H z Hz) as (availability & zs & _ & Hzs & Hz').
  destruct (flat_mapM_in _ _ _ Hzs z Hz') as (date & ws & _ & Hws & Hz'').
  exact (slotsOfDate_future _ _ _ _ _ _ Hws z Hz'').
Qed.

Lemma candidatesOf_in now doctor startDate endDate d z : 0 < d ->
  In z (candidatesOf now doctor startDate endDate d) <->
  exists availability date blockStart blockEnd slot,
    In availability (weeklyAvailability doctor) /\
    In date (expandAvailabilityToDates now availability startDate endDate) /\
    combineDateAndTime date (startTime availability) = Some blockStart /\
    combineDateAndTime date (endTime availability) = Some blockEnd /\
    In slot (slices blockStart blockEnd (d * 60 * 1000)) /\
    now <= slot_start slot /\
    z = candidate doctor slot.
Proof.
  intros Hd. unfold candidatesOf. rewrite in_flat_map. split.
  - intros (availability & Hav & Hz). apply in_flat_map in Hz.
    destruct Hz as (date & Hdate & Hz). unfold candidatesOfDate in Hz.
    destruct (combineDateAndTime date (startTime availability)) as [s |] eqn:Hs; [| destruct Hz].
    destruct (combineDateAndTime date (endTime availability)) as [e |] eqn:He; [| destruct Hz].
    apply in_map_iff in Hz. destruct Hz as (slot & <- & Hin).
    apply filter_In in Hin. destruct Hin as [Hin Hn]. apply Z.leb_le in Hn.
    exists availability, date, s, e, slot. repeat split; assumption.
  - intros (availability & date & s & e & slot & Hav & Hdate & Hs & He & Hin & Hn & ->).
    exists availability. split; [assumption |]. apply in_flat_map.
    exists date. split; [assumption |]. unfold candidatesOfDate. rewrite Hs, He.
    apply in_map. apply filter_In. split; [assumption | now apply Z.leb_le].
Qed.

Lemma candidate_starts_valid doctor slot : starts_valid (candidate doctor slot).
Proof. exists (slot_start slot). cbn. apply parseDate_toISOString. Qed.

(** [execute] on a stored provider with a positive duration: the
    candidates of the window, those blocked by the appointments in the
    window removed, sorted. *)
Lemma execute_returns st now doctor doctor' fromDate toDate d :
  getDoctorById st doctor = Some doctor' -> 0 < d ->
  execute st now doctor fromDate toDate d =
  Returns (sort compareSlots
             (filterBookedSlots
                (candidatesOf now doctor' (parseDate fromDate) (parseDate toDate) d)
                (getAppointmentsByDoctorAndDateRange st doctor fromDate toDate))).
Proof.
  intros Hdoc Hd. unfold execute. rewrite Hdoc. cbv zeta.
  now rewrite generateAllPossibleSlots_returns.
Qed.

Lemma execute_unknown st now doctor fromDate toDate d :
  getDoctorById st doctor = None ->
  execute st now doctor fromDate toDate d =
  Throws ("Doctor with ID " ++ doctor ++ " not found")%string.
Proof. intros H. unfold execute. now rewrite H. Qed.

(** Every slot [execute] returns is a candidate that does not start in the
    past. *)
Lemma execute_future st now doctor fromDate toDate d slots :
  execute st now doctor fromDate toDate d = Returns slots ->
  forall z, In z slots ->
    exists doctor' slot, getDoctorById st doctor = Some doctor' /\
      z = candidate doctor' slot /\ now <= slot_start slot.
Proof.
  unfold execute. destruct (getDoctorById st doctor) as [doctor' |]; [| discriminate].
  cbv zeta.
  destruct (generateAllPossibleSlots _ _ _ _ _) as [all | |] eqn:Hall; cbn [bind]; try discriminate.
  intros [= <-] z Hz.
  apply (Permutation_in _ (sort_perm _ _)) in Hz.
  unfold filterBookedSlots in Hz. apply filter_In in Hz. destruct Hz as [Hz _].
  destruct (generateAllPossibleSlots_future _ _ _ _ _ _ Hall z Hz) as (slot & -> & Hn).
  now exists doctor', slot.
Qed.

(** The list [execute] returns is in ascending order of start. *)
Lemma execute_sorted st now doctor fromDate toDate d slots :
  execute st now doctor fromDate toDate d = Returns slots ->
  StronglySorted starts_before slots.
Proof.
  intros H. pose proof (execute_future _ _ _ _ _ _ _ H) as Hf.
  unfold execute in H. destruct (getDoctorById st doctor) as [doctor' |]; [| discriminate].
  cbv zeta in H.
  destruct (generateAllPossibleSlots _ _ _ _ _) as [all | |]; cbn [bind] in H; try discriminate.
  injection H as <-. apply sort_sorted.
  apply Forall_forall. intros z Hz.
  assert (Hz' : In z (sort compareSlots (filterBookedSlots all
            (getAppointmentsByDoctorAndDateRange st doctor fromDate toDate)))).
  { eapply Permutation_in; [symmetry; apply sort_perm | exact Hz]. }
  destruct (Hf z Hz') as (doctor'' & slot & _ & -> & _).
  apply candidate_starts_valid.
Qed.

(** C6 -- listAvailableSlots.  Whenever [execute] returns a list, none of
    its slots starts before the current instant and the list is sorted
    ascending by start instant (first and second part).  For a stored
    provider and a positive duration it does return, and a slot of a block
    that does not start in the past is in the list unless an appointment
    blocks it, also when the block itself began in the past (third
    part). *)
Theorem listAvailableSlots_future_sorted (st : Store) (now : Z)
    (doctor fromDate toDate : string) (d : Z) :
  (forall slots,
     GetAvailableSlotsUseCase.execute st now doctor fromDate toDate d = Returns slots ->
     (forall slot, In slot slots ->
        exists t, parseDate (startISO slot) = Some t /\ now <= t) /\
     StronglySorted starts_before slots) /\
  (forall doctor', getDoctorById st doctor = Some doctor' -> 0 < d ->
     exists slots,
       GetAvailableSlotsUseCase.execute st now doctor fromDate toDate d = Returns slots /\
       forall availability date blockStart blockEnd slot,
         In availability (weeklyAvailability doctor') ->
         In date (expandAvailabilityToDates now availability
                    (parseDate fromDate) (parseDate toDate)) ->
         combineDateAndTime date (startTime availability) = Some blockStart ->
         combineDateAndTime date (endTime availability) = Some blockEnd ->
         In slot (slices blockStart blockEnd (d * 60 * 1000)) ->
         now <= slot_start slot ->
         ~ blocked (candidate doctor' slot)
             (getAppointmentsByDoctorAndDateRange st doctor fromDate toDate) ->
         In (candidate doctor' slot) slots).
Proof.
  split.
  - intros slots H. split.
    + intros z Hz. destruct (execute_future _ _ _ _ _ _ _ H z Hz) as (doctor' & slot & _ & -> & Hn).
      exists (slot_start slot). split; [apply parseDate_toISOString | assumption].
    + now apply execute_sorted with (1 := H).
  - intros doctor' Hdoc Hd. eexists. split; [apply execute_returns; eassumption |].
    intros availability date s e slot Hav Hdate Hs He Hin Hn Hfree.
    eapply Permutation_in; [symmetry; apply sort_perm |].
    apply filterBookedSlots_in. split; [| assumption].
    apply candidatesOf_in; [assumption |].
    now exists availability, date, s, e, slot.
Qed.

End Aggregator.

(** ** The example of the Monday rule *)

Section MondayExample.
Context {engine : JsEngine}.
Context {lib : RRuleLibrary}.

Lemma startOfDay_addDays t k : startOfDay (addDays t k) = startOfDay t + k * msPerDay.
Proof. unfold startOfDay. rewrite dayOf_addDays. lia. Qed.

Lemma startOfDay_le t : startOfDay t <= t.
Proof.
  unfold startOfDay, dayOf, msPerDay.
  pose proof (Z.mul_div_le t 86400000 ltac:(lia)). lia.
Qed.

(** A block from 09:00 to 12:00 that has not begun gives six candidates of
    30 minutes. *)
Lemma morning_block_candidates now doctor availability date :
  startTime availability = "09:00" -> endTime availability = "12:00" ->
  now <= startOfDay date + 9 * msPerHour ->
  List.length (candidatesOfDate now doctor availability 30 date) = 6%nat.
Proof.
  intros Hs He Hn. unfold candidatesOfDate. rewrite Hs, He.
  change (combineDateAndTime date "09:00") with (Some (setHours date 9 0 0 0)).
  change (combineDateAndTime date "12:00") with (Some (setHours date 12 0 0 0)).
  cbv beta iota. rewrite length_map.
  rewrite forallb_filter_id.
  - unfold slices. rewrite length_map, length_seq.
    replace (setHours date 12 0 0 0 - setHours date 9 0 0 0) with 10800000
      by (unfold setHours, msPerHour, msPerMinute, msPerSecond; lia).
    reflexivity.
  - apply forallb_forall. intros slot Hin. apply slices_in in Hin; [| lia].
    destruct Hin as (k & Hk & H1 & _). apply Z.leb_le. rewrite H1.
    unfold setHours, msPerHour, msPerMinute, msPerSecond in *. lia.
Qed.

Lemma every_seventh_two to from :
  addDays from 7 <= to < addDays from 14 ->
  every_seventh to from = [from; addDays from 7].
Proof.
  intros H. rewrite every_seventh_cons by (unfold addDays, msPerDay in *; lia).
  rewrite every_seventh_cons by lia.
  rewrite every_seventh_nil; [reflexivity |].
  rewrite addDays_addDays. exact (proj2 H).
Qed.

Lemma every_seventh_three from :
  every_seventh (addDays from 14) from = [from; addDays from 7; addDays from 14].
Proof.
  rewrite every_seventh_cons by (unfold addDays, msPerDay; lia).
  rewrite every_seventh_cons by (unfold addDays, msPerDay; lia).
  rewrite every_seventh_cons by (rewrite addDays_addDays; unfold addDays, msPerDay; lia).
  rewrite every_seventh_nil by (rewrite !addDays_addDays; unfold addDays, msPerDay; lia).
  now rewrite addDays_addDays.
Qed.

Lemma monday_dates now availability from to :
  weekday availability = 1 -> truthy_opt (rrule availability) = false ->
  getDay from = 1 ->
  expandAvailabilityToDates now availability (Some from) (Some to) = every_seventh to from.
Proof.
  intros Hw Hr Hday. unfold expandAvailabilityToDates. rewrite Hr. cbn [negb].
  rewrite weeklyOccurrences_spec. unfold weekly_spec. rewrite Hw, Hday.
  cbn. now rewrite addDays_0.
Qed.

(** C9, as amended -- the Monday example.  A provider has the single rule
    Monday 09:00-12:00 without descriptor, the duration is 30 minutes, and
    the window starts on a Monday whose block has not begun.  With the
    window closed two weeks (14 days) later, the Monday that ends it is a
    third matching Monday and there are 3 x 6 = 18 candidates before
    conflict filtering; with a window that ends after the second Monday and
    before the third there are 2 x 6 = 12. *)
Theorem monday_example_candidates (now from : Z) (doctor : Doctor) (availability : Availability) :
  weeklyAvailability doctor = [availability] ->
  weekday availability = 1 ->
  startTime availability = "09:00" -> endTime availability = "12:00" ->
  truthy_opt (rrule availability) = false ->
  getDay from = 1 ->
  now <= startOfDay from + 9 * msPerHour ->
  (expandAvailabilityToDates now availability (Some from) (Some (addDays from 14)) =
     [from; addDays from 7; addDays from 14] /\
   exists slots,
     generateAllPossibleSlots now doctor (Some from) (Some (addDays from 14)) 30 =
       Returns slots /\ List.length slots = 18%nat) /\
  (forall to, addDays from 7 <= to < addDays from 14 ->
     expandAvailabilityToDates now availability (Some from) (Some to) =
       [from; addDays from 7] /\
     exists slots,
       generateAllPossibleSlots now doctor (Some from) (Some to) 30 = Returns slots /\
       List.length slots = 12%nat).
Proof.
  intros Hav Hw Hs He Hr Hday Hn.
  assert (Hblock : forall k, 0 <= k ->
            List.length (candidatesOfDate now doctor availability 30 (addDays from k)) = 6%nat).
  { intros k Hk. apply morning_block_candidates; try assumption.
    rewrite startOfDay_addDays. unfold msPerDay. lia. }
  pose proof (Hblock 0 ltac:(lia)) as H0. rewrite addDays_0 in H0.
  split.
  - rewrite monday_dates, every_seventh_three by assumption.
    split; [reflexivity |].
    eexists. split; [apply generateAllPossibleSlots_returns; lia |].
    unfold candidatesOf. rewrite Hav. cbn [flat_map]. rewrite app_nil_r.
    rewrite monday_dates, every_seventh_three by assumption.
    cbn [flat_map]. rewrite app_nil_r, !length_app, H0, !Hblock by lia. reflexivity.
  - intros to Hto. rewrite monday_dates, every_seventh_two by assumption.
    split; [reflexivity |].
    eexists. split; [apply generateAllPossibleSlots_returns; lia |].
    unfold candidatesOf. rewrite Hav. cbn [flat_map]. rewrite app_nil_r.
    rewrite monday_dates, every_seventh_two by assumption.
    cbn [flat_map]. rewrite app_nil_r, !length_app, H0, !Hblock by lia. reflexivity.
Qed.

End MondayExample.

(** The window from Monday 6 January 2025 through Monday 20 January 2025,
    asked on the Friday before: three Mondays, 18 candidates, not 12. *)
Lemma monday_example_eighteen :
  expandAvailabilityToDates Sample.friday Sample.mondayMorning
    (Some Sample.monday) (Some (addDays Sample.monday 14)) =
    [Sample.monday; addDays Sample.monday 7; addDays Sample.monday 14] /\
  exists slots,
    generateAllPossibleSlots Sample.friday Sample.drJohnson
      (Some Sample.monday) (Some (addDays Sample.monday 14)) 30 = Returns slots /\
    List.length slots = 18%nat /\ List.length slots <> 12%nat.
Proof.
  split; [vm_compute; reflexivity |].
  eexists. split; [vm_compute; reflexivity |]. split; [reflexivity | discriminate].
Qed.

Lemma monday_example_candidates_witness :
  (weeklyAvailability Sample.drJohnson = [Sample.mondayMorning] /\
   getDay Sample.monday = 1 /\
   Sample.friday <= startOfDay Sample.monday + 9 * msPerHour) /\
  exists slots,
    generateAllPossibleSlots Sample.friday Sample.drJohnson
      (Some Sample.monday) (Some (addDays Sample.monday 14)) 30 = Returns slots /\
    List.length slots = 18%nat.
Proof.
  split; [repeat split; vm_compute; congruence |].
  apply (monday_example_candidates Sample.friday Sample.monday
           Sample.drJohnson Sample.mondayMorning);
    try reflexivity; vm_compute; congruence.
Defined.

(** ** The Booking Transaction *)

Section Booking.
Context {engine : JsEngine}.
Context {lib : RRuleLibrary}.

Lemma slots_from_step fuel : forall e step cur slot,
  In slot (slots_from fuel e step cur) -> slot_end slot = slot_start slot + step.
Proof.
  induction fuel as [| fuel IH]; intros e step cur slot H; cbn [slots_from] in H; [destruct H |].
  destruct (cur <? e); [| destruct H]. cbv zeta in H.
  apply in_app_or in H. destruct H as [H | H]; [| now apply IH in H].
  destruct (cur + step <=? e); [| destruct H].
  destruct H as [<- | []]. reflexivity.
Qed.

Lemma slots_back_step fuel : forall e step cur slot,
  In slot (slots_back fuel e step cur) -> slot_end slot = slot_start slot + step.
Proof.
  induction fuel as [| fuel IH]; intros e step cur slot H; cbn [slots_back] in H; [destruct H |].
  destruct (cur <? e); [| destruct H].
  unfold timeClip in H. destruct (Z.abs (cur + step) <=? maxTime); [| destruct H].
  apply in_app_or in H. destruct H as [H | H]; [| now apply IH in H].
  destruct (cur + step <=? e); [| destruct H].
  destruct H as [<- | []]. reflexivity.
Qed.

Lemma generateSlotsForBlock_step s e d slots slot :
  generateSlotsForBlock s e d = Returns slots -> In slot slots ->
  slot_end slot = slot_start slot + d * 60 * 1000.
Proof.
  unfold generateSlotsForBlock. destruct s as [s |], e as [e |]; try (intros [= <-] []).
  cbv zeta. destruct (s <? e); [| intros [= <-] []].
  destruct (0 <? d * 60 * 1000); [intros [= <-]; apply slots_from_step |].
  destruct (d * 60 * 1000 <? 0); [| discriminate].
  intros [= <-]. apply slots_back_step.
Qed.

(** Every slot [execute] returns is the candidate of a slot that does not
    start in the past and lasts the duration asked for. *)
Lemma execute_shape st now doctor fromDate toDate d slots :
  execute st now doctor fromDate toDate d = Returns slots ->
  forall z, In z slots ->
    exists t, now <= t /\ startISO z = toISOString t /\
              endISO z = toISOString (t + d * 60 * 1000).
Proof.
  unfold execute. destruct (getDoctorById st doctor) as [doctor' |]; [| discriminate].
  cbv zeta.
  destruct (generateAllPossibleSlots _ _ _ _ _) as [all | |] eqn:Hall; cbn [bind]; try discriminate.
  intros [= <-] z Hz.
  apply (Permutation_in _ (sort_perm _ _)) in Hz.
  unfold filterBookedSlots in Hz. apply filter_In in Hz. destruct Hz as [Hz _].
  unfold generateAllPossibleSlots in Hall.
  destruct (flat_mapM_in _ _ _ Hall z Hz) as (availability & zs & _ & Hzs & Hz').
  destruct (flat_mapM_in _ _ _ Hzs z Hz') as (date & ws & _ & Hws & Hz'').
  unfold slotsOfDate in Hws. cbv zeta in Hws.
  destruct (date_ltb _ _); [injection Hws as <-; destruct Hz'' |].
  destruct (generateSlotsForBlock _ _ _) as [blockSlots | |] eqn:Hb; cbn [bind] in Hws; try discriminate.
  injection Hws as <-. apply in_map_iff in Hz''. destruct Hz'' as (slot & <- & Hin).
  apply filter_In in Hin. destruct Hin as [Hin Hn].
  apply negb_true_iff, Z.ltb_ge in Hn.
  exists (slot_start slot). split; [assumption |]. cbn [startISO endISO]. split; [reflexivity |].
  now rewrite (generateSlotsForBlock_step _ _ _ _ _ Hb Hin).
Qed.

(** With the default duration a query never runs forever. *)
Lemma execute_30 st now doctor fromDate toDate :
  (exists slots, execute st now doctor fromDate toDate 30 = Returns slots) \/
  (getDoctorById st doctor = None /\
   execute st now doctor fromDate toDate 30 =
     Throws ("Doctor with ID " ++ doctor ++ " not found")%string).
Proof.
  destruct (getDoctorById st doctor) as [doctor' |] eqn:Hdoc.
  - left. eexists. apply execute_returns; [eassumption | lia].
  - right. split; [reflexivity |]. now apply execute_unknown.
Qed.

(** [validateSlotAvailability] looks for an exact match among the
    candidates of the requested day. *)
Lemma validateSlotAvailability_spec st now doctor s e :
  BookAppointmentUseCase.validateSlotAvailability st now doctor s e =
  Returns (existsb (exactMatch s e) (dayCandidates st now doctor s)).
Proof.
  unfold BookAppointmentUseCase.validateSlotAvailability, dayCandidates.
  destruct (parseDate s) as [t |]; [| reflexivity].
  destruct (execute_30 st now doctor (toISOString (setHours t 0 0 0 0))
              (toISOString (setHours t 23 59 59 999))) as [[slots H] | [_ H]];
    rewrite H; reflexivity.
Qed.

Lemma dayCandidates_unknown st now doctor s :
  getDoctorById st doctor = None -> dayCandidates st now doctor s = [].
Proof.
  intros H. unfold dayCandidates. destruct (parseDate s); [| reflexivity].
  now rewrite execute_unknown.
Qed.

(** The candidates of a day do not start in the past and last 30 minutes. *)
Lemma dayCandidates_shape st now doctor s z :
  In z (dayCandidates st now doctor s) ->
  exists t, now <= t /\ startISO z = toISOString t /\
            endISO z = toISOString (t + 30 * 60 * 1000).
Proof.
  unfold dayCandidates. destruct (parseDate s) as [t |]; [| intros []].
  destruct (execute _ _ _ _ _ _) as [slots | |] eqn:H; try (intros []).
  now apply execute_shape with (1 := H).
Qed.

Lemma toISOString_truthy t : truthy (toISOString t) = true.
Proof.
  unfold truthy. apply negb_true_iff, String.eqb_neq. intros H.
  pose proof (parseDateTimeString_toISOString t) as Hp. rewrite H in Hp. discriminate Hp.
Qed.

(** A request that matches a candidate exactly has its fields present, its
    end after its start and its start not in the past. *)
Lemma exactMatch_valid st now doctor s e :
  existsb (exactMatch s e) (dayCandidates st now doctor s) = true ->
  truthy s = true /\ truthy e = true /\
  date_leb (parseDate e) (parseDate s) = false /\
  date_ltb (parseDate s) (Some now) = false.
Proof.
  intros H. apply existsb_exists in H. destruct H as (z & Hin & Hm).
  apply andb_true_iff in Hm. destruct Hm as [Hs He].
  apply String.eqb_eq in Hs, He.
  destruct (dayCandidates_shape _ _ _ _ _ Hin) as (t & Hn & Hst & Het).
  rewrite <- Hs, <- He, Hst, Het, !toISOString_truthy, !parseDate_toISOString.
  repeat split; [apply Z.leb_gt; lia | apply Z.ltb_ge; lia].
Qed.

(** The alternatives: the first slots of the next 30 days. *)
Lemma getNextAvailableSlots_spec st now doctor count :
  getNextAvailableSlots st now doctor count 30 =
  match execute st now doctor (toISOString now) (toISOString (addDays now 30)) 30 with
  | Returns horizon => Returns (firstn count horizon)
  | Throws m => Throws m
  | Diverges => Diverges
  end.
Proof. unfold getNextAvailableSlots. cbv zeta. now destruct (execute _ _ _ _ _ _). Qed.

Lemma prefix_append p s : prefix p (p ++ s) = true.
Proof.
  induction p as [| a p IH]; cbn [append prefix]; [now destruct s |].
  destruct (ascii_dec a a) as [_ | Hne]; [exact IH | now contradiction Hne].
Qed.

(** The message for a provider that is not stored is of kind NotFound. *)
Lemma kindOf_unknown_provider doctor :
  kindOf ("Doctor with ID " ++ doctor ++ " not found") = Some NotFound.
Proof.
  unfold kindOf.
  repeat match goal with
         | |- context [String.eqb ?a ?b] =>
             replace (String.eqb a b) with false
               by (symmetry; apply String.eqb_neq; discriminate)
         end.
  now rewrite prefix_append.
Qed.

(** [execute]: the decisions of a booking, in order. *)
Lemma book_cases st now uuid request :
  BookAppointmentUseCase.execute st now uuid request =
  if negb (passesValidation now request) then
    Returns (BookAppointmentUseCase.failure
               (if negb (truthy (new_doctorId request) && truthy (new_startDateISO request)
                         && truthy (new_endDateISO request))
                then "Missing required appointment data"
                else if date_leb (parseDate (new_endDateISO request))
                                 (parseDate (new_startDateISO request))
                then "End time must be after start time"
                else "Cannot book appointments in the past"), st)
  else if existsb (exactMatch (new_startDateISO request) (new_endDateISO request))
            (dayCandidates st now (new_doctorId request) (new_startDateISO request))
  then Returns (BookAppointmentUseCase.booked (newAppointment now uuid request),
                createAppointment st (newAppointment now uuid request))
  else
    match execute st now (new_doctorId request) (toISOString now)
            (toISOString (addDays now 30)) 30 with
    | Returns horizon =>
        Returns (BookAppointmentUseCase.unavailable "Slot already booked"
                   (firstn 3 horizon), st)
    | Throws m => Returns (BookAppointmentUseCase.failure m, st)
    | Diverges => Diverges
    end.
Proof.
  unfold BookAppointmentUseCase.execute, passesValidation.
  destruct (truthy (new_doctorId request)); cbn [negb orb andb try_catch]; [| reflexivity].
  destruct (truthy (new_startDateISO request)); cbn [negb orb andb try_catch]; [| reflexivity].
  destruct (truthy (new_endDateISO request)); cbn [negb orb andb try_catch]; [| reflexivity].
  destruct (date_leb _ _); cbn [negb orb andb try_catch]; [reflexivity |].
  destruct (date_ltb _ _); cbn [negb orb andb try_catch]; [reflexivity |].
  rewrite validateSlotAvailability_spec. cbn [bind].
  destruct (existsb _ _); cbn [negb]; [reflexivity |].
  rewrite getNextAvailableSlots_spec.
  destruct (execute _ _ _ _ _ _); reflexivity.
Qed.



(** C10 -- unknown provider.  A booking request whose provider is not
    stored is answered with a failure result, not with an exception, and
    the store is returned as it was. *)
Theorem book_unknown_provider (st : Store) (now : Z) (uuid : string)
    (request : AppointmentCreate) :
  getDoctorById st (new_doctorId request) = None ->
  exists result,
    BookAppointmentUseCase.execute st now uuid request = Returns (result, st) /\
    success result = false /\ appointment result = None.
Proof.
  intros Hdoc. rewrite book_cases.
  destruct (negb (passesValidation now request)).
  - eexists. split; [reflexivity |]. split; reflexivity.
  - rewrite dayCandidates_unknown by assumption. cbn [existsb].
    rewrite execute_unknown by assumption.
    eexists. split; [reflexivity |]. split; reflexivity.
Qed.

(** C2, as amended -- exact match.  For a request that passes the basic
    validations.  When its provider is stored: the booking succeeds only if
    the candidate list of the requested day has a candidate with exactly
    the start and the end of the request (hence the same instants); when no
    candidate has the instants of the request, the booking fails with "Slot
    already booked" (SlotUnavailable), leaves the store as it was, and
    returns as alternatives the first 3 slots, at most, of the provider's
    available slots from now to 30 days later, in ascending order of start;
    the last two parts of this case give the decision of the code on the
    strings.  When its provider is not stored: the booking fails with
    "Doctor with ID ... not found" (NotFound), leaves the store as it was
    and returns no alternatives. *)
Theorem book_exact_match (st : Store) (now : Z) (uuid : string)
    (request : AppointmentCreate) :
  passesValidation now request = true ->
  let start := new_startDateISO request in
  let end_ := new_endDateISO request in
  let candidates := dayCandidates st now (new_doctorId request) start in
  let result := BookAppointmentUseCase.execute st now uuid request in
  match getDoctorById st (new_doctorId request) with
  | Some _ =>
      exists horizon,
        GetAvailableSlotsUseCase.execute st now (new_doctorId request)
          (toISOString now) (toISOString (addDays now 30)) 30 = Returns horizon /\
        StronglySorted starts_before (firstn 3 horizon) /\
        (List.length (firstn 3 horizon) <= 3)%nat /\
        (forall r st', result = Returns (r, st') -> success r = true ->
           exists c, In c candidates /\ startISO c = start /\ endISO c = end_ /\
                     parseDate (startISO c) = parseDate start /\
                     parseDate (endISO c) = parseDate end_) /\
        ((~ exists c, In c candidates /\ parseDate (startISO c) = parseDate start /\
                      parseDate (endISO c) = parseDate end_) ->
           result = Returns (BookAppointmentUseCase.unavailable "Slot already booked"
                               (firstn 3 horizon), st)) /\
        (existsb (exactMatch start end_) candidates = true ->
           result = Returns (BookAppointmentUseCase.booked (newAppointment now uuid request),
                             createAppointment st (newAppointment now uuid request))) /\
        (existsb (exactMatch start end_) candidates = false ->
           result = Returns (BookAppointmentUseCase.unavailable "Slot already booked"
                               (firstn 3 horizon), st)) /\
        reports SlotUnavailable (Some "Slot already booked")
  | None =>
      exists answer,
        result = Returns (answer, st) /\
        success answer = false /\ appointment answer = None /\
        error answer = Some ("Doctor with ID " ++ new_doctorId request ++ " not found")%string /\
        reports NotFound (error answer) /\
        nextAvailableSlots answer = None
  end.
Proof.
  intros Hvalid. cbv zeta.
  destruct (getDoctorById st (new_doctorId request)) as [doctor' |] eqn:Hdoc.
  2:{ rewrite book_cases, Hvalid. cbn [negb].
      rewrite dayCandidates_unknown by assumption. cbn [existsb].
      rewrite execute_unknown by assumption.
      eexists. split; [reflexivity |].
      split; [reflexivity |]. split; [reflexivity |]. split; [reflexivity |].
      split; [| reflexivity].
      apply kindOf_unknown_provider. }
  pose proof (execute_returns st now _ _ (toISOString now) (toISOString (addDays now 30)) 30
                Hdoc ltac:(lia)) as Hh.
  eexists. split; [exact Hh |].
  pose proof (execute_sorted _ _ _ _ _ _ _ Hh) as Hsorted.
  split; [now apply firstn_sorted |].
  split; [apply firstn_le_length |].
  rewrite book_cases, Hvalid, Hh. cbn [negb].
  assert (Hnone :
    (~ exists c, In c (dayCandidates st now (new_doctorId request) (new_startDateISO request)) /\
                 parseDate (startISO c) = parseDate (new_startDateISO request) /\
                 parseDate (endISO c) = parseDate (new_endDateISO request)) ->
    existsb (exactMatch (new_startDateISO request) (new_endDateISO request))
      (dayCandidates st now (new_doctorId request) (new_startDateISO request)) = false).
  { intros Hn. apply not_true_is_false. intros He. apply Hn.
    apply existsb_exists in He. destruct He as (c & Hin & Hm).
    apply andb_true_iff in Hm. destruct Hm as [H1 H2]. apply String.eqb_eq in H1, H2.
    exists c. rewrite H1, H2. auto. }
  split; [| split; [| split; [| split]]].
  - intros r st' Hr Hsucc.
    destruct (existsb _ _) eqn:He.
    + apply existsb_exists in He. destruct He as (c & Hin & Hm).
      apply andb_true_iff in Hm. destruct Hm as [H1 H2]. apply String.eqb_eq in H1, H2.
      exists c. rewrite H1, H2. auto.
    + injection Hr as <- <-. discriminate Hsucc.
  - intros Hn. now rewrite (Hnone Hn).
  - now intros ->.
  - now intros ->.
  - reflexivity.
Qed.

(** X1 -- A candidate listed for its day, booked with its own times: the booking
    succeeds, and the appointment is stored last with status [scheduled]. *)
Lemma book_listed_candidate st now uuid request slot :
  truthy (new_doctorId request) = true ->
  In slot (dayCandidates st now (new_doctorId request) (startISO slot)) ->
  new_startDateISO request = startISO slot ->
  new_endDateISO request = endISO slot ->
  BookAppointmentUseCase.execute st now uuid request =
    Returns (BookAppointmentUseCase.booked (newAppointment now uuid request),
             createAppointment st (newAppointment now uuid request)) /\
  status (newAppointment now uuid request) = scheduled.
Proof.
  intros Hd Hin Hs He. split; [| reflexivity].
  assert (Hm : existsb (exactMatch (new_startDateISO request) (new_endDateISO request))
                 (dayCandidates st now (new_doctorId request) (new_startDateISO request)) = true).
  { rewrite Hs, He. apply existsb_exists. exists slot. split; [assumption |].
    unfold exactMatch. now rewrite !String.eqb_refl. }
  destruct (exactMatch_valid _ _ _ _ _ Hm) as (H1 & H2 & H3 & H4).
  rewrite book_cases. unfold passesValidation. rewrite Hd, H1, H2, H3, H4, Hm. reflexivity.
Qed.

End Booking.

(** A request without provider id, one that ends before it starts and one
    in the past, each refused with its own message and the store kept. *)
Example book_validation_examples :
  BookAppointmentUseCase.execute Sample.store Sample.friday "u1"
    (Sample.request "" "2025-01-06T10:00:00.000Z" "2025-01-06T10:30:00.000Z") =
    Returns (BookAppointmentUseCase.failure "Missing required appointment data", Sample.store) /\
  BookAppointmentUseCase.execute Sample.store Sample.friday "u1"
    (Sample.request "d1" "2025-01-06T10:30:00.000Z" "2025-01-06T10:00:00.000Z") =
    Returns (BookAppointmentUseCase.failure "End time must be after start time", Sample.store) /\
  BookAppointmentUseCase.execute Sample.store Sample.friday "u1"
    (Sample.request "d1" "2025-01-02T10:00:00.000Z" "2025-01-02T10:30:00.000Z") =
    Returns (BookAppointmentUseCase.failure "Cannot book appointments in the past", Sample.store).
Proof. repeat split; vm_compute; reflexivity. Qed.

(** The same checks on times written without milliseconds: an end the day
    before the start, and a start in the past. *)
Example book_validation_short_forms :
  BookAppointmentUseCase.execute Sample.store Sample.friday "u1"
    (Sample.request "d1" "2025-01-02T10:00:00.000Z" "2025-01-01T10:00:00Z") =
    Returns (BookAppointmentUseCase.failure "End time must be after start time", Sample.store) /\
  BookAppointmentUseCase.execute Sample.store Sample.friday "u1"
    (Sample.request "d1" "2025-01-02T10:00:00Z" "2025-01-02T10:30:00Z") =
    Returns (BookAppointmentUseCase.failure "Cannot book appointments in the past", Sample.store).
Proof. split; vm_compute; reflexivity. Qed.

Lemma book_unknown_provider_witness :
  getDoctorById Sample.store "d9" = None /\
  exists result,
    BookAppointmentUseCase.execute Sample.store Sample.friday "u1"
      (Sample.request "d9" "2025-01-06T10:00:00.000Z" "2025-01-06T10:30:00.000Z") =
      Returns (result, Sample.store) /\
    success result = false /\ appointment result = None.
Proof.
  split; [vm_compute; reflexivity |].
  apply (book_unknown_provider Sample.store Sample.friday "u1"
           (Sample.request "d9" "2025-01-06T10:00:00.000Z" "2025-01-06T10:30:00.000Z")).
  vm_compute; reflexivity.
Defined.

(** A request that passes the basic validations, for which the day has no
    candidate at all, and which is not answered with SlotUnavailable and
    alternatives: its provider is not stored, the answer is NotFound and
    carries no alternative. *)
Lemma book_unknown_provider_not_unavailable :
  let request := Sample.request "d9" "2025-01-06T10:00:00.000Z" "2025-01-06T10:30:00.000Z" in
  passesValidation Sample.friday request = true /\
  dayCandidates Sample.store Sample.friday "d9" "2025-01-06T10:00:00.000Z" = [] /\
  BookAppointmentUseCase.execute Sample.store Sample.friday "u1" request =
    Returns ({| success := false; appointment := None;
                error := Some "Doctor with ID d9 not found";
                nextAvailableSlots := None |}, Sample.store) /\
  kindOf "Doctor with ID d9 not found" = Some NotFound.
Proof. cbv zeta. repeat split; vm_compute; reflexivity. Qed.

(** Monday 10:05-10:35 is free but starts on no slot boundary: no exact
    match, the answer is SlotUnavailable with alternatives. *)
Lemma book_exact_match_witness :
  (getDoctorById Sample.store "d1" = Some Sample.drJohnson /\
   passesValidation Sample.friday
     (Sample.request "d1" "2025-01-06T10:05:00.000Z" "2025-01-06T10:35:00.000Z") = true) /\
  exists horizon,
    GetAvailableSlotsUseCase.execute Sample.store Sample.friday "d1"
      (toISOString Sample.friday) (toISOString (addDays Sample.friday 30)) 30 =
      Returns horizon /\
    BookAppointmentUseCase.execute Sample.store Sample.friday "u1"
      (Sample.request "d1" "2025-01-06T10:05:00.000Z" "2025-01-06T10:35:00.000Z") =
    Returns (BookAppointmentUseCase.unavailable "Slot already booked" (firstn 3 horizon),
             Sample.store).
Proof.
  assert (H1 : getDoctorById Sample.store "d1" = Some Sample.drJohnson) by (vm_compute; reflexivity).
  assert (H2 : passesValidation Sample.friday
     (Sample.request "d1" "2025-01-06T10:05:00.000Z" "2025-01-06T10:35:00.000Z") = true) by (vm_compute; reflexivity).
  split; [split; assumption |].
  pose proof (book_exact_match Sample.store Sample.friday "u1"
              (Sample.request "d1" "2025-01-06T10:05:00.000Z" "2025-01-06T10:35:00.000Z")
              H2) as H.
  cbv zeta in H.
  change (getDoctorById Sample.store
            (new_doctorId (Sample.request "d1" "2025-01-06T10:05:00.000Z"
                             "2025-01-06T10:35:00.000Z")))
    with (Some Sample.drJohnson) in H.
  destruct H as (horizon & Hh & _ & _ & _ & _ & _ & Hfail & _).
  exists horizon.
  split; [exact Hh |].
  apply Hfail.
  vm_compute; reflexivity.
Defined.

(** ** The repository: updating in place *)

Section UpdateInPlace.
Context {engine : JsEngine}.
Context {A : Type}.

Lemma find_findIndex (p : A -> bool) l a :
  find p l = Some a ->
  exists index, findIndex p l = Some index /\ nth_error l index = Some a /\ p a = true.
Proof.
  induction l as [| x l IH]; cbn [find findIndex]; [discriminate |].
  destruct (p x) eqn:Hp.
  - intros [= <-]. exists 0%nat. auto.
  - intros H. destruct (IH H) as (i & Hi & Hn & Ha).
    exists (S i). rewrite Hi. auto.
Qed.

Lemma findIndex_ext (p q : A -> bool) l :
  (forall x, p x = q x) -> findIndex p l = findIndex q l.
Proof.
  intros H. induction l as [| x l IH]; cbn [findIndex]; [reflexivity |].
  now rewrite H, IH.
Qed.

Lemma assign_length index (v : A) l : List.length (assign index v l) = List.length l.
Proof.
  revert index. induction l as [| x l IH]; intros [| i]; cbn; try reflexivity.
  now rewrite IH.
Qed.

Lemma assign_nth_same index (v : A) l a :
  nth_error l index = Some a -> nth_error (assign index v l) index = Some v.
Proof.
  revert index. induction l as [| x l IH]; intros [| i]; cbn; try discriminate.
  - reflexivity.
  - apply IH.
Qed.

Lemma assign_nth_other index (v : A) l j :
  j <> index -> nth_error (assign index v l) j = nth_error l j.
Proof.
  revert index j. induction l as [| x l IH]; intros [| i] [| j] H; cbn; try reflexivity.
  - contradiction.
  - apply IH. congruence.
Qed.

Lemma find_assign (p : A -> bool) l index v :
  findIndex p l = Some index -> p v = true -> find p (assign index v l) = Some v.
Proof.
  revert index. induction l as [| x l IH]; intros index; cbn [findIndex]; [discriminate |].
  destruct (p x) eqn:Hp.
  - intros [= <-] Hv. cbn. now rewrite Hv.
  - destruct (findIndex p l) as [i |]; [| discriminate].
    intros [= <-] Hv. cbn. rewrite Hp. now apply IH.
Qed.

End UpdateInPlace.

Section Lifecycle.
Context {engine : JsEngine}.
Context {lib : RRuleLibrary}.

(** Writing back an appointment that was read by its identifier replaces
    it where it stands. *)
Lemma updateAppointment_found st appointmentId existing updated :
  getAppointmentById st appointmentId = Some existing ->
  id updated = id existing ->
  exists index,
    findIndex (fun a => (id a =? appointmentId)%string) (appointments st) = Some index /\
    nth_error (appointments st) index = Some existing /\
    id existing = appointmentId /\
    updateAppointment st updated =
      Returns {| doctors := doctors st;
                 appointments := assign index updated (appointments st) |}.
Proof.
  intros Hget Hid. unfold getAppointmentById in Hget.
  destruct (find_findIndex _ _ _ Hget) as (index & Hi & Hn & Hp).
  apply String.eqb_eq in Hp.
  exists index. repeat split; try assumption.
  unfold updateAppointment. rewrite Hid, Hp, Hi. reflexivity.
Qed.

Lemma assign_replacedAt st index updated existing :
  nth_error (appointments st) index = Some existing ->
  replacedAt st {| doctors := doctors st;
                   appointments := assign index updated (appointments st) |} index updated.
Proof.
  intros H. unfold replacedAt. cbn [doctors appointments].
  split; [reflexivity |]. split; [apply assign_length |].
  split; [now apply assign_nth_same with existing |]. intros j Hj. now apply assign_nth_other.
Qed.

(** X31 -- what [reschedule] does.  [reschedule] answers NotFound when the
    appointment is not stored (first part).  Otherwise it makes no check of
    the fields, of the order of the new times or of the past: it runs the
    exact-match re-check on the new times, for the provider of the stored
    appointment.  For a stored provider (second part): without an exact
    match the answer is "New slot already booked" (SlotUnavailable) with
    the first 3 alternatives, and the store is as it was; this is the
    answer whenever a new time is missing, the new end is not after the new
    start, or the new start is in the past, since no candidate matches
    such times.  With an exact match the appointment is replaced where it
    stands by its copy with the new start, the new end and the update
    instant; identifier, provider, owner, pet and status are those of the
    stored appointment, and the rest of the store is as it was.  For a
    provider that is not stored the answer is NotFound (third part). *)
Theorem reschedule_contract (st : Store) (now : Z)
    (appointmentId newStartISO newEndISO : string) :
  let result := BookAppointmentUseCase.reschedule st now appointmentId newStartISO newEndISO in
  (getAppointmentById st appointmentId = None ->
     result = Returns (BookAppointmentUseCase.failure "Appointment not found", st)) /\
  (forall existing doctor',
     getAppointmentById st appointmentId = Some existing ->
     getDoctorById st (doctorId existing) = Some doctor' ->
     let candidates := dayCandidates st now (doctorId existing) newStartISO in
     let updated := BookAppointmentUseCase.rescheduled existing now newStartISO newEndISO in
     exists horizon,
       GetAvailableSlotsUseCase.execute st now (doctorId existing)
         (toISOString now) (toISOString (addDays now 30)) 30 = Returns horizon /\
       (existsb (exactMatch newStartISO newEndISO) candidates = false ->
          result = Returns (BookAppointmentUseCase.unavailable "New slot already booked"
                              (firstn 3 horizon), st)) /\
       (truthy newStartISO = false \/ truthy newEndISO = false \/
        date_le (parseDate newEndISO) (parseDate newStartISO) \/
        date_lt (parseDate newStartISO) (Some now) ->
          existsb (exactMatch newStartISO newEndISO) candidates = false) /\
       (existsb (exactMatch newStartISO newEndISO) candidates = true ->
          exists index st',
            result = Returns (BookAppointmentUseCase.booked updated, st') /\
            nth_error (appointments st) index = Some existing /\
            replacedAt st st' index updated) /\
       (id updated = id existing /\ doctorId updated = doctorId existing /\
        ownerName updated = ownerName existing /\ petName updated = petName existing /\
        status updated = status existing /\
        startDateISO updated = newStartISO /\ endDateISO updated = newEndISO /\
        updatedAt updated = Some (toISOString now))) /\
  (forall existing,
     getAppointmentById st appointmentId = Some existing ->
     getDoctorById st (doctorId existing) = None ->
     result = Returns (BookAppointmentUseCase.failure
                         ("Doctor with ID " ++ doctorId existing ++ " not found")%string, st)).
Proof.
  cbv zeta. unfold BookAppointmentUseCase.reschedule.
  split; [| split].
  - intros ->. reflexivity.
  - intros existing doctor' Hget Hdoc. rewrite Hget.
    rewrite validateSlotAvailability_spec. cbn [bind].
    rewrite getNextAvailableSlots_spec.
    pose proof (execute_returns st now _ _ (toISOString now) (toISOString (addDays now 30)) 30
                  Hdoc ltac:(lia)) as Hh.
    rewrite Hh. eexists. split; [reflexivity |].
    split; [| split; [| split]].
    + intros ->. reflexivity.
    + intros Hbad. apply not_true_is_false. intros Hm.
      apply exactMatch_valid in Hm. destruct Hm as (H1 & H2 & H3 & H4).
      destruct Hbad as [H | [H | [H | H]]].
      * congruence.
      * congruence.
      * apply date_leb_le in H. congruence.
      * apply date_ltb_lt in H. congruence.
    + intros ->. cbn [negb].
      destruct (updateAppointment_found st appointmentId existing
                  (BookAppointmentUseCase.rescheduled existing now newStartISO newEndISO)
                  Hget eq_refl) as (index & Hi & Hn & Hid & Hup).
      rewrite Hup. cbn [bind try_catch].
      exists index. eexists. split; [reflexivity |]. split; [assumption |].
      now apply assign_replacedAt with existing.
    + repeat split.
  - intros existing Hget Hdoc. rewrite Hget.
    rewrite validateSlotAvailability_spec. cbn [bind].
    rewrite dayCandidates_unknown by assumption. cbn [existsb negb].
    rewrite getNextAvailableSlots_spec, execute_unknown by assumption. reflexivity.
Qed.

End Lifecycle.

(** C7 -- reschedule does not validate as booking does.  Rescheduling
    Buddy's appointment to 10:30-10:00, an end before the start:
    [reschedule] answers SlotUnavailable with alternatives, where the
    booking of the same times answers InvalidRequest. *)
Lemma reschedule_skips_validation :
  BookAppointmentUseCase.reschedule Sample.store Sample.friday "b1"
    "2025-01-06T10:30:00.000Z" "2025-01-06T10:00:00.000Z" =
    Returns ({| success := false; appointment := None;
                error := Some "New slot already booked";
                nextAvailableSlots :=
                  Some [("2025-01-06T09:30:00.000Z", "2025-01-06T10:00:00.000Z");
                        ("2025-01-06T10:00:00.000Z", "2025-01-06T10:30:00.000Z");
                        ("2025-01-06T10:30:00.000Z", "2025-01-06T11:00:00.000Z")] |},
             Sample.store) /\
  BookAppointmentUseCase.execute Sample.store Sample.friday "u1"
    (Sample.request "d1" "2025-01-06T10:30:00.000Z" "2025-01-06T10:00:00.000Z") =
    Returns (BookAppointmentUseCase.failure "End time must be after start time",
             Sample.store) /\
  kindOf "New slot already booked" = Some SlotUnavailable /\
  kindOf "End time must be after start time" = Some InvalidRequest.
Proof. repeat split; vm_compute; reflexivity. Qed.

(** Buddy's appointment moved to Monday 10:30-11:00. *)
Example reschedule_example :
  BookAppointmentUseCase.reschedule Sample.store Sample.friday "b1"
    "2025-01-06T10:30:00.000Z" "2025-01-06T11:00:00.000Z" =
  let moved := BookAppointmentUseCase.rescheduled Sample.buddy Sample.friday
                 "2025-01-06T10:30:00.000Z" "2025-01-06T11:00:00.000Z" in
  Returns (BookAppointmentUseCase.booked moved,
           {| doctors := [Sample.drJohnson]; appointments := [moved] |}).
Proof. vm_compute. reflexivity. Qed.

(** ** The Lifecycle Manager: cancellation *)

Section Cancellation.
Context {engine : JsEngine}.

Local Open Scope string_scope.
Local Open Scope Z_scope.

Lemma trimEnd_app a b :
  trimEnd (a ++ b) = match trimEnd b with "" => trimEnd a | _ => a ++ trimEnd b end.
Proof.
  induction a as [| c a IH]; cbn [append trimEnd].
  - now destruct (trimEnd b).
  - rewrite IH. destruct (trimEnd b) as [| c' r]; [reflexivity |].
    now destruct (a ++ String c' r) eqn:E; [destruct a; discriminate E |].
Qed.

Lemma trimStart_nonspace c s : is_space c = false -> trimStart (String c s) = String c s.
Proof. intros H. cbn [trimStart]. now rewrite H. Qed.

(** The notes written by a cancellation with a reason, when the prior
    notes do not begin with white space: the prior notes, a line break,
    and the labelled reason without its trailing white space. *)
Lemma cancelledNotes_keeps_prior c prior reason :
  is_space c = false -> truthy reason = true ->
  CancelAppointmentUseCase.cancelledNotes (Some (String c prior)) (Some reason) =
  Some (String c prior ++ newline ++ "Cancellation reason:" ++ trimEnd (" " ++ reason)).
Proof.
  intros Hc Hr. unfold CancelAppointmentUseCase.cancelledNotes.
  cbn [truthy_opt or_empty]. rewrite Hr. f_equal. unfold trim.
  assert (E : String c prior ++ newline ++ "Cancellation reason: " ++ reason =
              (String c prior ++ newline ++ "Cancellation reason:") ++ (" " ++ reason)).
  { rewrite !string_app_assoc. reflexivity. }
  assert (Hkeep : trimEnd (String c prior ++ newline ++ "Cancellation reason:") =
                  String c prior ++ newline ++ "Cancellation reason:").
  { rewrite trimEnd_app. reflexivity. }
  change (String c prior ++ newline ++ "Cancellation reason: " ++ reason)
    with (String c (prior ++ newline ++ "Cancellation reason: " ++ reason)) at 1.
  rewrite trimStart_nonspace by assumption.
  change (String c (prior ++ newline ++ "Cancellation reason: " ++ reason))
    with (String c prior ++ newline ++ "Cancellation reason: " ++ reason).
  rewrite E, trimEnd_app.
  destruct (trimEnd (" " ++ reason)) as [| c' r] eqn:E'.
  - rewrite Hkeep. reflexivity.
  - rewrite !string_app_assoc. reflexivity.
Qed.

Local Open Scope list_scope.
Local Open Scope Z_scope.

(** C8, as amended -- cancellation.  The guards of [execute] come in this
    order: NotFound when the appointment is not stored, AlreadyCancelled
    when its status is cancelled, InThePast when its start is before the
    current instant; each of them returns the store as it was (first and
    second part).  Otherwise the appointment is replaced where it stands by
    its copy with status cancelled, the new notes and the update instant,
    and a later cancellation of it fails with AlreadyCancelled.  The new
    notes (third part): with a reason that is given and not empty, the
    prior notes (or nothing), a line break, the text "Cancellation reason: "
    and the reason, the whole stripped of white space at both ends;
    otherwise the prior notes.  Prior notes that do not begin with white
    space are kept as they are (fourth part).  White space is what [trim]
    strips: of the code units below 256, the characters 9 to 13, the space
    and the no-break space. *)
Theorem cancel_contract (st : Store) (now : Z) (appointmentId : string)
    (reason : option string) :
  let result := CancelAppointmentUseCase.execute st now appointmentId reason in
  (getAppointmentById st appointmentId = None ->
     result = Returns (CancelAppointmentUseCase.failure "Appointment not found", st)) /\
  (forall existing,
     getAppointmentById st appointmentId = Some existing ->
     let appointmentStart := parseDate (startDateISO existing) in
     let cancelled' := CancelAppointmentUseCase.cancelledAppointment existing now reason in
     (status existing = cancelled ->
        result = Returns (CancelAppointmentUseCase.failure
                            "Appointment is already cancelled", st)) /\
     (status existing <> cancelled -> date_lt appointmentStart (Some now) ->
        result = Returns (CancelAppointmentUseCase.failure
                            "Cannot cancel past appointments", st)) /\
     (status existing <> cancelled -> ~ date_lt appointmentStart (Some now) ->
        exists index st',
          result = Returns ({| cancel_success := true;
                               cancel_appointment := Some cancelled';
                               cancel_error := None |}, st') /\
          nth_error (appointments st) index = Some existing /\
          replacedAt st st' index cancelled' /\
          forall now' reason',
            CancelAppointmentUseCase.execute st' now' appointmentId reason' =
            Returns (CancelAppointmentUseCase.failure
                       "Appointment is already cancelled", st'))) /\
  (forall existing,
     let cancelled' := CancelAppointmentUseCase.cancelledAppointment existing now reason in
     status cancelled' = cancelled /\
     updatedAt cancelled' = Some (toISOString now) /\
     id cancelled' = id existing /\ doctorId cancelled' = doctorId existing /\
     ownerName cancelled' = ownerName existing /\ petName cancelled' = petName existing /\
     startDateISO cancelled' = startDateISO existing /\
     endDateISO cancelled' = endDateISO existing /\
     notes cancelled' =
       if truthy_opt reason
       then Some (trim (or_empty (notes existing) ++ newline ++
                        "Cancellation reason: " ++ or_empty reason)%string)
       else notes existing) /\
  (forall c prior r, is_space c = false -> truthy r = true ->
     CancelAppointmentUseCase.cancelledNotes (Some (String c prior)) (Some r) =
     Some (String c prior ++ newline ++ "Cancellation reason:" ++ trimEnd (" " ++ r))%string) /\
  reports NotFound (Some "Appointment not found") /\
  reports AlreadyCancelled (Some "Appointment is already cancelled") /\
  reports InThePast (Some "Cannot cancel past appointments").
Proof.
  cbv zeta. unfold CancelAppointmentUseCase.execute.
  split; [| split; [| split; [| split]]].
  - intros ->. reflexivity.
  - intros existing Hget. rewrite Hget. split; [| split].
    + intros ->. reflexivity.
    + intros Hs Hlt.
      replace (status_eqb (status existing) cancelled) with false
        by (symmetry; apply not_true_is_false; intros H; apply Hs, status_eqb_eq, H).
      apply date_ltb_lt in Hlt. rewrite Hlt. reflexivity.
    + intros Hs Hlt.
      replace (status_eqb (status existing) cancelled) with false
        by (symmetry; apply not_true_is_false; intros H; apply Hs, status_eqb_eq, H).
      replace (date_ltb (parseDate (startDateISO existing)) (Some now)) with false
        by (symmetry; apply not_true_is_false; intros H; apply Hlt, date_ltb_lt, H).
      destruct (updateAppointment_found st appointmentId existing
                  (CancelAppointmentUseCase.cancelledAppointment existing now reason)
                  Hget eq_refl) as (index & Hi & Hn & Hid & Hup).
      rewrite Hup. cbn [bind try_catch].
      exists index. eexists. split; [reflexivity |]. split; [assumption |].
      split; [now apply assign_replacedAt with existing |].
      intros now' reason'.
      assert (Hget' : getAppointmentById
                {| doctors := doctors st;
                   appointments := assign index
                     (CancelAppointmentUseCase.cancelledAppointment existing now reason)
                     (appointments st) |} appointmentId =
              Some (CancelAppointmentUseCase.cancelledAppointment existing now reason)).
      { unfold getAppointmentById. cbn [appointments].
        apply find_assign; [assumption |]. cbn [id CancelAppointmentUseCase.cancelledAppointment].
        now apply String.eqb_eq. }
      rewrite Hget'. reflexivity.
  - intros existing. repeat split.
  - intros c prior r. apply cancelledNotes_keeps_prior.
  - repeat split.
Qed.

End Cancellation.

(** Buddy's appointment, whose notes are "a", cancelled with the reason
    "r": the notes become "a", a line break and "Cancellation reason: r",
    not "a", a line break and "r".  Notes " a" lose their leading blank, and
    an empty reason adds nothing. *)
Lemma cancel_labels_and_trims :
  CancelAppointmentUseCase.execute Sample.store Sample.friday "b1" (Some "r") =
    (let cancelled' :=
       CancelAppointmentUseCase.cancelledAppointment Sample.buddy Sample.friday (Some "r") in
     Returns ({| cancel_success := true; cancel_appointment := Some cancelled';
                 cancel_error := None |},
              {| doctors := [Sample.drJohnson]; appointments := [cancelled'] |})) /\
  notes (CancelAppointmentUseCase.cancelledAppointment Sample.buddy Sample.friday (Some "r")) =
    Some ("a" ++ newline ++ "Cancellation reason: r")%string /\
  ("a" ++ newline ++ "Cancellation reason: r")%string <> ("a" ++ newline ++ "r")%string /\
  CancelAppointmentUseCase.cancelledNotes (Some " a") (Some "r") =
    Some ("a" ++ newline ++ "Cancellation reason: r")%string /\
  CancelAppointmentUseCase.cancelledNotes (Some "a") (Some "") = Some "a".
Proof.
  split; [vm_compute; reflexivity |]. split; [vm_compute; reflexivity |].
  split; [discriminate |]. split; vm_compute; reflexivity.
Qed.

(** Cancelling an appointment of last week fails with InThePast; cancelling
    Buddy's appointment twice fails the second time. *)
Example cancel_examples :
  let lastWeek := {| doctors := [Sample.drJohnson]; appointments := [Sample.buddy] |} in
  CancelAppointmentUseCase.execute lastWeek (addDays Sample.monday 7) "b1" None =
    Returns (CancelAppointmentUseCase.failure "Cannot cancel past appointments", lastWeek) /\
  match CancelAppointmentUseCase.execute Sample.store Sample.friday "b1" None with
  | Returns (_, st') =>
      CancelAppointmentUseCase.execute st' Sample.friday "b1" None =
      Returns (CancelAppointmentUseCase.failure "Appointment is already cancelled", st')
  | _ => False
  end.
Proof. cbv zeta. split; vm_compute; reflexivity. Qed.

(** White space at both ends is stripped, the no-break space included:
    notes that begin with one lose it, and so does a reason that ends with
    one. *)
Example cancel_trims_no_break_space :
  let nbsp := String (ascii_of_nat 160) "" in
  CancelAppointmentUseCase.cancelledNotes (Some (nbsp ++ "a")%string)
    (Some ("r" ++ nbsp)%string) =
  Some ("a" ++ newline ++ "Cancellation reason: r")%string.
Proof. vm_compute. reflexivity. Qed.

(** ** The operations always answer *)

Section Totality.
Context {engine : JsEngine}.
Context {lib : RRuleLibrary}.

(** A booking always returns a result: no exception leaves it, and it does
    not run forever. *)
Lemma book_total st now uuid request :
  exists result st', BookAppointmentUseCase.execute st now uuid request = Returns (result, st').
Proof.
  rewrite book_cases.
  destruct (negb (passesValidation now request)); [now eexists; eexists |].
  destruct (existsb _ _); [now eexists; eexists |].
  destruct (execute_30 st now (new_doctorId request) (toISOString now)
              (toISOString (addDays now 30))) as [[slots H] | [_ H]];
    rewrite H; now eexists; eexists.
Qed.

Lemma reschedule_total st now appointmentId newStartISO newEndISO :
  exists result st',
    BookAppointmentUseCase.reschedule st now appointmentId newStartISO newEndISO =
    Returns (result, st').
Proof.
  unfold BookAppointmentUseCase.reschedule.
  destruct (getAppointmentById st appointmentId) as [existing |] eqn:Hget;
    [| now eexists; eexists].
  rewrite validateSlotAvailability_spec. cbn [bind].
  destruct (existsb _ _); cbn [negb].
  - destruct (updateAppointment_found st appointmentId existing
                (BookAppointmentUseCase.rescheduled existing now newStartISO newEndISO)
                Hget eq_refl) as (index & _ & _ & _ & Hup).
    rewrite Hup. now eexists; eexists.
  - rewrite getNextAvailableSlots_spec.
    destruct (execute_30 st now (doctorId existing) (toISOString now)
                (toISOString (addDays now 30))) as [[slots H] | [_ H]];
      rewrite H; now eexists; eexists.
Qed.

Lemma cancel_total st now appointmentId reason :
  exists result st',
    CancelAppointmentUseCase.execute st now appointmentId reason = Returns (result, st').
Proof.
  unfold CancelAppointmentUseCase.execute.
  destruct (getAppointmentById st appointmentId) as [existing |] eqn:Hget;
    [| now eexists; eexists].
  destruct (status_eqb _ _); [now eexists; eexists |].
  destruct (date_ltb _ _); [now eexists; eexists |].
  destruct (updateAppointment_found st appointmentId existing
              (CancelAppointmentUseCase.cancelledAppointment existing now reason)
              Hget eq_refl) as (index & _ & _ & _ & Hup).
  rewrite Hup. now eexists; eexists.
Qed.

End Totality.

(* ================================================================= *)
(** * Further properties of the engine *)

(** ** Numbers below 2^53 *)

Section Numbers.

Lemma round_half_even_1 x : round_half_even x 1 = x.
Proof. unfold round_half_even. now rewrite Z.div_1_r, Z.mod_1_r. Qed.

(** An integer below 2^53 is a double. *)
Lemma double_integer_part_exact p : 0 <= p < 2 ^ 53 -> double_integer_part p 1 = Some p.
Proof.
  intros Hp. unfold double_integer_part.
  destruct (p =? 0) eqn:E0; [apply Z.eqb_eq in E0; now subst |].
  apply Z.eqb_neq in E0.
  assert (Hpos : 0 < p) by lia.
  pose proof (Z.log2_spec p Hpos) as [Hlo Hhi].
  pose proof (Z.log2_nonneg p) as Hl0.
  assert (Hl52 : Z.log2 p < 53) by (apply (Z.pow_lt_mono_r_iff 2); lia).
  change (Z.log2 1) with 0.
  set (k := 52 - Z.log2 p).
  assert (Hk : 0 <= k <= 52) by lia.
  replace (Z.log2 p - 0 - 52) with (- k) by lia.
  assert (Hscaled : 2 ^ 52 <= p * 2 ^ k).
  { replace 52 with (Z.log2 p + k) at 1 by lia.
    rewrite Z.pow_add_r by lia.
    apply Z.mul_le_mono_nonneg_r; [apply Z.pow_nonneg |]; lia. }
  assert (Hpow : 0 < 2 ^ k) by (apply Z.pow_pos_nonneg; lia).
  clearbody k. cbv zeta.
  destruct (0 <=? - k) eqn:Hsign; [apply Z.leb_le in Hsign | apply Z.leb_gt in Hsign].
  - assert (k = 0) by lia. subst k.
    change (- 0) with 0 in *. change (2 ^ 0) with 1 in *. rewrite !Z.mul_1_r in *.
    replace (2 ^ 52 <=? p) with true by (symmetry; apply Z.leb_le; lia).
    change (Z.max 0 (-1074)) with 0. change (0 <=? 0) with true. cbv iota.
    change (2 ^ 0) with 1. rewrite round_half_even_1, Z.mul_1_r.
    replace (2 ^ 1024 <=? p) with false; [reflexivity |].
    symmetry. apply Z.leb_gt.
    assert (2 ^ 53 <= 2 ^ 1024) by (apply Z.pow_le_mono_r; lia). lia.
  - rewrite Z.opp_involutive, Z.mul_1_r.
    replace (2 ^ 52 <=? p * 2 ^ k) with true by (symmetry; apply Z.leb_le; lia).
    replace (Z.max (- k) (-1074)) with (- k) by lia.
    replace (0 <=? - k) with false by (symmetry; apply Z.leb_gt; lia).
    rewrite Z.opp_involutive, round_half_even_1.
    rewrite Z.div_mul by lia. reflexivity.
Qed.

Lemma toDouble_exact x : Z.abs x < 2 ^ 53 -> toDouble x = Some x.
Proof.
  intros H. unfold toDouble. rewrite double_integer_part_exact by lia.
  cbn [option_map]. f_equal. lia.
Qed.

End Numbers.

(** ** The window of a calendar day *)

Section DayWindow.
Context {engine : JsEngine}.
Context {lib : RRuleLibrary}.

Lemma setHours_dayStart t : setHours t 0 0 0 0 = startOfDay t.
Proof. unfold setHours. lia. Qed.

Lemma setHours_dayEnd t : setHours t 23 59 59 999 = startOfDay t + msPerDay - 1.
Proof. unfold setHours, msPerHour, msPerMinute, msPerSecond, msPerDay. lia. Qed.

Lemma startOfDay_bounds t : startOfDay t <= t < startOfDay t + msPerDay.
Proof.
  unfold startOfDay, dayOf, msPerDay.
  pose proof (Z.mul_div_le t 86400000 ltac:(lia)).
  pose proof (Z.mul_succ_div_gt t 86400000 ltac:(lia)). lia.
Qed.

Lemma startOfDay_unique t u :
  startOfDay t <= u < startOfDay t + msPerDay -> startOfDay u = startOfDay t.
Proof.
  unfold startOfDay, dayOf, msPerDay. intros H. f_equal.
  symmetry. apply Z.div_unique with (r := u - t / 86400000 * 86400000); lia.
Qed.

(** The appointments the range query returns: those of the provider whose
    start or end lies in the window, or which span it. *)
Lemma getAppointmentsByDoctorAndDateRange_in st doctor s e a :
  In a (getAppointmentsByDoctorAndDateRange st doctor s e) <->
  In a (appointments st) /\ doctorId a = doctor /\
  ((date_geb (parseDate (startDateISO a)) (parseDate s) &&
    date_leb (parseDate (startDateISO a)) (parseDate e)) ||
   (date_geb (parseDate (endDateISO a)) (parseDate s) &&
    date_leb (parseDate (endDateISO a)) (parseDate e)) ||
   (date_leb (parseDate (startDateISO a)) (parseDate s) &&
    date_geb (parseDate (endDateISO a)) (parseDate e))) = true.
Proof.
  unfold getAppointmentsByDoctorAndDateRange. cbv zeta. rewrite filter_In.
  destruct (doctorId a =? doctor)%string eqn:Hd; cbn [negb].
  - apply String.eqb_eq in Hd. tauto.
  - apply String.eqb_neq in Hd. split; [intros [_ H]; discriminate H | tauto].
Qed.

(** An appointment that overlaps a slot lying inside a window is among
    those the range query returns for the window. *)
Lemma overlapping_in_range st doctor a from to s1 e1 s2 e2 :
  In a (appointments st) -> doctorId a = doctor ->
  parseDate (startDateISO a) = Some s2 -> parseDate (endDateISO a) = Some e2 ->
  s2 <= e2 -> from <= s1 -> s1 < e1 -> e1 <= to ->
  overlap_spec (Some s1) (Some e1) (Some s2) (Some e2) ->
  In a (getAppointmentsByDoctorAndDateRange st doctor (toISOString from) (toISOString to)).
Proof.
  intros Hin Hd Hs He Hse Hf Hlt Ht Hov.
  apply getAppointmentsByDoctorAndDateRange_in. split; [assumption |]. split; [assumption |].
  rewrite Hs, He, !parseDate_toISOString. unfold date_geb, date_leb.
  assert (H : (from <= s2 /\ s2 <= to) \/ (from <= e2 /\ e2 <= to) \/ (s2 <= from /\ to <= e2)).
  { destruct Hov as [[(x & y & Hx & Hy & Hxy) (x' & y' & Hx' & Hy' & Hxy')]
                    | [[(x & y & Hx & Hy & Hxy) (x' & y' & Hx' & Hy' & Hxy')]
                    | [(x & y & Hx & Hy & Hxy) (x' & y' & Hx' & Hy' & Hxy')]]];
      injection Hx as <-; injection Hy as <-; injection Hx' as <-; injection Hy' as <-; lia. }
  rewrite !orb_true_iff, !andb_true_iff, !Z.leb_le. tauto.
Qed.

(** The dates of a rule lie in the window they are expanded for. *)
Lemma weeklyOccurrences_in_window weekday from to date :
  In date (weeklyOccurrences weekday (Some from) (Some to)) -> from <= date <= to.
Proof.
  rewrite weeklyOccurrences_spec. unfold weekly_spec.
  destruct ((0 <=? weekday) && (weekday <=? 6)); [| intros []].
  intros H. apply every_seventh_in in H. destruct H as (k & Hk & -> & Hto).
  split; [| assumption].
  pose proof (Z.mod_pos_bound (weekday - getDay from) 7 ltac:(lia)) as Hoff.
  unfold addDays, msPerDay. lia.
Qed.

Lemma expandAvailabilityToDates_in_window now availability from to date :
  between_in_range lib ->
  In date (expandAvailabilityToDates now availability (Some from) (Some to)) ->
  from <= date <= to.
Proof.
  intros Hlib. unfold expandAvailabilityToDates.
  destruct (negb (truthy_opt (rrule availability))); [apply weeklyOccurrences_in_window |].
  destruct (rrule_between now _ _ _) as [occurrences |] eqn:Hocc.
  - now apply Hlib with (1 := Hocc).
  - apply weeklyOccurrences_in_window.
Qed.

(** The fields [combineDateAndTime] reads of a time. *)
Lemma combineDateAndTime_fields date time b :
  combineDateAndTime date time = Some b ->
  exists s1 s2 rest hours minutes,
    split ":" time = s1 :: s2 :: rest /\ Number s1 = Some hours /\
    Number s2 = Some minutes /\ b = setHours date hours minutes 0 0.
Proof.
  unfold combineDateAndTime.
  destruct (split ":" time) as [| s1 [| s2 rest]] eqn:Hsplit; cbn [map].
  - discriminate.
  - destruct (Number s1); discriminate.
  - destruct (Number s1) as [h |] eqn:H1; [| discriminate].
    destruct (Number s2) as [m |] eqn:H2; [| discriminate].
    intros [= <-]. exists s1, s2, rest, h, m. repeat split; assumption.
Qed.

(** A time of day is read as an instant of the day of the date. *)
Lemma combineDateAndTime_timeOfDay date time :
  timeOfDay time = true ->
  exists b, combineDateAndTime date time = Some b /\
            startOfDay date <= b < startOfDay date + msPerDay.
Proof.
  unfold timeOfDay, combineDateAndTime.
  destruct (map Number (split ":" time)) as [| [h |] [| [m |] rest]]; try discriminate.
  rewrite !andb_true_iff, !Z.leb_le. intros [[[H1 H2] H3] H4].
  eexists. split; [reflexivity |].
  unfold setHours, msPerHour, msPerMinute, msPerSecond, msPerDay. lia.
Qed.

(** A rule that keeps to its day ends within it. *)
Lemma keepsToItsDay_endsWithinDay availability :
  keepsToItsDay availability = true -> endsWithinDay availability = true.
Proof.
  unfold keepsToItsDay, endsWithinDay, timeOfDay. intros H.
  apply andb_true_iff in H. destruct H as [_ H].
  destruct (map Number (split ":" (endTime availability))) as [| [h |] [| [m |] rest]];
    try discriminate.
  rewrite !andb_true_iff, !Z.leb_le in H. destruct H as [[[H1 H2] H3] H4].
  apply Z.ltb_lt. unfold msPerHour, msPerMinute, msPerDay. lia.
Qed.

(** The block of a rule that ends within the day ends before the next
    day begins. *)
Lemma combineDateAndTime_upper date availability e :
  endsWithinDay availability = true ->
  combineDateAndTime date (endTime availability) = Some e ->
  e < startOfDay date + msPerDay.
Proof.
  intros Hw H.
  destruct (combineDateAndTime_fields _ _ _ H)
    as (s1 & s2 & rest & h & m & Hsplit & H1 & H2 & ->).
  unfold endsWithinDay in Hw. rewrite Hsplit in Hw. cbn [map] in Hw. rewrite H1, H2 in Hw.
  apply Z.ltb_lt in Hw. unfold setHours. lia.
Qed.

Lemma startOfDay_mono t u : t <= u -> startOfDay t <= startOfDay u.
Proof.
  intros H. unfold startOfDay, dayOf, msPerDay.
  pose proof (Z.div_le_mono t u 86400000 ltac:(lia) H). lia.
Qed.

(** The candidates of a window that ends with a day, for a provider whose
    blocks end within their day: each lasts the duration and ends inside
    the window. *)
Lemma candidatesOf_end_in_window now doctor' from to d c :
  between_in_range lib -> 0 < d ->
  forallb endsWithinDay (weeklyAvailability doctor') = true ->
  to = startOfDay to + msPerDay - 1 ->
  In c (candidatesOf now doctor' (Some from) (Some to) d) ->
  exists s1, startISO c = toISOString s1 /\
             endISO c = toISOString (s1 + d * 60 * 1000) /\
             (s1 + d * 60 * 1000 <= to).
Proof.
  intros Hlib Hd Hrules Hto Hc.
  apply candidatesOf_in in Hc; [| assumption].
  destruct Hc
    as (availability & date & bs & be & slot & Hav & Hdate & Hbs & Hbe & Hslot & _ & ->).
  apply expandAvailabilityToDates_in_window in Hdate; [| assumption].
  pose proof (startOfDay_mono date to ltac:(lia)) as Hhi.
  apply combineDateAndTime_upper in Hbe;
    [| rewrite forallb_forall in Hrules; now apply Hrules].
  apply slices_in in Hslot; [| lia].
  destruct Hslot as (k & Hk & H1 & H2 & H3).
  exists (slot_start slot). cbn [candidate startISO endISO]. rewrite H2.
  repeat split; lia.
Qed.

(** The candidates of a window of whole days, for a provider whose rules
    keep to their day: each starts and ends inside the window and lasts
    the duration. *)
Lemma candidatesOf_within_window now doctor' from to d c :
  between_in_range lib -> 0 < d ->
  forallb keepsToItsDay (weeklyAvailability doctor') = true ->
  from = startOfDay from -> to = startOfDay to + msPerDay - 1 ->
  In c (candidatesOf now doctor' (Some from) (Some to) d) ->
  exists s1, startISO c = toISOString s1 /\
             endISO c = toISOString (s1 + d * 60 * 1000) /\
             (from <= s1) /\ (s1 + d * 60 * 1000 <= to).
Proof.
  intros Hlib Hd Hrules Hfrom Hto Hc.
  assert (Hends : forallb endsWithinDay (weeklyAvailability doctor') = true).
  { rewrite forallb_forall in *. intros a Ha. now apply keepsToItsDay_endsWithinDay, Hrules. }
  destruct (candidatesOf_end_in_window _ _ _ _ _ _ Hlib Hd Hends Hto Hc)
    as (s1 & Hs1 & He1 & Hhi).
  exists s1. repeat split; try assumption.
  apply candidatesOf_in in Hc; [| assumption].
  destruct Hc
    as (availability & date & bs & be & slot & Hav & Hdate & Hbs & Hbe & Hslot & _ & ->).
  cbn [candidate startISO] in Hs1. apply toISOString_inj in Hs1. subst s1.
  apply expandAvailabilityToDates_in_window in Hdate; [| assumption].
  pose proof (startOfDay_mono from date ltac:(lia)) as Hlo.
  rewrite forallb_forall in Hrules. specialize (Hrules _ Hav).
  apply andb_true_iff in Hrules. destruct Hrules as [Hstart _].
  destruct (combineDateAndTime_timeOfDay date _ Hstart) as (b & Hb & Hlow & _).
  rewrite Hb in Hbs. injection Hbs as <-.
  apply slices_in in Hslot; [| lia].
  destruct Hslot as (k & Hk & H1 & _). nia.
Qed.

(** The candidates of a day, for a provider whose blocks end within the
    day: each lasts the duration and ends inside the day. *)
Lemma candidatesOf_end_in_day now doctor' t d c :
  between_in_range lib -> 0 < d ->
  forallb endsWithinDay (weeklyAvailability doctor') = true ->
  In c (candidatesOf now doctor' (Some (startOfDay t)) (Some (startOfDay t + msPerDay - 1)) d) ->
  exists s1, startISO c = toISOString s1 /\
             endISO c = toISOString (s1 + d * 60 * 1000) /\
             (s1 + d * 60 * 1000 <= startOfDay t + msPerDay - 1).
Proof.
  intros Hlib Hd Hrules. pose proof (startOfDay_bounds t) as Hb.
  apply candidatesOf_end_in_window; try assumption.
  assert (E : startOfDay (startOfDay t + msPerDay - 1) = startOfDay t)
    by (apply startOfDay_unique; unfold msPerDay; lia).
  rewrite E. reflexivity.
Qed.

(** The candidates of the day of a requested start: the candidates of
    the provider in the window of that day which no appointment of the
    window blocks. *)
Lemma dayCandidates_in st now doctor s c :
  In c (dayCandidates st now doctor s) <->
  exists t doctor', parseDate s = Some t /\ getDoctorById st doctor = Some doctor' /\
    In c (candidatesOf now doctor' (Some (startOfDay t))
            (Some (startOfDay t + msPerDay - 1)) 30) /\
    ~ blocked c (getAppointmentsByDoctorAndDateRange st doctor
                   (toISOString (startOfDay t)) (toISOString (startOfDay t + msPerDay - 1))).
Proof.
  unfold dayCandidates.
  destruct (parseDate s) as [t |];
    [| split; [intros [] | intros (t & d' & H & _); discriminate H]].
  rewrite setHours_dayStart, setHours_dayEnd.
  destruct (getDoctorById st doctor) as [doctor' |] eqn:Hdoc.
  - rewrite (execute_returns _ _ _ _ _ _ _ Hdoc) by lia.
    rewrite !parseDate_toISOString. split.
    + intros H. apply (Permutation_in _ (sort_perm _ _)) in H.
      apply filterBookedSlots_in in H. exists t, doctor'. tauto.
    + intros (t' & d' & [= <-] & [= <-] & H).
      eapply Permutation_in; [symmetry; apply sort_perm |].
      now apply filterBookedSlots_in.
  - rewrite execute_unknown by assumption.
    split; [intros [] | intros (t' & d' & _ & H & _); discriminate H].
Qed.

End DayWindow.

(** ** Bookings and the appointments already stored *)

Section BookingSafety.
Context {engine : JsEngine}.
Context {lib : RRuleLibrary}.

(** A booking succeeds exactly through the exact match. *)
Lemma book_success_inv st now uuid request result st' :
  BookAppointmentUseCase.execute st now uuid request = Returns (result, st') ->
  success result = true ->
  existsb (exactMatch (new_startDateISO request) (new_endDateISO request))
    (dayCandidates st now (new_doctorId request) (new_startDateISO request)) = true /\
  result = BookAppointmentUseCase.booked (newAppointment now uuid request) /\
  st' = createAppointment st (newAppointment now uuid request).
Proof.
  rewrite book_cases.
  destruct (negb (passesValidation now request)); [intros [= <- <-]; discriminate |].
  destruct (existsb _ _).
  - intros [= <- <-] _. auto.
  - destruct (execute _ _ _ _ _ _); try discriminate; intros [= <- <-]; discriminate.
Qed.

(** A stored appointment that is not cancelled and whose start is the
    requested one leaves no exact match for the request, whatever the
    rules of the provider. *)
Lemma occupied_no_match st now a s e t u :
  In a (appointments st) -> status a <> cancelled ->
  parseDate (startDateISO a) = Some t -> parseDate (endDateISO a) = Some u -> t < u ->
  parseDate s = Some t ->
  existsb (exactMatch s e) (dayCandidates st now (doctorId a) s) = false.
Proof.
  intros Hin Hst Ht Hu Htu Hs. apply not_true_is_false. intros Hm.
  apply existsb_exists in Hm. destruct Hm as (c & Hc & Hm).
  apply andb_true_iff in Hm. destruct Hm as [Hcs _]. apply String.eqb_eq in Hcs.
  destruct (dayCandidates_shape _ _ _ _ _ Hc) as (t1 & _ & Hst1 & Het1).
  apply dayCandidates_in in Hc.
  destruct Hc as (t' & doctor' & Ht' & _ & _ & Hfree).
  rewrite Hs in Ht'. injection Ht' as <-.
  assert (t1 = t).
  { rewrite Hst1 in Hcs. rewrite <- Hcs, parseDate_toISOString in Hs. now injection Hs. }
  subst t1. apply Hfree. exists a. split; [| split; [assumption |]].
  - apply getAppointmentsByDoctorAndDateRange_in.
    split; [assumption |]. split; [reflexivity |].
    rewrite Ht, !parseDate_toISOString. unfold date_geb, date_leb.
    pose proof (startOfDay_bounds t).
    replace (startOfDay t <=? t) with true by (symmetry; apply Z.leb_le; lia).
    replace (t <=? startOfDay t + msPerDay - 1) with true by (symmetry; apply Z.leb_le; lia).
    reflexivity.
  - rewrite Hst1, Het1, Ht, Hu, !parseDate_toISOString. left. split.
    + exists t, t. repeat split; lia.
    + exists t, u. repeat split; lia.
Qed.

(** X2 -- No double booking.  When a booking succeeds, the new appointment lasts
    30 minutes and overlaps no appointment of the provider that is stored
    and not cancelled, provided the blocks of the provider end within
    their day and the recurrence library keeps to the window. *)
Theorem book_never_double_books (st st' : Store) (now : Z) (uuid : string)
    (request : AppointmentCreate) (doctor' : Doctor) (result : BookingResult) :
  between_in_range lib ->
  getDoctorById st (new_doctorId request) = Some doctor' ->
  forallb endsWithinDay (weeklyAvailability doctor') = true ->
  BookAppointmentUseCase.execute st now uuid request = Returns (result, st') ->
  success result = true ->
  exists s1,
    parseDate (new_startDateISO request) = Some s1 /\
    parseDate (new_endDateISO request) = Some (s1 + 30 * msPerMinute) /\
    forall a s2 e2,
      In a (appointments st) -> doctorId a = new_doctorId request ->
      status a <> cancelled ->
      parseDate (startDateISO a) = Some s2 -> parseDate (endDateISO a) = Some e2 ->
      s2 <= e2 ->
      s1 + 30 * msPerMinute <= s2 \/ e2 <= s1.
Proof.
  intros Hlib Hdoc Hrules Hbook Hsucc.
  destruct (book_success_inv _ _ _ _ _ _ Hbook Hsucc) as (Hm & _ & _).
  apply existsb_exists in Hm. destruct Hm as (c & Hc & Hm).
  apply andb_true_iff in Hm. destruct Hm as [Hcs Hce]. apply String.eqb_eq in Hcs, Hce.
  apply dayCandidates_in in Hc.
  destruct Hc as (t & doctor'' & Ht & Hdoc' & Hcand & Hfree).
  rewrite Hdoc in Hdoc'. injection Hdoc' as <-.
  destruct (candidatesOf_end_in_day now doctor' t 30 c Hlib ltac:(lia) Hrules Hcand)
    as (s1 & Hs1 & He1 & Hhi).
  assert (Hlo : startOfDay t <= s1).
  { rewrite <- Hcs, Hs1, parseDate_toISOString in Ht. injection Ht as <-.
    apply startOfDay_bounds. }
  exists s1. rewrite <- Hcs, <- Hce, Hs1, He1, !parseDate_toISOString.
  split; [reflexivity |]. split; [apply f_equal; unfold msPerMinute; lia |].
  intros a s2 e2 Hin Hd Hst Hs2 He2 Hse.
  destruct (Z_le_gt_dec (s1 + 30 * msPerMinute) s2) as [H1 | H1]; [now left |].
  destruct (Z_le_gt_dec e2 s1) as [H2 | H2]; [now right |].
  exfalso. apply Hfree. exists a.
  assert (Hov : overlap_spec (Some s1) (Some (s1 + 30 * 60 * 1000)) (Some s2) (Some e2)).
  { unfold overlap_spec, date_le, date_lt, msPerMinute in *.
    destruct (Z_le_gt_dec s2 s1).
    - left. split; [exists s2, s1 | exists s1, e2]; repeat split; lia.
    - destruct (Z_le_gt_dec (s1 + 30 * 60 * 1000) e2).
      + right. left. split; [exists s2, (s1 + 30 * 60 * 1000) | exists (s1 + 30 * 60 * 1000), e2];
          repeat split; lia.
      + right. right. split; [exists s1, s2 | exists e2, (s1 + 30 * 60 * 1000)];
          repeat split; lia. }
  split; [| split; [assumption |]].
  - apply overlapping_in_range with s1 (s1 + 30 * 60 * 1000) s2 e2; try assumption; lia.
  - rewrite Hs1, He1, Hs2, He2, !parseDate_toISOString. exact Hov.
Qed.

(** X3 -- The same slot cannot be booked twice: after a successful booking, every
    further request of the same provider, start and end is refused and
    leaves the store as it is; when its start is not in the past the
    answer is "Slot already booked". *)
Theorem book_same_slot_twice (st st' : Store) (now now' : Z) (uuid uuid' : string)
    (request request' : AppointmentCreate) (result : BookingResult) :
  BookAppointmentUseCase.execute st now uuid request = Returns (result, st') ->
  success result = true ->
  new_doctorId request' = new_doctorId request ->
  new_startDateISO request' = new_startDateISO request ->
  new_endDateISO request' = new_endDateISO request ->
  exists result',
    BookAppointmentUseCase.execute st' now' uuid' request' = Returns (result', st') /\
    success result' = false /\ appointment result' = None /\
    (date_ltb (parseDate (new_startDateISO request)) (Some now') = false ->
     error result' = Some "Slot already booked").
Proof.
  intros Hbook Hsucc Hd Hs He.
  destruct (book_success_inv _ _ _ _ _ _ Hbook Hsucc) as (Hm & _ & ->).
  pose proof Hm as Hm'. apply existsb_exists in Hm'. destruct Hm' as (c & Hc & Hmc).
  destruct (exactMatch_valid _ _ _ _ _ Hm) as (Hts & Hte & Hle & _).
  destruct (dayCandidates_shape _ _ _ _ _ Hc) as (t & _ & Hst & Het).
  apply andb_true_iff in Hmc. destruct Hmc as [Hcs Hce]. apply String.eqb_eq in Hcs, Hce.
  assert (Hps : parseDate (new_startDateISO request) = Some t)
    by (rewrite <- Hcs, Hst; apply parseDate_toISOString).
  assert (Hpe : parseDate (new_endDateISO request) = Some (t + 30 * 60 * 1000))
    by (rewrite <- Hce, Het; apply parseDate_toISOString).
  assert (Hdoc : exists doctor',
            getDoctorById (createAppointment st (newAppointment now uuid request))
                                   (new_doctorId request') = Some doctor').
  { apply dayCandidates_in in Hc. destruct Hc as (_ & doctor' & _ & Hdoc & _).
    exists doctor'. rewrite Hd. exact Hdoc. }
  destruct Hdoc as (doctor' & Hdoc).
  assert (Hno : existsb (exactMatch (new_startDateISO request') (new_endDateISO request'))
            (dayCandidates (createAppointment st (newAppointment now uuid request)) now'
               (new_doctorId request') (new_startDateISO request')) = false).
  { rewrite Hd, Hs, He.
    apply (occupied_no_match (createAppointment st (newAppointment now uuid request)) now'
             (newAppointment now uuid request) _ _ t (t + 30 * 60 * 1000)).
    - cbn [createAppointment appointments]. apply in_or_app. right. now left.
    - discriminate.
    - exact Hps.
    - exact Hpe.
    - lia.
    - exact Hps. }
  rewrite book_cases, Hno.
  rewrite (execute_returns _ _ _ _ _ _ _ Hdoc) by lia.
  destruct (negb (passesValidation now' request')) eqn:Hv.
  - eexists. split; [reflexivity |]. split; [reflexivity |]. split; [reflexivity |].
    intros Hpast. exfalso.
    apply negb_true_iff in Hv. unfold passesValidation in Hv.
    rewrite Hd, Hs, He, Hts, Hte, Hle, Hpast in Hv.
    assert (Htd : truthy (new_doctorId request) = true).
    { destruct (truthy (new_doctorId request)) eqn:E; [reflexivity |].
      rewrite book_cases in Hbook. unfold passesValidation in Hbook.
      rewrite E in Hbook. cbn in Hbook. injection Hbook as <- _. discriminate Hsucc. }
    rewrite Htd in Hv. discriminate Hv.
  - eexists. split; [reflexivity |]. repeat split.
Qed.

(** X4 -- An appointment that is not cancelled cannot be rescheduled to the
    times it already has: its own entry counts as a conflict. *)
Theorem reschedule_to_own_slot (st : Store) (now : Z) (appointmentId : string)
    (existing : Appointment) (t u : Z) :
  getAppointmentById st appointmentId = Some existing ->
  status existing <> cancelled ->
  parseDate (startDateISO existing) = Some t ->
  parseDate (endDateISO existing) = Some u -> t < u ->
  exists result,
    BookAppointmentUseCase.reschedule st now appointmentId
      (startDateISO existing) (endDateISO existing) = Returns (result, st) /\
    success result = false.
Proof.
  intros Hget Hst Ht Hu Htu.
  assert (Hin : In existing (appointments st)).
  { unfold getAppointmentById in Hget. now apply find_some in Hget. }
  unfold BookAppointmentUseCase.reschedule. rewrite Hget.
  rewrite validateSlotAvailability_spec. cbn [bind].
  rewrite (occupied_no_match st now existing _ _ t u) by assumption.
  cbn [negb]. rewrite getNextAvailableSlots_spec.
  destruct (execute_30 st now (doctorId existing) (toISOString now)
              (toISOString (addDays now 30))) as [[slots H] | [_ H]];
    rewrite H; eexists; split; reflexivity.
Qed.

End BookingSafety.

(** ** Cancellations and availability *)

Section CancelAvailability.
Context {engine : JsEngine}.
Context {lib : RRuleLibrary}.

Lemma In_assign {A : Type} index (v : A) l x :
  In x (assign index v l) -> x = v \/ In x l.
Proof.
  revert index. induction l as [| y l IH]; intros [| i]; cbn [assign In]; try tauto.
  - intros [H | H]; auto.
  - intros [H | H]; [auto |]. destruct (IH i H); auto.
Qed.

Lemma freer_blocked st st' doctor from to z :
  freer st st' ->
  blocked z (getAppointmentsByDoctorAndDateRange st' doctor from to) ->
  blocked z (getAppointmentsByDoctorAndDateRange st doctor from to).
Proof.
  intros [_ Hfree] (a & Hin & Hst & Hov). exists a. split; [| now split].
  apply getAppointmentsByDoctorAndDateRange_in in Hin. destruct Hin as (Hin & Hd & Hr).
  apply getAppointmentsByDoctorAndDateRange_in. split; [| now split].
  destruct (Hfree a Hin) as [H | H]; [assumption | contradiction].
Qed.

(** What a query returns on [st] it returns on a store that is [freer]. *)
Lemma freer_execute st st' now doctor from to d slots :
  freer st st' ->
  execute st now doctor from to d = Returns slots ->
  exists slots', execute st' now doctor from to d = Returns slots' /\
                 forall z, In z slots -> In z slots'.
Proof.
  intros Hfree. pose proof Hfree as [Hdocs _]. unfold execute, getDoctorById. rewrite Hdocs.
  destruct (find _ (doctors st)) as [doctor' |]; [| discriminate]. cbv zeta.
  destruct (generateAllPossibleSlots _ _ _ _ _) as [all | |]; cbn [bind]; try discriminate.
  intros [= <-]. eexists. split; [reflexivity |]. intros z Hz.
  apply (Permutation_in _ (sort_perm _ _)) in Hz.
  eapply Permutation_in; [symmetry; apply sort_perm |].
  apply filterBookedSlots_in in Hz. apply filterBookedSlots_in.
  destruct Hz as [Hz Hn]. split; [assumption |].
  intros Hb. apply Hn. now apply freer_blocked with st'.
Qed.

Lemma freer_dayCandidates st st' now doctor s z :
  freer st st' -> In z (dayCandidates st now doctor s) -> In z (dayCandidates st' now doctor s).
Proof.
  intros Hfree. unfold dayCandidates. destruct (parseDate s) as [t |]; [| intros []].
  destruct (execute st _ _ _ _ _) as [slots | |] eqn:H; try (intros []).
  destruct (freer_execute _ _ _ _ _ _ _ _ Hfree H) as (slots' & -> & Hincl). apply Hincl.
Qed.

(** The decisions of a cancellation, with the place of the appointment. *)
Lemma cancel_cases st now appointmentId reason :
  CancelAppointmentUseCase.execute st now appointmentId reason =
  match getAppointmentById st appointmentId with
  | None => Returns (CancelAppointmentUseCase.failure "Appointment not found", st)
  | Some existing =>
      if status_eqb (status existing) cancelled
      then Returns (CancelAppointmentUseCase.failure "Appointment is already cancelled", st)
      else if date_ltb (parseDate (startDateISO existing)) (Some now)
      then Returns (CancelAppointmentUseCase.failure "Cannot cancel past appointments", st)
      else
        match findIndex (fun a => (id a =? appointmentId)%string) (appointments st) with
        | Some index =>
            let cancelled' :=
              CancelAppointmentUseCase.cancelledAppointment existing now reason in
            Returns ({| cancel_success := true; cancel_appointment := Some cancelled';
                        cancel_error := None |},
                     {| doctors := doctors st;
                        appointments := assign index cancelled' (appointments st) |})
        | None => Returns (CancelAppointmentUseCase.failure "Appointment not found", st)
        end
  end.
Proof.
  unfold CancelAppointmentUseCase.execute.
  destruct (getAppointmentById st appointmentId) as [existing |] eqn:Hget; [| reflexivity].
  destruct (status_eqb _ _); [reflexivity |].
  destruct (date_ltb _ _); [reflexivity |].
  destruct (updateAppointment_found st appointmentId existing
              (CancelAppointmentUseCase.cancelledAppointment existing now reason)
              Hget eq_refl) as (index & Hi & _ & _ & Hup).
  rewrite Hup, Hi. reflexivity.
Qed.

(** A cancellation that succeeded replaced the appointment it names, which
    was not cancelled and had not begun. *)
Lemma cancel_success_inv st now appointmentId reason result st' :
  CancelAppointmentUseCase.execute st now appointmentId reason = Returns (result, st') ->
  cancel_success result = true ->
  exists existing index,
    getAppointmentById st appointmentId = Some existing /\
    nth_error (appointments st) index = Some existing /\
    id existing = appointmentId /\
    status existing <> cancelled /\
    date_ltb (parseDate (startDateISO existing)) (Some now) = false /\
    st' = {| doctors := doctors st;
             appointments :=
               assign index (CancelAppointmentUseCase.cancelledAppointment existing now reason)
                      (appointments st) |}.
Proof.
  rewrite cancel_cases.
  destruct (getAppointmentById st appointmentId) as [existing |] eqn:Hget;
    [| intros [= <- <-]; discriminate].
  destruct (status_eqb _ _) eqn:Hs; [intros [= <- <-]; discriminate |].
  destruct (date_ltb _ _) eqn:Hp; [intros [= <- <-]; discriminate |].
  unfold getAppointmentById in Hget.
  destruct (find_findIndex _ _ _ Hget) as (index & Hi & Hn & Hid). rewrite Hi.
  cbv zeta. intros [= <- <-] _. exists existing, index.
  repeat split; try assumption.
  - now apply String.eqb_eq.
  - intros H. apply status_eqb_eq in H. congruence.
Qed.

(** A cancellation that failed left the store as it was. *)
Lemma cancel_failure_inv st now appointmentId reason result st' :
  CancelAppointmentUseCase.execute st now appointmentId reason = Returns (result, st') ->
  cancel_success result = false -> st' = st.
Proof.
  rewrite cancel_cases.
  destruct (getAppointmentById st appointmentId) as [existing |]; [| now intros [= <- <-]].
  destruct (status_eqb _ _); [now intros [= <- <-] |].
  destruct (date_ltb _ _); [now intros [= <- <-] |].
  destruct (findIndex _ _); [| now intros [= <- <-]].
  cbv zeta. intros [= <- <-]. discriminate.
Qed.

Lemma cancel_freer st now appointmentId reason result st' :
  CancelAppointmentUseCase.execute st now appointmentId reason = Returns (result, st') ->
  freer st st'.
Proof.
  intros H. destruct (cancel_success result) eqn:Hs.
  - destruct (cancel_success_inv _ _ _ _ _ _ H Hs) as (existing & index & _ & _ & _ & _ & _ & ->).
    split; [reflexivity |]. cbn [appointments]. intros a Ha.
    apply In_assign in Ha. destruct Ha as [-> | Ha]; [right; reflexivity | now left].
  - rewrite (cancel_failure_inv _ _ _ _ _ _ H Hs). split; [reflexivity | auto].
Qed.

(** X5 -- Cancelling never takes a slot away: every slot a query returned
    before a cancellation, successful or not, the same query returns after
    it. *)
Theorem cancel_keeps_available_slots (st st' : Store) (now now' : Z)
    (appointmentId : string) (reason : option string) (result : CancelResult)
    (doctor fromDate toDate : string) (d : Z) (slots : list TimeSlot) :
  CancelAppointmentUseCase.execute st now appointmentId reason = Returns (result, st') ->
  GetAvailableSlotsUseCase.execute st now' doctor fromDate toDate d = Returns slots ->
  exists slots',
    GetAvailableSlotsUseCase.execute st' now' doctor fromDate toDate d = Returns slots' /\
    forall slot, In slot slots -> In slot slots'.
Proof.
  intros Hc Hq. apply freer_execute with st; [| assumption].
  now apply cancel_freer with (1 := Hc).
Qed.

Lemma find_app_fresh {A : Type} (p : A -> bool) l x :
  find p l = None -> p x = true -> find p (l ++ [x]) = Some x.
Proof.
  induction l as [| y l IH]; cbn [find app].
  - intros _ ->. reflexivity.
  - destruct (p y); [discriminate | assumption].
Qed.

Lemma findIndex_app_fresh {A : Type} (p : A -> bool) l x :
  find p l = None -> p x = true -> findIndex p (l ++ [x]) = Some (List.length l).
Proof.
  induction l as [| y l IH]; cbn [find app findIndex List.length].
  - intros _ ->. reflexivity.
  - destruct (p y); [discriminate |]. intros H Hx. now rewrite IH.
Qed.

Lemma assign_last {A : Type} (v x : A) l : assign (List.length l) v (l ++ [x]) = l ++ [v].
Proof.
  induction l as [| y l IH]; cbn [assign app List.length]; [reflexivity | now rewrite IH].
Qed.

(** X6 -- Booking, cancelling, booking again.  When a booking succeeded with an
    identifier that was not in use and its appointment is then cancelled,
    the request of the booking is accepted again under the clock reading of
    the first booking: the cancelled appointment no longer blocks its
    slot. *)
Theorem rebook_after_cancel (st st1 st2 : Store) (now now1 : Z) (uuid uuid2 : string)
    (request : AppointmentCreate) (reason : option string)
    (booking : BookingResult) (cancellation : CancelResult) :
  getAppointmentById st uuid = None ->
  BookAppointmentUseCase.execute st now uuid request = Returns (booking, st1) ->
  success booking = true ->
  CancelAppointmentUseCase.execute st1 now1 uuid reason = Returns (cancellation, st2) ->
  cancel_success cancellation = true ->
  appointments st2 =
    appointments st ++
      [CancelAppointmentUseCase.cancelledAppointment (newAppointment now uuid request)
         now1 reason] /\
  BookAppointmentUseCase.execute st2 now uuid2 request =
    Returns (BookAppointmentUseCase.booked (newAppointment now uuid2 request),
             createAppointment st2 (newAppointment now uuid2 request)).
Proof.
  intros Hfresh Hbook Hsucc Hcancel Hcs.
  destruct (book_success_inv _ _ _ _ _ _ Hbook Hsucc) as (Hm & _ & ->).
  assert (Hvalid : passesValidation now request = true).
  { rewrite book_cases in Hbook.
    destruct (passesValidation now request); [reflexivity |].
    cbn [negb] in Hbook. injection Hbook as <- _. discriminate Hsucc. }
  destruct (cancel_success_inv _ _ _ _ _ _ Hcancel Hcs)
    as (existing & index & Hget & Hn & _ & _ & _ & Hst2).
  unfold getAppointmentById in Hfresh, Hget. cbn [createAppointment appointments] in Hget.
  assert (Hid : (id (newAppointment now uuid request) =? uuid)%string = true)
    by (cbn [newAppointment id]; apply String.eqb_refl).
  rewrite (find_app_fresh _ _ _ Hfresh Hid) in Hget. injection Hget as <-.
  assert (Happ : appointments st2 =
            appointments st ++
              [CancelAppointmentUseCase.cancelledAppointment (newAppointment now uuid request)
                 now1 reason]).
  { pose proof (cancel_cases (createAppointment st (newAppointment now uuid request))
                  now1 uuid reason) as Hcc.
    rewrite Hcancel in Hcc. unfold getAppointmentById in Hcc.
    cbn [createAppointment appointments] in Hcc.
    rewrite (find_app_fresh _ _ _ Hfresh Hid) in Hcc.
    rewrite (findIndex_app_fresh _ _ _ Hfresh Hid) in Hcc.
    destruct (status_eqb _ _); [injection Hcc as -> _; discriminate Hcs |].
    destruct (date_ltb _ _); [injection Hcc as -> _; discriminate Hcs |].
    cbv zeta in Hcc. injection Hcc as _ ->. cbn [appointments]. apply assign_last. }
  split; [exact Happ |].
  assert (Hfree : freer st st2).
  { split.
    - rewrite Hst2. reflexivity.
    - intros a Ha. rewrite Happ in Ha. apply in_app_or in Ha.
      destruct Ha as [Ha | [<- | []]]; [now left | right; reflexivity]. }
  rewrite book_cases, Hvalid. cbn [negb].
  replace (existsb _ _) with true; [reflexivity |].
  symmetry. apply existsb_exists. apply existsb_exists in Hm.
  destruct Hm as (c & Hc & Hmc). exists c. split; [| assumption].
  now apply freer_dayCandidates with st.
Qed.

End CancelAvailability.

(** ** Batches *)

Section Batches.
Context {engine : JsEngine}.
Context {lib : RRuleLibrary}.

(** The ways a booking ends: the store as it was with a failure, or the
    new appointment appended with a success. *)
Lemma book_outcome st now uuid request :
  exists result st',
    BookAppointmentUseCase.execute st now uuid request = Returns (result, st') /\
    ((success result = false /\ appointment result = None /\ st' = st) \/
     (success result = true /\
      appointment result = Some (newAppointment now uuid request) /\
      st' = createAppointment st (newAppointment now uuid request))).
Proof.
  rewrite book_cases.
  destruct (negb (passesValidation now request)).
  - eexists. eexists. split; [reflexivity |]. left. repeat split.
  - destruct (existsb _ _).
    + eexists. eexists. split; [reflexivity |]. right. repeat split.
    + destruct (execute_30 st now (new_doctorId request) (toISOString now)
                  (toISOString (addDays now 30))) as [[slots H] | [_ H]];
        rewrite H; eexists; eexists; (split; [reflexivity |]); left; repeat split.
Qed.

(** X7 -- A batch of bookings answers each request, in order, and only ever
    appends: the providers are untouched, the appointments stored before
    are kept in place, and the new entries are the appointments of the
    successful results, in order. *)
Theorem book_batch_appends (st : Store) (clock : nat -> Z) (uuid : nat -> string)
    (requests : list AppointmentCreate) :
  exists results st',
    BookAppointmentUseCase.executeMultiple st clock uuid requests = Returns (results, st') /\
    List.length results = List.length requests /\
    doctors st' = doctors st /\
    appointments st' = appointments st ++ createdBy results /\
    List.length (createdBy results) = List.length (filter success results).
Proof.
  unfold BookAppointmentUseCase.executeMultiple. generalize 0%nat as k. revert st.
  induction requests as [| request rest IH]; intros st k;
    cbn [BookAppointmentUseCase.executeMultiple_from].
  - exists [], st. cbn. rewrite app_nil_r. auto.
  - destruct (book_outcome st (clock k) (uuid k) request) as (r & st1 & -> & Hr).
    cbn [bind fst snd].
    destruct (IH st1 (S k)) as (rs & st2 & -> & Hlen & Hdocs & Happ & Hcount).
    cbn [bind fst snd]. exists (r :: rs), st2.
    split; [reflexivity |]. split; [cbn; now rewrite Hlen |].
    unfold createdBy in *. cbn [flat_map filter].
    destruct Hr as [(Hs & Ha & ->) | (Hs & Ha & ->)]; rewrite Hs, Ha.
    + cbn [app]. auto.
    + cbn [createAppointment doctors appointments] in *.
      rewrite Happ, <- app_assoc. cbn [app List.length]. auto.
Qed.

(** Once an appointment that is not cancelled is stored, no request of a
    batch for its provider and its start is accepted. *)
Lemma book_batch_occupied requests : forall k st clock uuid results st' a t u,
  BookAppointmentUseCase.executeMultiple_from k st clock uuid requests =
    Returns (results, st') ->
  In a (appointments st) -> status a <> cancelled ->
  parseDate (startDateISO a) = Some t -> parseDate (endDateISO a) = Some u -> t < u ->
  forall j request result,
    nth_error requests j = Some request -> nth_error results j = Some result ->
    new_doctorId request = doctorId a ->
    parseDate (new_startDateISO request) = Some t ->
    success result = false.
Proof.
  induction requests as [| request rest IH]; intros k st clock uuid results st' a t u;
    cbn [BookAppointmentUseCase.executeMultiple_from].
  - intros _ _ _ _ _ _ [| j] request result H; discriminate H.
  - destruct (book_outcome st (clock k) (uuid k) request) as (r & st1 & Hbook & Hr).
    rewrite Hbook. cbn [bind fst snd].
    destruct (BookAppointmentUseCase.executeMultiple_from (S k) st1 clock uuid rest)
      as [[rs st2] | |] eqn:Hrest; cbn [bind fst snd]; try discriminate.
    intros [= <- <-] Hin Hst Ht Hu Htu [| j] request' result.
    + cbn [nth_error]. intros [= <-] [= <-] Hd Hs.
      destruct (success r) eqn:Hsucc; [| reflexivity].
      destruct (book_success_inv _ _ _ _ _ _ Hbook Hsucc) as (Hm & _ & _).
      rewrite Hd in Hm.
      rewrite (occupied_no_match st (clock k) a _ _ t u) in Hm by assumption.
      discriminate Hm.
    + cbn [nth_error]. intros Hreq Hres Hd Hs.
      apply (IH (S k) st1 clock uuid rs st2 a t u Hrest) with j request'; try assumption.
      destruct Hr as [(_ & _ & ->) | (_ & _ & ->)]; [assumption |].
      cbn [createAppointment appointments]. apply in_or_app. now left.
Qed.

(** X8 -- A batch books a slot at most once: of two requests of a batch for
    the same provider, start and end, the later one fails whenever the
    earlier one succeeded. *)
Theorem book_batch_no_duplicate (st st' : Store) (clock : nat -> Z) (uuid : nat -> string)
    (requests : list AppointmentCreate) (results : list BookingResult)
    (i j : nat) (first second : AppointmentCreate) (result1 result2 : BookingResult) :
  BookAppointmentUseCase.executeMultiple st clock uuid requests = Returns (results, st') ->
  (i < j)%nat ->
  nth_error requests i = Some first -> nth_error requests j = Some second ->
  nth_error results i = Some result1 -> nth_error results j = Some result2 ->
  new_doctorId second = new_doctorId first ->
  new_startDateISO second = new_startDateISO first ->
  new_endDateISO second = new_endDateISO first ->
  success result1 = true -> success result2 = false.
Proof.
  unfold BookAppointmentUseCase.executeMultiple. generalize 0%nat as k.
  revert st st' results i j.
  induction requests as [| request rest IH]; intros st st' results i j k;
    cbn [BookAppointmentUseCase.executeMultiple_from].
  - intros _ _ H. destruct i; discriminate H.
  - destruct (book_outcome st (clock k) (uuid k) request) as (r & st1 & Hbook & Hr).
    rewrite Hbook. cbn [bind fst snd].
    destruct (BookAppointmentUseCase.executeMultiple_from (S k) st1 clock uuid rest)
      as [[rs st2] | |] eqn:Hrest; cbn [bind fst snd]; try discriminate.
    intros [= <- <-] Hij H1 H2 H3 H4 Hd Hs He Hsucc.
    destruct j as [| j]; [lia |]. cbn [nth_error] in H2, H4.
    destruct i as [| i].
    + cbn [nth_error] in H1, H3. injection H1 as <-. injection H3 as <-.
      destruct (book_success_inv _ _ _ _ _ _ Hbook Hsucc) as (Hm & _ & ->).
      pose proof Hm as Hm'. apply existsb_exists in Hm'. destruct Hm' as (c & Hc & Hmc).
      destruct (dayCandidates_shape _ _ _ _ _ Hc) as (t & _ & Hst & Het).
      apply andb_true_iff in Hmc. destruct Hmc as [Hcs Hce]. apply String.eqb_eq in Hcs, Hce.
      assert (Hps : parseDate (new_startDateISO request) = Some t)
        by (rewrite <- Hcs, Hst; apply parseDate_toISOString).
      assert (Hpe : parseDate (new_endDateISO request) = Some (t + 30 * 60 * 1000))
        by (rewrite <- Hce, Het; apply parseDate_toISOString).
      apply (book_batch_occupied rest (S k) _ clock uuid rs st2
               (newAppointment (clock k) (uuid k) request) t (t + 30 * 60 * 1000) Hrest)
        with j second; try assumption.
      * cbn [createAppointment appointments]. apply in_or_app. right. now left.
      * discriminate.
      * lia.
      * now rewrite Hs.
    + cbn [nth_error] in H1, H3.
      apply (IH st1 st2 rs i j (S k) Hrest); try assumption. lia.
Qed.

(** X9 -- A booking changes the availability of its own provider only: for
    every other provider, every query answers after the booking as it did
    before. *)
Theorem booking_leaves_other_providers (st st' : Store) (now now' : Z) (uuid : string)
    (request : AppointmentCreate) (result : BookingResult)
    (other fromDate toDate : string) (d : Z) :
  BookAppointmentUseCase.execute st now uuid request = Returns (result, st') ->
  other <> new_doctorId request ->
  GetAvailableSlotsUseCase.execute st' now' other fromDate toDate d =
  GetAvailableSlotsUseCase.execute st now' other fromDate toDate d.
Proof.
  intros Hbook Hother.
  destruct (book_outcome st now uuid request) as (r & st1 & Hb & Hr).
  rewrite Hb in Hbook. injection Hbook as <- <-.
  destruct Hr as [(_ & _ & ->) | (_ & _ & ->)]; [reflexivity |].
  unfold execute, getDoctorById, getAppointmentsByDoctorAndDateRange.
  cbn [createAppointment doctors appointments].
  rewrite filter_app. cbn [filter newAppointment doctorId].
  replace (new_doctorId request =? other)%string with false
    by (symmetry; apply String.eqb_neq; congruence).
  cbn [negb]. now rewrite app_nil_r.
Qed.

End Batches.

Section CancelBatches.
Context {engine : JsEngine}.

Lemma keptOrCancelled_refl a : keptOrCancelled a a.
Proof. unfold keptOrCancelled. tauto. Qed.

Lemma keptOrCancelled_trans a b c :
  keptOrCancelled a b -> keptOrCancelled b c -> keptOrCancelled a c.
Proof.
  unfold keptOrCancelled.
  intros (H1 & H2 & H3 & H4 & H5 & H6 & H7) (K1 & K2 & K3 & K4 & K5 & K6 & K7).
  repeat split; try congruence.
  destruct K7 as [K7 | K7]; [| now right]. rewrite K7. exact H7.
Qed.

Lemma Forall2_refl {A : Type} (R : A -> A -> Prop) l : (forall x, R x x) -> Forall2 R l l.
Proof. intros H. induction l; constructor; auto. Qed.

Lemma Forall2_trans {A : Type} (R : A -> A -> Prop) :
  (forall x y z, R x y -> R y z -> R x z) ->
  forall l1 l2 l3, Forall2 R l1 l2 -> Forall2 R l2 l3 -> Forall2 R l1 l3.
Proof.
  intros HR l1 l2 l3 H. revert l3.
  induction H as [| x y l1 l2 Hxy H IH]; intros l3 H'; inversion H'; subst; constructor; eauto.
Qed.

Lemma assign_Forall2 {A : Type} (R : A -> A -> Prop) index (v a : A) l :
  (forall x, R x x) -> nth_error l index = Some a -> R a v -> Forall2 R l (assign index v l).
Proof.
  intros HR. revert index. induction l as [| x l IH]; intros [| i]; cbn [nth_error assign];
    try discriminate.
  - intros [= <-] H. constructor; [assumption | now apply Forall2_refl].
  - intros Hn H. constructor; [apply HR | now apply IH].
Qed.

(** One cancellation, successful or not, keeps every appointment in place
    and changes at most a status, to [cancelled]. *)
Lemma cancel_frame st now appointmentId reason :
  exists result st',
    CancelAppointmentUseCase.execute st now appointmentId reason = Returns (result, st') /\
    doctors st' = doctors st /\
    Forall2 keptOrCancelled (appointments st) (appointments st').
Proof.
  destruct (CancelAppointmentUseCase.execute st now appointmentId reason) as [[r st'] | |] eqn:H.
  - exists r, st'. split; [reflexivity |].
    destruct (cancel_success r) eqn:Hs.
    + destruct (cancel_success_inv _ _ _ _ _ _ H Hs)
        as (existing & index & _ & Hn & _ & _ & _ & ->).
      split; [reflexivity |]. cbn [appointments].
      apply assign_Forall2 with existing; [apply keptOrCancelled_refl | assumption |].
      unfold keptOrCancelled. cbn. tauto.
    + rewrite (cancel_failure_inv _ _ _ _ _ _ H Hs).
      split; [reflexivity |]. apply Forall2_refl, keptOrCancelled_refl.
  - rewrite cancel_cases in H.
    destruct (getAppointmentById st appointmentId); [| discriminate].
    destruct (status_eqb _ _); [discriminate |]. destruct (date_ltb _ _); [discriminate |].
    destruct (findIndex _ _); discriminate.
  - rewrite cancel_cases in H.
    destruct (getAppointmentById st appointmentId); [| discriminate].
    destruct (status_eqb _ _); [discriminate |]. destruct (date_ltb _ _); [discriminate |].
    destruct (findIndex _ _); discriminate.
Qed.

Lemma cancel_batch_from ids : forall k st clock reason,
  exists results st',
    CancelAppointmentUseCase.executeMultiple_from k st clock ids reason =
      Returns (results, st') /\
    List.length results = List.length ids /\
    doctors st' = doctors st /\
    Forall2 keptOrCancelled (appointments st) (appointments st').
Proof.
  induction ids as [| appointmentId rest IH]; intros k st clock reason;
    cbn [CancelAppointmentUseCase.executeMultiple_from].
  - exists [], st. repeat split. apply Forall2_refl, keptOrCancelled_refl.
  - destruct (cancel_frame st (clock k) appointmentId reason) as (r & st1 & -> & Hd1 & Hf1).
    cbn [bind fst snd].
    destruct (IH (S k) st1 clock reason) as (rs & st2 & -> & Hlen & Hd2 & Hf2).
    cbn [bind fst snd]. exists (r :: rs), st2.
    split; [reflexivity |]. split; [cbn; now rewrite Hlen |].
    split; [congruence |].
    eapply Forall2_trans; [apply keptOrCancelled_trans | exact Hf1 | exact Hf2].
Qed.

(** X10 -- A batch of cancellations answers each identifier, in order, and
    neither adds nor removes nor moves an appointment: each entry keeps
    its identifier, provider, owner, pet and times, and its status is the
    one it had or [cancelled]; a cancelled appointment stays cancelled. *)
Theorem cancel_batch_frame (st : Store) (clock : nat -> Z) (ids : list string)
    (reason : option string) :
  exists results st',
    CancelAppointmentUseCase.executeMultiple st clock ids reason = Returns (results, st') /\
    List.length results = List.length ids /\
    doctors st' = doctors st /\
    Forall2 keptOrCancelled (appointments st) (appointments st').
Proof. apply cancel_batch_from. Qed.

End CancelBatches.

(** ** Cancelling the day of a provider *)

Section CancelDay.
Context {engine : JsEngine}.











End CancelDay.

(** ** The repository: creating, finding, deleting *)

Section RepositoryOps.
Context {engine : JsEngine}.

Lemma find_app {A : Type} (p : A -> bool) l1 l2 :
  find p (l1 ++ l2) = match find p l1 with Some x => Some x | None => find p l2 end.
Proof.
  induction l1 as [| y l IH]; cbn [find app]; [reflexivity |].
  now destruct (p y).
Qed.

Lemma find_none_forallb {A : Type} (p : A -> bool) l :
  find p l = None <-> forallb (fun x => negb (p x)) l = true.
Proof.
  induction l as [| y l IH]; cbn [find forallb]; [tauto |].
  destruct (p y); cbn [negb andb]; [split; discriminate | exact IH].
Qed.

Lemma filter_length_all {A : Type} (p : A -> bool) l :
  List.length (filter p l) = List.length l <-> forallb p l = true.
Proof.
  induction l as [| y l IH]; cbn [filter forallb List.length]; [tauto |].
  pose proof (filter_length_le p l) as Hle.
  destruct (p y); cbn [List.length andb].
  - rewrite <- IH. lia.
  - split; [lia | discriminate].
Qed.

Lemma filter_all {A : Type} (p : A -> bool) l : forallb p l = true -> filter p l = l.
Proof.
  induction l as [| y l IH]; cbn [filter forallb]; [reflexivity |].
  destruct (p y); [| discriminate]. cbn [andb]. intros H. now rewrite IH.
Qed.

Lemma find_filter_other {A : Type} (p q : A -> bool) l :
  (forall x, q x = true -> p x = true) -> find q (filter p l) = find q l.
Proof.
  intros H. induction l as [| y l IH]; cbn [filter find]; [reflexivity |].
  destruct (p y) eqn:Hp; cbn [find].
  - now destruct (q y).
  - destruct (q y) eqn:Hq; [| assumption]. apply H in Hq. congruence.
Qed.

(** X13 -- creating and finding.  After [createAppointment], a lookup by
    identifier finds what it found before; only an identifier that was not
    in use finds the new appointment.  An appointment created under an
    identifier already in use is stored but never found by it.  The same
    holds of [createDoctor] and the lookup of providers. *)
Theorem create_then_lookup (st : Store) :
  (forall a appointmentId,
     getAppointmentById (createAppointment st a) appointmentId =
     match getAppointmentById st appointmentId with
     | Some existing => Some existing
     | None => if (id a =? appointmentId)%string then Some a else None
     end) /\
  (forall doctor doctorId',
     getDoctorById (createDoctor st doctor) doctorId' =
     match getDoctorById st doctorId' with
     | Some existing => Some existing
     | None => if (doctor_id doctor =? doctorId')%string then Some doctor else None
     end) /\
  (forall a, appointments (createAppointment st a) = appointments st ++ [a] /\
             doctors (createAppointment st a) = doctors st) /\
  (forall doctor, doctors (createDoctor st doctor) = doctors st ++ [doctor] /\
                  appointments (createDoctor st doctor) = appointments st).
Proof.
  unfold getAppointmentById, getDoctorById.
  cbn [createAppointment createDoctor appointments doctors].
  split; [| split; [| split]].
  - intros a appointmentId. rewrite find_app. reflexivity.
  - intros doctor doctorId'. rewrite find_app. reflexivity.
  - intros a. split; reflexivity.
  - intros doctor. split; reflexivity.
Qed.

(** X14 -- deleting.  [deleteAppointment] throws, and writes nothing, when
    no appointment has the identifier.  Otherwise it removes every
    appointment with the identifier and no other: the identifier is no
    longer found, every other lookup is as before, and the providers are
    untouched. *)
Theorem deleteAppointment_contract (st : Store) (appointmentId : string) :
  match getAppointmentById st appointmentId with
  | None =>
      deleteAppointment st appointmentId =
      Throws ("Appointment with ID " ++ appointmentId ++ " not found")%string
  | Some _ =>
      exists st',
        deleteAppointment st appointmentId = Returns st' /\
        doctors st' = doctors st /\
        appointments st' =
          filter (fun a => negb (id a =? appointmentId)%string) (appointments st) /\
        getAppointmentById st' appointmentId = None /\
        (forall other, other <> appointmentId ->
           getAppointmentById st' other = getAppointmentById st other) /\
        (forall a, In a (appointments st') <->
           In a (appointments st) /\ id a <> appointmentId)
  end.
Proof.
  unfold deleteAppointment, getAppointmentById. cbv zeta.
  destruct (find _ (appointments st)) as [existing |] eqn:Hfind.
  - destruct (_ =? _)%nat eqn:Hlen.
    + apply Nat.eqb_eq, filter_length_all in Hlen.
      apply find_none_forallb in Hlen. congruence.
    + eexists. split; [reflexivity |]. cbn [doctors appointments].
      split; [reflexivity |]. split; [reflexivity |]. split; [| split].
      * apply find_none_forallb. apply forallb_forall. intros x Hx.
        apply filter_In in Hx. tauto.
      * intros other Hne. apply find_filter_other. intros x Hx.
        apply String.eqb_eq in Hx. apply negb_true_iff, String.eqb_neq. congruence.
      * intros a. rewrite filter_In, negb_true_iff, String.eqb_neq. reflexivity.
  - apply find_none_forallb in Hfind.
    apply filter_length_all, Nat.eqb_eq in Hfind. now rewrite Hfind.
Qed.

(** X15 -- creating, then deleting.  Deleting an appointment that was
    created under an identifier not in use gives back the store as it was
    before the creation. *)
Theorem create_then_delete (st : Store) (a : Appointment) :
  getAppointmentById st (id a) = None ->
  deleteAppointment (createAppointment st a) (id a) = Returns st.
Proof.
  unfold getAppointmentById, deleteAppointment. intros Hfresh. cbv zeta.
  cbn [createAppointment appointments doctors].
  apply find_none_forallb in Hfresh.
  rewrite filter_app, (filter_all _ _ Hfresh). cbn [filter].
  rewrite String.eqb_refl. cbn [negb]. rewrite app_nil_r, length_app. cbn [List.length].
  replace (_ =? _)%nat with false by (symmetry; apply Nat.eqb_neq; lia).
  now destruct st.
Qed.

Lemma find_assign_other {A : Type} (p q : A -> bool) l index v a :
  findIndex p l = Some index -> nth_error l index = Some a ->
  q a = false -> q v = false -> find q (assign index v l) = find q l.
Proof.
  revert index. induction l as [| y l IH]; intros index; cbn [findIndex]; [discriminate |].
  destruct (p y).
  - intros [= <-]. cbn [nth_error assign find]. intros [= <-] -> ->. reflexivity.
  - destruct (findIndex p l) as [i |]; [| discriminate].
    intros [= <-]. cbn [nth_error assign find]. intros Hn Ha Hv.
    destruct (q y); [reflexivity |]. now apply IH.
Qed.

(** X16 -- replacing a provider.  [updateDoctor] throws, and writes
    nothing, when the provider is not stored.  Otherwise the provider is
    found as given afterwards, schedule included; every other provider is
    found as before, and no appointment is touched, also those that no
    longer fit the new schedule. *)
Theorem updateDoctor_contract (st : Store) (doctor : Doctor) :
  match getDoctorById st (doctor_id doctor) with
  | None =>
      updateDoctor st doctor =
      Throws ("Doctor with ID " ++ doctor_id doctor ++ " not found")%string
  | Some _ =>
      exists st',
        updateDoctor st doctor = Returns st' /\
        getDoctorById st' (doctor_id doctor) = Some doctor /\
        (forall other, other <> doctor_id doctor ->
           getDoctorById st' other = getDoctorById st other) /\
        List.length (doctors st') = List.length (doctors st) /\
        appointments st' = appointments st
  end.
Proof.
  unfold updateDoctor, getDoctorById.
  destruct (find _ (doctors st)) as [old |] eqn:Hfind.
  - destruct (find_findIndex _ _ _ Hfind) as (index & Hi & Hn & Hp).
    rewrite Hi. eexists. split; [reflexivity |]. cbn [doctors appointments].
    split; [| split; [| split; [apply assign_length | reflexivity]]].
    + apply find_assign; [assumption | apply String.eqb_refl].
    + intros other Hne. apply find_assign_other with (1 := Hi) (2 := Hn).
      * apply String.eqb_eq in Hp. apply String.eqb_neq. congruence.
      * apply String.eqb_neq. congruence.
  - replace (findIndex _ _) with (@None nat); [reflexivity |].
    symmetry. clear -Hfind. induction (doctors st) as [| y l IH]; [reflexivity |].
    cbn [find findIndex] in *. destruct (_ =? _)%string; [discriminate |].
    now rewrite IH.
Qed.

(** X17 -- the range query.  For a window and an appointment whose dates
    are valid and in order, [getAppointmentsByDoctorAndDateRange] returns
    the appointment exactly when it is of the provider and its time, ends
    included, meets the window, ends included: an appointment that ends at
    the very instant the window begins is returned.  The query is
    [getAppointmentsByDateRange] restricted to the provider, and part of
    [getAppointmentsByDoctorId]. *)
Theorem range_query_meets_window (st : Store) (doctor : string) (from to : Z)
    (a : Appointment) (s2 e2 : Z) :
  parseDate (startDateISO a) = Some s2 -> parseDate (endDateISO a) = Some e2 ->
  s2 <= e2 -> from <= to ->
  (In a (getAppointmentsByDoctorAndDateRange st doctor (toISOString from) (toISOString to)) <->
   In a (appointments st) /\ doctorId a = doctor /\ s2 <= to /\ from <= e2) /\
  getAppointmentsByDoctorAndDateRange st doctor (toISOString from) (toISOString to) =
    filter (fun x => (doctorId x =? doctor)%string)
           (getAppointmentsByDateRange st (toISOString from) (toISOString to)) /\
  incl (getAppointmentsByDoctorAndDateRange st doctor (toISOString from) (toISOString to))
       (getAppointmentsByDoctorId st doctor).
Proof.
  intros Hs He Hse Hft. split; [| split].
  - rewrite getAppointmentsByDoctorAndDateRange_in, Hs, He, !parseDate_toISOString.
    unfold date_geb, date_leb.
    rewrite !orb_true_iff, !andb_true_iff, !Z.leb_le.
    split; intros (H1 & H2 & H3); (split; [assumption |]); (split; [assumption |]); lia.
  - unfold getAppointmentsByDoctorAndDateRange, getAppointmentsByDateRange. cbv zeta.
    generalize (appointments st) as l.
    induction l as [| y l IH]; cbn [filter]; [reflexivity |].
    destruct (doctorId y =? doctor)%string eqn:Hd; cbn [negb].
    + match goal with |- context [if ?c then _ else _] => destruct c end; cbn [filter].
      * rewrite Hd. now rewrite IH.
      * exact IH.
    + match goal with |- context [if ?c then _ else _] => destruct c end; cbn [filter].
      * rewrite Hd. exact IH.
      * exact IH.
  - intros x Hx. apply getAppointmentsByDoctorAndDateRange_in in Hx.
    unfold getAppointmentsByDoctorId. apply filter_In.
    destruct Hx as (Hx & Hd & _). split; [assumption | now apply String.eqb_eq].
Qed.

End RepositoryOps.

(** ** What a query lists *)

Section Listing.
Context {engine : JsEngine}.
Context {lib : RRuleLibrary}.

(** X18 -- listed slots are free.  Over a window of whole days, from the
    first millisecond of a day to the last millisecond of a day, a query
    lists no slot that overlaps an appointment of the provider which is
    stored, not cancelled and has its dates in order, provided the rules
    of the provider keep to their day (start and end are times of day,
    hours from 0 to 23 and minutes from 0 to 59) and the recurrence
    library keeps to the window.  Each listed slot lies inside the window
    and lasts the duration asked for.  (A rule that starts at "-2:00" has
    a block that begins on the day before: its slots are listed for a
    window they lie outside of, unfiltered.) *)
Theorem listed_slots_are_free (st : Store) (now : Z) (doctor : string) (doctor' : Doctor)
    (from to d : Z) (slots : list TimeSlot) :
  between_in_range lib ->
  getDoctorById st doctor = Some doctor' ->
  forallb keepsToItsDay (weeklyAvailability doctor') = true ->
  from = startOfDay from -> to = startOfDay to + msPerDay - 1 -> 0 < d ->
  GetAvailableSlotsUseCase.execute st now doctor (toISOString from) (toISOString to) d =
    Returns slots ->
  forall slot, In slot slots ->
    exists s1,
      parseDate (startISO slot) = Some s1 /\
      parseDate (endISO slot) = Some (s1 + d * msPerMinute) /\
      from <= s1 /\ s1 + d * msPerMinute <= to /\
      forall a s2 e2,
        In a (appointments st) -> doctorId a = doctor -> status a <> cancelled ->
        parseDate (startDateISO a) = Some s2 -> parseDate (endDateISO a) = Some e2 ->
        s2 <= e2 ->
        s1 + d * msPerMinute <= s2 \/ e2 <= s1.
Proof.
  intros Hlib Hdoc Hrules Hfrom Hto Hd Hq slot Hin.
  rewrite (execute_returns _ _ _ _ _ _ _ Hdoc Hd) in Hq. injection Hq as <-.
  apply (Permutation_in _ (sort_perm _ _)) in Hin.
  apply filterBookedSlots_in in Hin. destruct Hin as [Hcand Hfree].
  rewrite !parseDate_toISOString in Hcand.
  destruct (candidatesOf_within_window _ _ _ _ _ _ Hlib Hd Hrules Hfrom Hto Hcand)
    as (s1 & Hs1 & He1 & Hlo & Hhi).
  exists s1. rewrite Hs1, He1, !parseDate_toISOString.
  replace (d * msPerMinute) with (d * 60 * 1000) by (unfold msPerMinute; lia).
  split; [reflexivity |]. split; [reflexivity |]. split; [assumption |]. split; [assumption |].
  intros a s2 e2 Ha Hda Hst Hs2 He2 Hse.
  destruct (Z_le_gt_dec (s1 + d * 60 * 1000) s2) as [H1 | H1]; [now left |].
  destruct (Z_le_gt_dec e2 s1) as [H2 | H2]; [now right |].
  exfalso. apply Hfree. exists a.
  assert (Hov : overlap_spec (Some s1) (Some (s1 + d * 60 * 1000)) (Some s2) (Some e2)).
  { unfold overlap_spec, date_le, date_lt.
    destruct (Z_le_gt_dec s2 s1).
    - left. split; [exists s2, s1 | exists s1, e2]; repeat split; lia.
    - destruct (Z_le_gt_dec (s1 + d * 60 * 1000) e2).
      + right. left. split; [exists s2, (s1 + d * 60 * 1000) | exists (s1 + d * 60 * 1000), e2];
          repeat split; lia.
      + right. right. split; [exists s1, s2 | exists e2, (s1 + d * 60 * 1000)];
          repeat split; lia. }
  split; [| split; [assumption |]].
  - apply overlapping_in_range with s1 (s1 + d * 60 * 1000) s2 e2; try assumption; lia.
  - rewrite Hs1, He1, Hs2, He2, !parseDate_toISOString. exact Hov.
Qed.

Lemma StronglySorted_app_cross {A : Type} (R : A -> A -> Prop) l1 l2 :
  StronglySorted R (l1 ++ l2) -> forall x y, In x l1 -> In y l2 -> R x y.
Proof.
  induction l1 as [| a l1 IH]; cbn [app]; intros Hs x y Hx Hy; [destruct Hx |].
  inversion Hs as [| ? ? Hs' Hall]; subst. destruct Hx as [-> | Hx].
  - rewrite Forall_forall in Hall. apply Hall, in_or_app. now right.
  - now apply IH.
Qed.

(** X19 -- the next slots.  For a stored provider, [getNextAvailableSlots]
    returns the first [count] slots, or all when there are fewer, of the
    list the query returns from now to 30 days later: in ascending order of
    start, and each of them starting no later than every slot left out. *)
Theorem next_slots_are_earliest (st : Store) (now : Z) (doctor : string)
    (doctor' : Doctor) (count : nat) :
  getDoctorById st doctor = Some doctor' ->
  exists next rest,
    GetAvailableSlotsUseCase.getNextAvailableSlots st now doctor count 30 = Returns next /\
    GetAvailableSlotsUseCase.execute st now doctor (toISOString now)
      (toISOString (addDays now 30)) 30 = Returns (next ++ rest) /\
    List.length next = Nat.min count (List.length (next ++ rest)) /\
    StronglySorted starts_before next /\
    (forall slot later, In slot next -> In later rest -> starts_before slot later).
Proof.
  intros Hdoc.
  pose proof (execute_returns st now _ _ (toISOString now) (toISOString (addDays now 30)) 30
                Hdoc ltac:(lia)) as Hh.
  set (horizon := sort compareSlots _) in Hh.
  exists (firstn count horizon), (skipn count horizon).
  rewrite getNextAvailableSlots_spec, Hh, firstn_skipn.
  pose proof (execute_sorted _ _ _ _ _ _ _ Hh) as Hsorted.
  split; [reflexivity |]. split; [reflexivity |].
  split; [apply length_firstn |]. split; [now apply firstn_sorted |].
  apply StronglySorted_app_cross. now rewrite firstn_skipn.
Qed.

(** With the duration 0 the loop never leaves a block that is not empty:
    whatever the number of turns, each of them finds [current] where it
    was, before the end of the block, and pushes the same slot. *)
Lemma slots_from_zero fuel : forall e cur,
  cur < e ->
  slots_from fuel e 0 cur = repeat {| slot_start := cur; slot_end := cur |} fuel.
Proof.
  induction fuel as [| fuel IH]; intros e cur Hc; [reflexivity |].
  cbn [slots_from repeat].
  replace (cur <? e) with true by (symmetry; apply Z.ltb_lt; exact Hc).
  cbv zeta. rewrite Z.add_0_r.
  replace (cur <=? e) with true by (symmetry; apply Z.leb_le; lia).
  cbn [app]. f_equal. now apply IH.
Qed.

(** The loop with a negative step, given turns enough, builds
    [slices_back]. *)
Lemma slots_back_slices fuel : forall e step cur,
  step < 0 -> cur < e -> - maxTime <= cur -> e <= maxTime ->
  (cur + maxTime) / (- step) < Z.of_nat fuel ->
  slots_back fuel e step cur = slices_back cur step.
Proof.
  induction fuel as [| fuel IH]; intros e step cur Hs Hc Hlo Hhi Hf.
  - exfalso. assert (0 <= (cur + maxTime) / (- step)) by (apply Z.div_pos; lia). lia.
  - cbn [slots_back].
    replace (cur <? e) with true by (symmetry; apply Z.ltb_lt; exact Hc).
    unfold timeClip, slices_back.
    destruct (Z_le_gt_dec (- maxTime) (cur + step)) as [Hfit | Hout].
    + replace (Z.abs (cur + step) <=? maxTime) with true by (symmetry; apply Z.leb_le; lia).
      replace (cur + step <=? e) with true by (symmetry; apply Z.leb_le; lia).
      assert (Hq : (cur + maxTime) / (- step) = (cur + step + maxTime) / (- step) + 1).
      { replace (cur + maxTime) with (cur + step + maxTime + 1 * (- step)) by lia.
        now rewrite Z.div_add by lia. }
      assert (0 <= (cur + step + maxTime) / (- step)) by (apply Z.div_pos; lia).
      rewrite IH by lia.
      rewrite Hq, Z2Nat.inj_add by lia.
      change (Z.to_nat 1) with 1%nat. rewrite Nat.add_1_r.
      cbn [seq map app]. f_equal; [f_equal; lia |].
      unfold slices_back. rewrite <- seq_shift, map_map. apply map_ext. intros k.
      f_equal; lia.
    + replace (Z.abs (cur + step) <=? maxTime) with false by (symmetry; apply Z.leb_gt; lia).
      rewrite Z.div_small by lia. reflexivity.
Qed.

(** X20 -- a duration that is not positive.  On a block that is not empty,
    between valid dates: with the duration 0 the loop of
    [generateSlotsForBlock] never ends, since every turn finds [current]
    at the block start and pushes the same slot, with no length; with a
    negative duration the call returns, once [current] has run down to
    the lower end of the range of a [Date], and it returns a slot for
    every step that fits between the block start and that end, each slot
    ending the duration before it starts. *)
Theorem nonpositive_duration_outcome (s e d : Z) :
  s < e -> - maxTime <= s -> e <= maxTime -> d <= 0 ->
  (d = 0 ->
     generateSlotsForBlock (Some s) (Some e) d = Diverges /\
     forall turns,
       slots_from turns e 0 s = repeat {| slot_start := s; slot_end := s |} turns) /\
  (d < 0 ->
     exists slots,
       generateSlotsForBlock (Some s) (Some e) d = Returns slots /\
       Z.of_nat (List.length slots) = (s + maxTime) / (- d * msPerMinute) /\
       forall k slot, nth_error slots k = Some slot ->
         slot_start slot = s + Z.of_nat k * (d * msPerMinute) /\
         slot_end slot = slot_start slot + d * msPerMinute /\
         - maxTime <= slot_end slot < slot_start slot).
Proof.
  intros Hse Hlo Hhi Hd. split.
  - intros ->. split; [| intros turns; now apply slots_from_zero].
    unfold generateSlotsForBlock. cbv zeta.
    replace (s <? e) with true by (symmetry; apply Z.ltb_lt; lia).
    reflexivity.
  - intros Hneg.
    assert (Hstep : d * 60 * 1000 < 0) by lia.
    assert (Hq : 0 <= (s + maxTime) / (- (d * 60 * 1000))) by (apply Z.div_pos; lia).
    exists (slices_back s (d * 60 * 1000)). split; [| split].
    + unfold generateSlotsForBlock. cbv zeta.
      replace (s <? e) with true by (symmetry; apply Z.ltb_lt; lia).
      replace (0 <? d * 60 * 1000) with false by (symmetry; apply Z.ltb_ge; lia).
      replace (d * 60 * 1000 <? 0) with true by (symmetry; apply Z.ltb_lt; lia).
      f_equal. apply slots_back_slices; lia.
    + unfold slices_back. rewrite length_map, length_seq, Z2Nat.id by assumption.
      f_equal. unfold msPerMinute. lia.
    + intros k slot Hk. unfold slices_back in Hk.
      rewrite nth_error_map in Hk.
      destruct (nth_error (seq 0 _) k) as [j |] eqn:Hj; [| discriminate].
      assert (Hlt : (k < List.length (seq 0 (Z.to_nat ((s + maxTime) / (- (d * 60 * 1000))))))%nat)
        by (apply nth_error_Some; congruence).
      rewrite length_seq in Hlt.
      rewrite nth_error_nth' with (d := 0%nat) in Hj by (rewrite length_seq; exact Hlt).
      rewrite seq_nth in Hj by exact Hlt.
      injection Hj as <-. cbn in Hk. injection Hk as <-. cbn [slot_start slot_end].
      unfold msPerMinute.
      split; [f_equal; lia |]. split; [lia |].
      split; [| lia].
      assert (Hk1 : Z.of_nat k + 1 <= (s + maxTime) / (- (d * 60 * 1000))) by lia.
      assert ((Z.of_nat k + 1) * (- (d * 60 * 1000)) <= s + maxTime); [| lia].
      transitivity (- (d * 60 * 1000) * ((s + maxTime) / (- (d * 60 * 1000))));
        [nia | apply Z.mul_div_le; lia].
Qed.

End Listing.

(** ** The date helpers *)

Section DateHelpers.
Context {engine : JsEngine}.

Lemma civil_from_days_inj z z' : civil_from_days z = civil_from_days z' -> z = z'.
Proof.
  intros H. pose proof (civil_roundtrip z) as H1. pose proof (civil_roundtrip z') as H2.
  rewrite H in H1. destruct (civil_from_days z') as [[y m] d].
  destruct H1 as [H1 _], H2 as [H2 _]. congruence.
Qed.

Lemma dayOf_startOfDay t u :
  dayOf t = dayOf u <-> startOfDay t <= u <= startOfDay t + msPerDay - 1.
Proof.
  split.
  - intros H. pose proof (startOfDay_bounds u) as Hu. unfold startOfDay in *. rewrite H. lia.
  - intros H. assert (Hs : startOfDay u = startOfDay t) by (apply startOfDay_unique; lia).
    unfold startOfDay, msPerDay in Hs. lia.
Qed.

(** [isSameDay] compares the day numbers. *)
Lemma isSameDay_dayOf t u :
  DateUtils.isSameDay (Some t) (Some u) = true <-> dayOf t = dayOf u.
Proof.
  unfold DateUtils.isSameDay, getFullYear, getMonth, getDate. split.
  - intros H. apply civil_from_days_inj.
    destruct (civil_from_days (dayOf t)) as [[y m] d].
    destruct (civil_from_days (dayOf u)) as [[y' m'] d'].
    apply andb_true_iff in H. destruct H as [H H3].
    apply andb_true_iff in H. destruct H as [H1 H2].
    apply Z.eqb_eq in H1, H2, H3. f_equal; [f_equal |]; lia.
  - intros ->. destruct (civil_from_days (dayOf u)) as [[y m] d]. now rewrite !Z.eqb_refl.
Qed.


(** X23 -- today and tomorrow.  [isToday] holds of a valid date exactly
    when it lies in the calendar day of the current instant, and
    [isTomorrow] exactly when it lies in the calendar day after it,
    whatever the time of day of either: 23:59 and 00:01 a minute later are
    a day apart.  No date is both. *)
Theorem isToday_isTomorrow (now u : Z) :
  (DateUtils.isToday now (Some u) = true <->
   startOfDay now <= u <= startOfDay now + msPerDay - 1) /\
  (DateUtils.isTomorrow now (Some u) = true <->
   startOfDay now + msPerDay <= u <= startOfDay now + 2 * msPerDay - 1) /\
  DateUtils.isToday now (Some u) && DateUtils.isTomorrow now (Some u) = false.
Proof.
  assert (Htoday : DateUtils.isToday now (Some u) = true <->
                   startOfDay now <= u <= startOfDay now + msPerDay - 1).
  { unfold DateUtils.isToday. rewrite isSameDay_dayOf.
    split; intros H; [apply dayOf_startOfDay | apply dayOf_startOfDay in H]; congruence. }
  assert (Htomorrow : DateUtils.isTomorrow now (Some u) = true <->
            startOfDay now + msPerDay <= u <= startOfDay now + 2 * msPerDay - 1).
  { unfold DateUtils.isTomorrow, DateUtils.addDays. cbn [option_map]. cbv zeta.
    rewrite isSameDay_dayOf.
    assert (E : dayOf u = dayOf (addDays now 1) <->
                startOfDay (addDays now 1) <= u <= startOfDay (addDays now 1) + msPerDay - 1)
      by (split; intros H; [apply dayOf_startOfDay | apply dayOf_startOfDay in H]; congruence).
    rewrite E, startOfDay_addDays. unfold msPerDay. lia. }
  split; [exact Htoday |]. split; [exact Htomorrow |].
  destruct (DateUtils.isToday now (Some u)) eqn:E1; [| reflexivity].
  destruct (DateUtils.isTomorrow now (Some u)) eqn:E2; [| reflexivity].
  pose proof (proj1 Htoday eq_refl) as H1. pose proof (proj1 Htomorrow eq_refl) as H2.
  unfold msPerDay in *. lia.
Qed.

(** X24 -- the next weekday.  For a weekday from 0 to 6, [getNextWeekday]
    returns the date from 1 to 7 days after the given one, at the same
    time of day, that falls on the weekday, and no day in between does:
    from a date that already falls on the weekday it is a week later,
    never the date itself. *)
Theorem getNextWeekday_next (weekday t : Z) :
  0 <= weekday <= 6 ->
  exists k, 1 <= k <= 7 /\
    DateUtils.getNextWeekday weekday (Some t) = Some (addDays t k) /\
    getDay (addDays t k) = weekday /\
    (forall j, 1 <= j < k -> getDay (addDays t j) <> weekday) /\
    (getDay t = weekday -> k = 7).
Proof.
  intros Hw. unfold DateUtils.getNextWeekday. cbn [option_map]. cbv zeta.
  pose proof (getDay_range t) as Hg.
  rewrite Z.rem_mod_nonneg by lia.
  set (r := (weekday - getDay t + 7) mod 7).
  assert (Hr : 0 <= r < 7) by (apply Z.mod_pos_bound; lia).
  assert (Hr' : r = if weekday <? getDay t then weekday - getDay t + 7 else weekday - getDay t).
  { subst r. destruct (weekday <? getDay t) eqn:E;
      [apply Z.ltb_lt in E | apply Z.ltb_ge in E].
    - apply Z.mod_small. lia.
    - replace (weekday - getDay t + 7) with (weekday - getDay t + 1 * 7) by lia.
      rewrite Z.mod_add by lia. apply Z.mod_small. lia. }
  clearbody r.
  exists (if r =? 0 then 7 else r).
  assert (Hday : forall j, 1 <= j <= 7 ->
            (getDay (addDays t j) = weekday <-> j = if r =? 0 then 7 else r)).
  { intros j Hj. rewrite getDay_addDays.
    destruct (weekday <? getDay t) eqn:E;
      [apply Z.ltb_lt in E | apply Z.ltb_ge in E];
      destruct (r =? 0) eqn:E0; [apply Z.eqb_eq in E0 | apply Z.eqb_neq in E0
                                | apply Z.eqb_eq in E0 | apply Z.eqb_neq in E0].
    - lia.
    - destruct (Z_lt_le_dec (getDay t + j) 7).
      + rewrite Z.mod_small by lia. lia.
      + replace (getDay t + j) with (getDay t + j - 7 + 1 * 7) by lia.
        rewrite Z.mod_add by lia. rewrite Z.mod_small by lia. lia.
    - destruct (Z_lt_le_dec (getDay t + j) 7).
      + rewrite Z.mod_small by lia. lia.
      + replace (getDay t + j) with (getDay t + j - 7 + 1 * 7) by lia.
        rewrite Z.mod_add by lia. rewrite Z.mod_small by lia. lia.
    - destruct (Z_lt_le_dec (getDay t + j) 7).
      + rewrite Z.mod_small by lia. lia.
      + replace (getDay t + j) with (getDay t + j - 7 + 1 * 7) by lia.
        rewrite Z.mod_add by lia. rewrite Z.mod_small by lia. lia. }
  assert (Hk : 1 <= (if r =? 0 then 7 else r) <= 7).
  { destruct (r =? 0) eqn:E0; [lia | apply Z.eqb_neq in E0; lia]. }
  split; [exact Hk |]. split; [reflexivity |].
  split; [now apply Hday |]. split.
  - intros j Hj H. apply Hday in H; lia.
  - intros H. destruct (r =? 0) eqn:E0; [reflexivity |].
    apply Z.eqb_neq in E0. destruct (weekday <? getDay t) eqn:E;
      [apply Z.ltb_lt in E | apply Z.ltb_ge in E]; lia.
Qed.

(** X25 -- days between.  For two dates less than 2^53 milliseconds
    apart, about 285,000 years, [getDaysBetween] is the least whole number
    of days that covers the time from the first to the second: [n] exactly
    when the time is more than [n - 1] days and at most [n] days.  A part
    of a day counts as a day, and a time before the start counts down
    towards zero.  A date that [addDays] puts [k] days away is [k] days
    away. *)
Theorem getDaysBetween_ceiling (a b : Z) :
  Z.abs (b - a) < 2 ^ 53 ->
  (forall n, DateUtils.getDaysBetween (Some a) (Some b) = Some n <->
             (n - 1) * msPerDay < b - a <= n * msPerDay) /\
  (forall k, DateUtils.addDays (Some a) k = Some b ->
             DateUtils.getDaysBetween (Some a) (Some b) = Some k).
Proof.
  intros Hclose.
  assert (H : forall n, DateUtils.getDaysBetween (Some a) (Some b) = Some n <->
                        (n - 1) * msPerDay < b - a <= n * msPerDay).
  { intros n. unfold DateUtils.getDaysBetween, msPerDay.
    rewrite toDouble_exact by assumption. cbn [option_map].
    clear Hclose. split.
    - intros H.
      assert (E : - (- (b - a) / (1000 * 3600 * 24)) = n) by congruence.
      clear H. revert E. generalize (b - a). intros x E. subst n.
      Z.div_mod_to_equations. lia.
    - intros Hn. apply f_equal.
      assert (E : - (b - a) / (1000 * 3600 * 24) = - n); [| lia].
      symmetry.
      apply Z.div_unique with (r := - (b - a) + 1000 * 3600 * 24 * n); lia. }
  split; [exact H |].
  intros k Hk. cbn [DateUtils.addDays option_map] in Hk. injection Hk as <-.
  apply H. unfold JsDate.addDays, msPerDay. lia.
Qed.

(** X26 -- minutes of a duration.  For two dates less than 2^53
    milliseconds apart, [getDurationInMinutes] is the number of minutes
    nearest to the time between them, a half minute counting up; of a slot
    that [generateSlotsForBlock] returns for a whole number of minutes it
    is that number. *)
Theorem getDurationInMinutes_nearest (a b : Z) :
  Z.abs (b - a) < 2 ^ 53 ->
  (forall m, DateUtils.getDurationInMinutes (Some a) (Some b) = Some m <->
             m * msPerMinute - 30000 <= b - a < m * msPerMinute + 30000) /\
  (forall s e d slots slot,
     generateSlotsForBlock s e d = Returns slots -> In slot slots ->
     slot_start slot = a -> slot_end slot = b ->
     DateUtils.getDurationInMinutes (Some a) (Some b) = Some d).
Proof.
  intros Hclose.
  assert (H : forall m,
     DateUtils.getDurationInMinutes (Some a) (Some b) = Some m <->
     m * msPerMinute - 30000 <= b - a < m * msPerMinute + 30000).
  { intros m. unfold DateUtils.getDurationInMinutes, msPerMinute.
    rewrite toDouble_exact by assumption. cbn [option_map].
    clear Hclose. split.
    - intros H.
      assert (E : (2 * (b - a) + 1000 * 60) / (2 * (1000 * 60)) = m) by congruence.
      clear H. revert E. generalize (b - a). intros x E. subst m.
      Z.div_mod_to_equations. lia.
    - intros Hm. apply f_equal. symmetry.
      apply Z.div_unique with (r := 2 * (b - a) + 1000 * 60 - 2 * (1000 * 60) * m); lia. }
  split; [exact H |].
  intros s e d slots slot Hs Hin Ha Hb. apply H.
  pose proof (generateSlotsForBlock_step _ _ _ _ _ Hs Hin) as Hstep.
  unfold msPerMinute. lia.
Qed.

(** X27 -- the date of the seeded appointment.  For a time of day, hours
    from 0 to 23 and minutes from 0 to 59, [getNextMondayAt] returns a
    valid date: it reads the time as [combineDateAndTime] does and sets it
    on the Monday [getNextWeekday] finds, a day from 1 to 7 days after
    today.  The result is after the current instant and falls on a
    Monday.  (A time such as "-30:00" is read as well, and gives a date
    before that Monday.) *)
Theorem getNextMondayAt_future (now : Z) (time : string) :
  timeOfDay time = true ->
  exists k monday result,
    1 <= k <= 7 /\
    DateUtils.getNextWeekday 1 (Some now) = Some monday /\ monday = addDays now k /\
    getDay monday = 1 /\
    LocalStorageDataSource.getNextMondayAt now time = Some result /\
    combineDateAndTime monday time = Some result /\
    now < result /\ getDay result = 1.
Proof.
  intros Htime.
  destruct (getNextWeekday_next 1 now ltac:(lia)) as (k & Hk & Hnext & Hday & _ & _).
  destruct (combineDateAndTime_timeOfDay (addDays now k) time Htime) as (result & Hc & Hlow & Hup).
  exists k, (addDays now k), result.
  split; [exact Hk |]. split; [exact Hnext |].
  split; [reflexivity |]. split; [exact Hday |].
  split.
  { unfold DateUtils.getNextWeekday in Hnext. cbn [option_map] in Hnext. cbv zeta in Hnext.
    assert (E : addDays now (if Z.rem (1 - getDay now + 7) 7 =? 0 then 7
                             else Z.rem (1 - getDay now + 7) 7) = addDays now k)
      by congruence.
    unfold LocalStorageDataSource.getNextMondayAt. unfold combineDateAndTime in Hc.
    destruct (map Number (split ":" time)) as [| [h |] [| [m |] rest]]; try discriminate.
    cbv zeta. rewrite E. exact Hc. }
  split; [exact Hc |].
  pose proof (startOfDay_bounds now) as Hnow.
  rewrite startOfDay_addDays in *.
  split; [unfold msPerDay in *; lia |].
  unfold getDay in *. rewrite dayOf_addDays in Hday.
  replace (dayOf result) with (dayOf now + k); [exact Hday |].
  unfold startOfDay, dayOf, msPerDay in *.
  apply Z.div_unique with (r := result - (now / 86400000 + k) * 86400000); lia.
Qed.

End DateHelpers.

(** ** Calendar export: text and dates *)

Section ICalText.
Context {engine : JsEngine}.

Local Open Scope string_scope.

Lemma replaceChar_app c replacement a b :
  replaceChar c replacement (a ++ b) =
  replaceChar c replacement a ++ replaceChar c replacement b.
Proof.
  induction a as [| x a IH]; cbn [append replaceChar]; [reflexivity |].
  destruct (Ascii.eqb x c); rewrite IH; [now rewrite string_app_assoc | reflexivity].
Qed.

Lemma escapeICalText_cons c s :
  IcalHelpers.escapeICalText (String c s) =
  IcalHelpers.escapeICalText (String c "") ++ IcalHelpers.escapeICalText s.
Proof.
  unfold IcalHelpers.escapeICalText.
  change (String c s) with (String c "" ++ s). now rewrite !replaceChar_app.
Qed.

Lemma replacePair_skip a b replacement x s :
  x <> a -> replacePair a b replacement (String x s) = String x (replacePair a b replacement s).
Proof.
  intros Hx. apply Ascii.eqb_neq in Hx. cbn [replacePair].
  destruct s as [| y s]; [reflexivity |]. now rewrite Hx.
Qed.

Lemma replacePair_keep a b replacement y s :
  y <> b ->
  replacePair a b replacement (String a (String y s)) =
  String a (replacePair a b replacement (String y s)).
Proof.
  intros Hy. apply Ascii.eqb_neq in Hy.
  change (replacePair a b replacement (String a (String y s)))
    with (if Ascii.eqb a a && Ascii.eqb y b
          then replacement ++ replacePair a b replacement s
          else String a (replacePair a b replacement (String y s))).
  now rewrite Hy, andb_false_r.
Qed.

Lemma replacePair_match a b replacement s :
  replacePair a b replacement (String a (String b s)) =
  replacement ++ replacePair a b replacement s.
Proof.
  change (replacePair a b replacement (String a (String b s)))
    with (if Ascii.eqb a a && Ascii.eqb b b
          then replacement ++ replacePair a b replacement s
          else String a (replacePair a b replacement (String b s))).
  now rewrite !Ascii.eqb_refl.
Qed.

(** X28 -- escaping and unescaping.  On a text without backslash,
    [unescapeICalText] gives back what [escapeICalText] was given, the
    carriage returns removed: semicolons, commas and line feeds survive the
    round trip.  (A backslash before the letter n does not: the escaped
    text is read as a backslash and a line feed.) *)
Theorem ical_text_round_trip (text : string) :
  existsb (Ascii.eqb IcalHelpers.backslash) (list_ascii_of_string text) = false ->
  IcalHelpers.unescapeICalText (IcalHelpers.escapeICalText text) =
  replaceChar IcalHelpers.carriageReturn "" text.
Proof.
  induction text as [| c text IH]; [reflexivity |].
  cbn [list_ascii_of_string existsb]. intros H. apply orb_false_iff in H.
  destruct H as [Hc H]. specialize (IH H). apply Ascii.eqb_neq in Hc.
  rewrite escapeICalText_cons. cbn [replaceChar]. unfold IcalHelpers.unescapeICalText in *.
  assert (Hsame : forall x : ascii,
            x <> IcalHelpers.backslash -> x <> ";"%char -> x <> ","%char ->
            x <> IcalHelpers.lineFeed -> x <> IcalHelpers.carriageReturn ->
            IcalHelpers.escapeICalText (String x "") = String x "").
  { intros x H1 H2 H3 H4 H5. unfold IcalHelpers.escapeICalText. cbn [replaceChar].
    apply Ascii.eqb_neq in H1, H2, H3, H4, H5.
    rewrite H1. cbn [replaceChar]. rewrite H2. cbn [replaceChar]. rewrite H3.
    cbn [replaceChar]. rewrite H4. cbn [replaceChar]. now rewrite H5. }
  destruct (Ascii.eqb c IcalHelpers.carriageReturn) eqn:Ecr.
  { apply Ascii.eqb_eq in Ecr. subst c. cbn [append]. exact IH. }
  apply Ascii.eqb_neq in Ecr.
  destruct (Ascii.eqb c ";") eqn:Esc.
  { apply Ascii.eqb_eq in Esc. subst c.
    change (IcalHelpers.escapeICalText ";") with (String IcalHelpers.backslash ";"). cbn [append].
    rewrite (replacePair_keep IcalHelpers.backslash "n" _ ";") by discriminate.
    rewrite (replacePair_skip IcalHelpers.backslash "n" _ ";") by discriminate.
    rewrite (replacePair_keep IcalHelpers.backslash "," _ ";") by discriminate.
    rewrite (replacePair_skip IcalHelpers.backslash "," _ ";") by discriminate.
    rewrite (replacePair_match IcalHelpers.backslash ";"). cbn [append].
    rewrite (replacePair_skip IcalHelpers.backslash IcalHelpers.backslash _ ";") by discriminate.
    now rewrite IH. }
  apply Ascii.eqb_neq in Esc.
  destruct (Ascii.eqb c ",") eqn:Eco.
  { apply Ascii.eqb_eq in Eco. subst c.
    change (IcalHelpers.escapeICalText ",") with (String IcalHelpers.backslash ","). cbn [append].
    rewrite (replacePair_keep IcalHelpers.backslash "n" _ ",") by discriminate.
    rewrite (replacePair_skip IcalHelpers.backslash "n" _ ",") by discriminate.
    rewrite (replacePair_match IcalHelpers.backslash ","). cbn [append].
    rewrite (replacePair_skip IcalHelpers.backslash ";" _ ",") by discriminate.
    rewrite (replacePair_skip IcalHelpers.backslash IcalHelpers.backslash _ ",") by discriminate.
    now rewrite IH. }
  apply Ascii.eqb_neq in Eco.
  destruct (Ascii.eqb c IcalHelpers.lineFeed) eqn:Elf.
  { apply Ascii.eqb_eq in Elf. subst c.
    change (IcalHelpers.escapeICalText (String IcalHelpers.lineFeed ""))
      with (String IcalHelpers.backslash "n"). cbn [append].
    rewrite (replacePair_match IcalHelpers.backslash "n"). cbn [append].
    rewrite (replacePair_skip IcalHelpers.backslash "," _ IcalHelpers.lineFeed) by discriminate.
    rewrite (replacePair_skip IcalHelpers.backslash ";" _ IcalHelpers.lineFeed) by discriminate.
    rewrite (replacePair_skip IcalHelpers.backslash IcalHelpers.backslash _ IcalHelpers.lineFeed)
      by discriminate.
    now rewrite IH. }
  apply Ascii.eqb_neq in Elf.
  rewrite Hsame by (try assumption; congruence). cbn [append].
  rewrite (replacePair_skip IcalHelpers.backslash "n" _ c) by congruence.
  rewrite (replacePair_skip IcalHelpers.backslash "," _ c) by congruence.
  rewrite (replacePair_skip IcalHelpers.backslash ";" _ c) by congruence.
  rewrite (replacePair_skip IcalHelpers.backslash IcalHelpers.backslash _ c) by congruence.
  now rewrite IH.
Qed.

End ICalText.

(** The text of a backslash and the letter n comes back as a backslash and
    a line feed. *)
Example ical_text_backslash_n :
  IcalHelpers.unescapeICalText (IcalHelpers.escapeICalText (String IcalHelpers.backslash "n")) =
  String IcalHelpers.backslash (String IcalHelpers.lineFeed "").
Proof. reflexivity. Qed.

Section ICalDates.
Context {engine : JsEngine}.

Local Open Scope string_scope.
Local Open Scope Z_scope.

Lemma digit_is_digit n : is_digit (digit_char (n mod 10)) = true.
Proof. apply digit_char_spec. pose proof (Z.mod_pos_bound n 10). lia. Qed.

Lemma append_empty (s : string) : s ++ "" = s.
Proof. induction s as [| c s IH]; cbn [append]; [reflexivity | now rewrite IH]. Qed.

(** Characters that are not removed pass through [removeChars]. *)
Lemma removeChars_digits class w : forall n rest,
  (forall c, is_digit c = true -> class c = false) ->
  removeChars class (digits w n ++ rest) = digits w n ++ removeChars class rest.
Proof.
  induction w as [| w IH]; intros n rest Hclass; cbn [digits append]; [reflexivity |].
  rewrite !string_app_assoc. rewrite IH by assumption. cbn [append removeChars].
  now rewrite (Hclass _ (digit_is_digit n)).
Qed.

Lemma removeFraction_skip x s :
  x <> "."%char -> removeFraction (String x s) = String x (removeFraction s).
Proof.
  intros Hx. apply Ascii.eqb_neq in Hx.
  destruct s as [| a [| b [| c rest]]]; try reflexivity.
  change (removeFraction (String x (String a (String b (String c rest)))))
    with (if Ascii.eqb x "." && is_digit a && is_digit b && is_digit c then rest
          else String x (removeFraction (String a (String b (String c rest))))).
  now rewrite Hx.
Qed.

Lemma removeFraction_digits w : forall n rest,
  removeFraction (digits w n ++ rest) = digits w n ++ removeFraction rest.
Proof.
  induction w as [| w IH]; intros n rest; cbn [digits append]; [reflexivity |].
  rewrite !string_app_assoc. rewrite IH. cbn [append].
  rewrite removeFraction_skip; [reflexivity |].
  intros E. pose proof (digit_is_digit n) as H. rewrite E in H. discriminate H.
Qed.

Lemma digits_length w : forall n, String.length (digits w n) = w.
Proof.
  induction w as [| w IH]; intros n; cbn [digits]; [reflexivity |].
  assert (L : forall a b, String.length (a ++ b) = (String.length a + String.length b)%nat).
  { intros a b. induction a as [| c a IHa]; cbn; [reflexivity | now rewrite IHa]. }
  rewrite L, IH. cbn. lia.
Qed.

Lemma substring_prefix (a b : string) :
  String.substring 0 (String.length a) (a ++ b) = a.
Proof.
  induction a as [| c a IH]; cbn [String.length append String.substring].
  - now destruct b.
  - now rewrite IH.
Qed.

Lemma substring_skip (a b : string) n m :
  String.substring (String.length a + n) m (a ++ b) = String.substring n m b.
Proof. induction a as [| c a IH]; cbn [String.length append String.substring Nat.add]; auto. Qed.

(** A field of [w] digits, cut out of a text where it stands after
    [before] characters. *)
Lemma substring_field (before : string) w n rest from :
  from = String.length before ->
  substring from (from + w) (before ++ digits w n ++ rest) = digits w n.
Proof.
  intros ->. unfold substring.
  replace (String.length before + w - String.length before)%nat with w by lia.
  replace (String.length before) with (String.length before + 0)%nat at 1 by lia.
  rewrite substring_skip. rewrite <- (digits_length w n) at 1. apply substring_prefix.
Qed.

Lemma digits_two_heads w n :
  exists c1 c2 r, is_digit c1 = true /\ is_digit c2 = true /\
                  digits (S (S w)) n = String c1 (String c2 r).
Proof.
  revert n. induction w as [| w IH]; intros n.
  - exists (digit_char (n / 10 mod 10)), (digit_char (n mod 10)), "".
    repeat split; apply digit_is_digit.
  - destruct (IH (n / 10)) as (c1 & c2 & r & H1 & H2 & Hd).
    exists c1, c2, (r ++ String (digit_char (n mod 10)) "").
    split; [assumption |]. split; [assumption |].
    change (digits (S (S (S w))) n)
      with (digits (S (S w)) (n / 10) ++ String (digit_char (n mod 10)) "").
    now rewrite Hd.
Qed.

Lemma is_digit_not_space c : is_digit c = true -> is_space c = false.
Proof.
  unfold is_digit, is_space. intros H. apply andb_true_iff in H. destruct H as [Ha Hb].
  apply Nat.leb_le in Ha, Hb. cbv zeta.
  replace (nat_of_ascii c <=? 13)%nat with false by (symmetry; apply Nat.leb_gt; lia).
  replace (nat_of_ascii c =? 32)%nat with false by (symmetry; apply Nat.eqb_neq; lia).
  replace (nat_of_ascii c =? 160)%nat with false by (symmetry; apply Nat.eqb_neq; lia).
  now rewrite andb_false_r.
Qed.

(** [parseInt] reads a field of at least two digits as its number. *)
Lemma parseInt_digits w n :
  0 <= n < 10 ^ Z.of_nat (S (S w)) -> parseInt (digits (S (S w)) n) = Some n.
Proof.
  intros Hn. unfold parseInt.
  pose proof (read_number_digits (S (S w)) n "" 0 0 Hn) as Hread.
  rewrite append_empty in Hread.
  destruct (digits_two_heads w n) as (c1 & c2 & r & H1 & H2 & Hd).
  rewrite Hd in *.
  assert (Hspace : is_space c1 = false) by now apply is_digit_not_space.
  cbn [trimStart]. rewrite Hspace.
  assert (Hne : forall c x, is_digit c = true -> is_digit x = false -> Ascii.eqb c x = false).
  { intros c x Hc Hx. apply Ascii.eqb_neq. intros ->. congruence. }
  rewrite (Hne c1 "-"%char H1 eq_refl), (Hne c1 "+"%char H1 eq_refl).
  rewrite (Hne c2 "x"%char H2 eq_refl), (Hne c2 "X"%char H2 eq_refl).
  rewrite andb_false_r. rewrite Hread. cbn [Nat.add]. cbv beta iota.
  apply f_equal. lia.
Qed.

Lemma UTC_of_fields y m d h mi s :
  100 <= y -> 1 <= m <= 12 ->
  UTC y (m - 1) d h mi s =
  days_from_civil y m d * msPerDay + h * msPerHour + mi * msPerMinute + s * msPerSecond.
Proof.
  intros Hy Hm. unfold UTC.
  replace ((0 <=? y) && (y <=? 99)) with false
    by (symmetry; apply andb_false_iff; right; apply Z.leb_gt; lia).
  cbv zeta. rewrite Z.div_small, Z.mod_small by lia.
  replace (y + 0) with y by lia. replace (m - 1 + 1) with m by lia. reflexivity.
Qed.

(** The text [formatDateForICal] writes for a year of four digits. *)
Lemma formatDateForICal_fields t :
  0 <= getFullYear t <= 9999 ->
  let '(y, m, d) := civil_from_days (dayOf t) in
  let r := t mod msPerDay in
  IcalHelpers.formatDateForICal t =
    digits 4 y ++ digits 2 m ++ digits 2 d ++ "T" ++
    digits 2 (r / msPerHour) ++ digits 2 (r / msPerMinute mod 60) ++
    digits 2 (r / msPerSecond mod 60) ++ "Z".
Proof.
  unfold getFullYear, IcalHelpers.formatDateForICal, toISOString.
  destruct (civil_from_days (dayOf t)) as [[y m] d]. intros Hy. cbv zeta.
  unfold year_string.
  replace ((0 <=? y) && (y <=? 9999)) with true
    by (symmetry; apply andb_true_iff; split; apply Z.leb_le; lia).
  set (class := fun c => (Ascii.eqb c "-" || Ascii.eqb c ":")%bool).
  assert (Hclass : forall c, is_digit c = true -> class c = false).
  { intros c Hc. unfold class. apply orb_false_iff.
    split; apply Ascii.eqb_neq; intros ->; discriminate Hc. }
  assert (Hminus : class "-"%char = true) by reflexivity.
  assert (Hcolon : class ":"%char = true) by reflexivity.
  assert (HT : class "T"%char = false) by reflexivity.
  assert (Hstop : class "."%char = false) by reflexivity.
  assert (HZ : class "Z"%char = false) by reflexivity.
  clearbody class.
  rewrite (removeChars_digits class 4) by assumption. cbn [append removeChars]. rewrite Hminus.
  rewrite (removeChars_digits class 2) by assumption. cbn [append removeChars]. rewrite Hminus.
  rewrite (removeChars_digits class 2) by assumption. cbn [append removeChars]. rewrite HT.
  rewrite (removeChars_digits class 2) by assumption. cbn [append removeChars]. rewrite Hcolon.
  rewrite (removeChars_digits class 2) by assumption. cbn [append removeChars]. rewrite Hcolon.
  rewrite (removeChars_digits class 2) by assumption. cbn [append removeChars]. rewrite Hstop.
  rewrite (removeChars_digits class 3) by assumption. cbn [append removeChars]. rewrite HZ.
  rewrite (removeFraction_digits 4), (removeFraction_digits 2), (removeFraction_digits 2).
  rewrite (removeFraction_skip "T") by discriminate.
  rewrite (removeFraction_digits 2), (removeFraction_digits 2), (removeFraction_digits 2).
  do 7 f_equal.
  cbn [digits append].
  change (removeFraction (String "." (String ?a (String ?b (String ?c "Z")))))
    with (if Ascii.eqb "." "." && is_digit a && is_digit b && is_digit c then "Z"
          else String "." (removeFraction (String a (String b (String c "Z"))))).
  now rewrite !digit_is_digit.
Qed.


(** X29 -- dates of the calendar export.  For a date in the years 100 to
    9999, [parseICalDate] reads what [formatDateForICal] writes as the same
    instant with the milliseconds cut off. *)
Theorem ical_date_round_trip (t : Z) :
  100 <= getFullYear t <= 9999 ->
  IcalHelpers.parseICalDate (IcalHelpers.formatDateForICal t) = Some (t - t mod 1000).
Proof.
  intros Hy. pose proof (formatDateForICal_fields t ltac:(lia)) as Hf.
  pose proof (civil_roundtrip (dayOf t)) as Hc.
  unfold getFullYear in Hy.
  destruct (civil_from_days (dayOf t)) as [[y m] d].
  destruct Hc as (Hc & Hm & Hd).
  pose proof (time_within_day_roundtrip t) as Ht. cbv zeta in Hf, Ht.
  set (r := t mod msPerDay) in *.
  destruct Ht as (Ht & Hh & Hmi & Hs & Hms).
  rewrite Hf. unfold IcalHelpers.parseICalDate.
  set (class := fun c => (Ascii.eqb c "T" || Ascii.eqb c "Z")%bool).
  assert (Hclass : forall c, is_digit c = true -> class c = false).
  { intros c Hcd. unfold class. apply orb_false_iff.
    split; apply Ascii.eqb_neq; intros ->; discriminate Hcd. }
  assert (HT : class "T"%char = true) by reflexivity.
  assert (HZ : class "Z"%char = true) by reflexivity.
  clearbody class.
  rewrite (removeChars_digits class 4) by assumption.
  rewrite (removeChars_digits class 2) by assumption.
  rewrite (removeChars_digits class 2) by assumption.
  cbn [append removeChars]. rewrite HT.
  rewrite (removeChars_digits class 2) by assumption.
  rewrite (removeChars_digits class 2) by assumption.
  rewrite (removeChars_digits class 2) by assumption.
  cbn [append removeChars]. rewrite HZ. cbn [removeChars].
  set (fy := digits 4 y). set (fm := digits 2 m). set (fd := digits 2 d).
  set (fh := digits 2 (r / msPerHour)). set (fmi := digits 2 (r / msPerMinute mod 60)).
  set (fs := digits 2 (r / msPerSecond mod 60)).
  set (clean := fy ++ fm ++ fd ++ fh ++ fmi ++ fs ++ "").
  assert (L : forall a b, String.length (a ++ b) = (String.length a + String.length b)%nat).
  { intros a b. induction a as [| c a IHa]; cbn; [reflexivity | now rewrite IHa]. }
  assert (S1 : substring 0 4 clean = fy).
  { apply (substring_field "" 4 y _ 0%nat). reflexivity. }
  assert (S2 : substring 4 6 clean = fm).
  { apply (substring_field fy 2 m _ 4%nat). subst fy. now rewrite digits_length. }
  assert (S3 : substring 6 8 clean = fd).
  { unfold clean. rewrite <- (string_app_assoc fy fm).
    apply (substring_field (fy ++ fm) 2 d _ 6%nat).
    subst fy fm. now rewrite L, !digits_length. }
  assert (S4 : substring 8 10 clean = fh).
  { unfold clean. rewrite <- (string_app_assoc fm fd), <- (string_app_assoc fy).
    apply (substring_field (fy ++ fm ++ fd) 2 _ _ 8%nat).
    subst fy fm fd. now rewrite !L, !digits_length. }
  assert (S5 : substring 10 12 clean = fmi).
  { unfold clean. rewrite <- (string_app_assoc fd fh), <- (string_app_assoc fm),
      <- (string_app_assoc fy).
    apply (substring_field (fy ++ fm ++ fd ++ fh) 2 _ _ 10%nat).
    subst fy fm fd fh. now rewrite !L, !digits_length. }
  assert (S6 : substring 12 14 clean = fs).
  { unfold clean. rewrite <- (string_app_assoc fh fmi), <- (string_app_assoc fd),
      <- (string_app_assoc fm), <- (string_app_assoc fy).
    apply (substring_field (fy ++ fm ++ fd ++ fh ++ fmi) 2 _ _ 12%nat).
    subst fy fm fd fh fmi. now rewrite !L, !digits_length. }
  cbv zeta. rewrite S1, S2, S3, S4, S5, S6. subst fy fm fd fh fmi fs.
  rewrite (parseInt_digits 2 y) by (simpl; lia).
  rewrite !(parseInt_digits 0) by (simpl; lia).
  cbn [option_map IcalHelpers.or_zero].
  rewrite UTC_of_fields by lia. rewrite Hc. f_equal.
  assert (Hmod : r mod 1000 = t mod 1000).
  { subst r. unfold msPerDay. clear. Z.div_mod_to_equations. lia. }
  lia.
Qed.

End ICalDates.

(** ** Times of day *)

Section TimesOfDay.
Context {engine : JsEngine}.

Local Open Scope string_scope.
Local Open Scope Z_scope.







End TimesOfDay.

(** ** Instances on the sample data *)

Lemma rejecting_rrule_in_range : between_in_range rejecting_rrule.
Proof. intros now descriptor from to occurrences H. discriminate H. Defined.

(** Rex, booked on the Friday for Monday 10:00-10:30, overlaps no stored
    appointment of Dr. Johnson. *)
Lemma book_never_double_books_witness :
  (between_in_range rejecting_rrule /\
   getDoctorById Sample.store (new_doctorId Sample.tenOClock) = Some Sample.drJohnson /\
   forallb endsWithinDay (weeklyAvailability Sample.drJohnson) = true /\
   BookAppointmentUseCase.execute Sample.store Sample.friday "u1" Sample.tenOClock =
     Returns (BookAppointmentUseCase.booked Sample.rex, Sample.storeWithRex) /\
   success (BookAppointmentUseCase.booked Sample.rex) = true) /\
  exists s1,
    parseDate (new_startDateISO Sample.tenOClock) = Some s1 /\
    parseDate (new_endDateISO Sample.tenOClock) = Some (s1 + 30 * msPerMinute) /\
    forall a s2 e2,
      In a (appointments Sample.store) -> doctorId a = new_doctorId Sample.tenOClock ->
      status a <> cancelled ->
      parseDate (startDateISO a) = Some s2 -> parseDate (endDateISO a) = Some e2 ->
      s2 <= e2 ->
      s1 + 30 * msPerMinute <= s2 \/ e2 <= s1.
Proof.
  assert (H1 : getDoctorById Sample.store (new_doctorId Sample.tenOClock) =
               Some Sample.drJohnson) by (vm_compute; reflexivity).
  assert (H2 : forallb endsWithinDay (weeklyAvailability Sample.drJohnson) = true)
    by (vm_compute; reflexivity).
  assert (H3 : BookAppointmentUseCase.execute Sample.store Sample.friday "u1" Sample.tenOClock =
     Returns (BookAppointmentUseCase.booked Sample.rex, Sample.storeWithRex))
    by (vm_compute; reflexivity).
  assert (H4 : success (BookAppointmentUseCase.booked Sample.rex) = true) by reflexivity.
  split; [exact (conj rejecting_rrule_in_range (conj H1 (conj H2 (conj H3 H4)))) |].
  exact (book_never_double_books Sample.store Sample.storeWithRex Sample.friday "u1"
           Sample.tenOClock Sample.drJohnson (BookAppointmentUseCase.booked Sample.rex)
           rejecting_rrule_in_range H1 H2 H3 H4).
Defined.

(** The same request a second time, at the same instant, is refused with
    "Slot already booked". *)
Lemma book_same_slot_twice_witness :
  (BookAppointmentUseCase.execute Sample.store Sample.friday "u1" Sample.tenOClock =
     Returns (BookAppointmentUseCase.booked Sample.rex, Sample.storeWithRex) /\
   success (BookAppointmentUseCase.booked Sample.rex) = true) /\
  exists result',
    BookAppointmentUseCase.execute Sample.storeWithRex Sample.friday "u2" Sample.tenOClock =
      Returns (result', Sample.storeWithRex) /\
    success result' = false /\ appointment result' = None /\
    (date_ltb (parseDate (new_startDateISO Sample.tenOClock)) (Some Sample.friday) = false ->
     error result' = Some "Slot already booked").
Proof.
  assert (H3 : BookAppointmentUseCase.execute Sample.store Sample.friday "u1" Sample.tenOClock =
     Returns (BookAppointmentUseCase.booked Sample.rex, Sample.storeWithRex))
    by (vm_compute; reflexivity).
  assert (H4 : success (BookAppointmentUseCase.booked Sample.rex) = true) by reflexivity.
  split; [exact (conj H3 H4) |].
  exact (book_same_slot_twice Sample.store Sample.storeWithRex Sample.friday Sample.friday
           "u1" "u2" Sample.tenOClock Sample.tenOClock (BookAppointmentUseCase.booked Sample.rex)
           H3 H4 eq_refl eq_refl eq_refl).
Defined.

(** Buddy's appointment cannot be rescheduled to Monday 09:00-09:30, the
    times it has. *)
Lemma reschedule_to_own_slot_witness :
  (getAppointmentById Sample.store "b1" = Some Sample.buddy /\
   parseDate (startDateISO Sample.buddy) = Some (Sample.monday + 9 * msPerHour) /\
   parseDate (endDateISO Sample.buddy) =
     Some (Sample.monday + 9 * msPerHour + 30 * msPerMinute)) /\
  exists result,
    BookAppointmentUseCase.reschedule Sample.store Sample.friday "b1"
      (startDateISO Sample.buddy) (endDateISO Sample.buddy) = Returns (result, Sample.store) /\
    success result = false.
Proof.
  assert (H1 : getAppointmentById Sample.store "b1" = Some Sample.buddy)
    by (vm_compute; reflexivity).
  assert (H2 : parseDate (startDateISO Sample.buddy) = Some (Sample.monday + 9 * msPerHour))
    by (vm_compute; reflexivity).
  assert (H3 : parseDate (endDateISO Sample.buddy) =
               Some (Sample.monday + 9 * msPerHour + 30 * msPerMinute))
    by (vm_compute; reflexivity).
  split; [exact (conj H1 (conj H2 H3)) |].
  apply (reschedule_to_own_slot Sample.store Sample.friday "b1" Sample.buddy
           (Sample.monday + 9 * msPerHour)
           (Sample.monday + 9 * msPerHour + 30 * msPerMinute) H1).
  - discriminate.
  - exact H2.
  - exact H3.
  - vm_compute. reflexivity.
Defined.

(** Cancelling Buddy's appointment keeps the five free slots of the
    Monday. *)
Lemma cancel_keeps_available_slots_witness :
  (CancelAppointmentUseCase.execute Sample.store Sample.friday "b1" None =
     Returns ({| cancel_success := true;
                 cancel_appointment :=
                   Some (CancelAppointmentUseCase.cancelledAppointment Sample.buddy
                           Sample.friday None);
                 cancel_error := None |},
              {| doctors := [Sample.drJohnson];
                 appointments :=
                   [CancelAppointmentUseCase.cancelledAppointment Sample.buddy
                      Sample.friday None] |}) /\
   GetAvailableSlotsUseCase.execute Sample.store Sample.friday "d1"
     "2025-01-06T00:00:00.000Z" "2025-01-06T23:59:59.999Z" 30 = Returns Sample.mondayFree) /\
  exists slots',
    GetAvailableSlotsUseCase.execute
      {| doctors := [Sample.drJohnson];
         appointments :=
           [CancelAppointmentUseCase.cancelledAppointment Sample.buddy Sample.friday None] |}
      Sample.friday "d1" "2025-01-06T00:00:00.000Z" "2025-01-06T23:59:59.999Z" 30 =
      Returns slots' /\
    forall slot, In slot Sample.mondayFree -> In slot slots'.
Proof.
  assert (H1 : CancelAppointmentUseCase.execute Sample.store Sample.friday "b1" None =
     Returns ({| cancel_success := true;
                 cancel_appointment :=
                   Some (CancelAppointmentUseCase.cancelledAppointment Sample.buddy
                           Sample.friday None);
                 cancel_error := None |},
              {| doctors := [Sample.drJohnson];
                 appointments :=
                   [CancelAppointmentUseCase.cancelledAppointment Sample.buddy
                      Sample.friday None] |})) by (vm_compute; reflexivity).
  assert (H2 : GetAvailableSlotsUseCase.execute Sample.store Sample.friday "d1"
     "2025-01-06T00:00:00.000Z" "2025-01-06T23:59:59.999Z" 30 = Returns Sample.mondayFree)
    by (vm_compute; reflexivity).
  split; [exact (conj H1 H2) |].
  exact (cancel_keeps_available_slots Sample.store _ Sample.friday Sample.friday "b1" None _
           "d1" "2025-01-06T00:00:00.000Z" "2025-01-06T23:59:59.999Z" 30 Sample.mondayFree
           H1 H2).
Defined.

(** Rex booked, cancelled, and booked again under another identifier. *)
Lemma rebook_after_cancel_witness :
  (getAppointmentById Sample.store "u1" = None /\
   BookAppointmentUseCase.execute Sample.store Sample.friday "u1" Sample.tenOClock =
     Returns (BookAppointmentUseCase.booked Sample.rex, Sample.storeWithRex) /\
   CancelAppointmentUseCase.execute Sample.storeWithRex Sample.friday "u1" None =
     Returns ({| cancel_success := true;
                 cancel_appointment :=
                   Some (CancelAppointmentUseCase.cancelledAppointment Sample.rex
                           Sample.friday None);
                 cancel_error := None |},
              {| doctors := [Sample.drJohnson];
                 appointments :=
                   [Sample.buddy;
                    CancelAppointmentUseCase.cancelledAppointment Sample.rex
                      Sample.friday None] |})) /\
  exists st2,
    appointments st2 =
      appointments Sample.store ++
        [CancelAppointmentUseCase.cancelledAppointment
           (newAppointment Sample.friday "u1" Sample.tenOClock) Sample.friday None] /\
    BookAppointmentUseCase.execute st2 Sample.friday "u2" Sample.tenOClock =
      Returns (BookAppointmentUseCase.booked (newAppointment Sample.friday "u2" Sample.tenOClock),
               createAppointment st2 (newAppointment Sample.friday "u2" Sample.tenOClock)).
Proof.
  assert (H1 : getAppointmentById Sample.store "u1" = None) by (vm_compute; reflexivity).
  assert (H2 : BookAppointmentUseCase.execute Sample.store Sample.friday "u1" Sample.tenOClock =
     Returns (BookAppointmentUseCase.booked Sample.rex, Sample.storeWithRex))
    by (vm_compute; reflexivity).
  assert (H3 : CancelAppointmentUseCase.execute Sample.storeWithRex Sample.friday "u1" None =
     Returns ({| cancel_success := true;
                 cancel_appointment :=
                   Some (CancelAppointmentUseCase.cancelledAppointment Sample.rex
                           Sample.friday None);
                 cancel_error := None |},
              {| doctors := [Sample.drJohnson];
                 appointments :=
                   [Sample.buddy;
                    CancelAppointmentUseCase.cancelledAppointment Sample.rex
                      Sample.friday None] |})) by (vm_compute; reflexivity).
  split; [exact (conj H1 (conj H2 H3)) |].
  eexists.
  exact (rebook_after_cancel Sample.store Sample.storeWithRex _ Sample.friday Sample.friday
           "u1" "u2" Sample.tenOClock None _ _ H1 H2 eq_refl H3 eq_refl).
Defined.

(** A batch with the request for Monday 10:00 twice: the first is booked,
    the second refused. *)
Lemma book_batch_no_duplicate_witness :
  (BookAppointmentUseCase.executeMultiple Sample.store Sample.fridayClock Sample.sameUuid
     [Sample.tenOClock; Sample.tenOClock] =
   Returns ([BookAppointmentUseCase.booked Sample.rex;
             BookAppointmentUseCase.unavailable "Slot already booked"
               [Sample.mondaySlot "09:30" "10:00"; Sample.mondaySlot "10:30" "11:00";
                Sample.mondaySlot "11:00" "11:30"]],
            Sample.storeWithRex) /\
   success (BookAppointmentUseCase.booked Sample.rex) = true) /\
  success (BookAppointmentUseCase.unavailable "Slot already booked"
             [Sample.mondaySlot "09:30" "10:00"; Sample.mondaySlot "10:30" "11:00";
              Sample.mondaySlot "11:00" "11:30"]) = false.
Proof.
  assert (H1 : BookAppointmentUseCase.executeMultiple Sample.store Sample.fridayClock
     Sample.sameUuid [Sample.tenOClock; Sample.tenOClock] =
   Returns ([BookAppointmentUseCase.booked Sample.rex;
             BookAppointmentUseCase.unavailable "Slot already booked"
               [Sample.mondaySlot "09:30" "10:00"; Sample.mondaySlot "10:30" "11:00";
                Sample.mondaySlot "11:00" "11:30"]],
            Sample.storeWithRex)) by (vm_compute; reflexivity).
  split; [split; [exact H1 | reflexivity] |].
  apply (book_batch_no_duplicate Sample.store Sample.storeWithRex Sample.fridayClock
           Sample.sameUuid [Sample.tenOClock; Sample.tenOClock] _ 0%nat 1%nat
           Sample.tenOClock Sample.tenOClock (BookAppointmentUseCase.booked Sample.rex) _ H1);
    try reflexivity.
  lia.
Defined.


(** Rex's appointment created in the sample store and deleted again. *)
Lemma create_then_delete_witness :
  getAppointmentById Sample.store (id Sample.rex) = None /\
  deleteAppointment (createAppointment Sample.store Sample.rex) (id Sample.rex) =
    Returns Sample.store.
Proof.
  assert (H : getAppointmentById Sample.store (id Sample.rex) = None)
    by (vm_compute; reflexivity).
  split; [exact H | exact (create_then_delete Sample.store Sample.rex H)].
Defined.

(** Buddy's appointment and the window of its Monday. *)
Lemma range_query_meets_window_witness :
  (parseDate (startDateISO Sample.buddy) = Some (Sample.monday + 9 * msPerHour) /\
   parseDate (endDateISO Sample.buddy) =
     Some (Sample.monday + 9 * msPerHour + 30 * msPerMinute)) /\
  (In Sample.buddy
      (getAppointmentsByDoctorAndDateRange Sample.store "d1"
         (toISOString Sample.monday) (toISOString (Sample.monday + msPerDay - 1))) <->
   In Sample.buddy (appointments Sample.store) /\ doctorId Sample.buddy = "d1" /\
   Sample.monday + 9 * msPerHour <= Sample.monday + msPerDay - 1 /\
   Sample.monday <= Sample.monday + 9 * msPerHour + 30 * msPerMinute) /\
  getAppointmentsByDoctorAndDateRange Sample.store "d1"
    (toISOString Sample.monday) (toISOString (Sample.monday + msPerDay - 1)) =
    filter (fun x => (doctorId x =? "d1")%string)
           (getAppointmentsByDateRange Sample.store
              (toISOString Sample.monday) (toISOString (Sample.monday + msPerDay - 1))) /\
  incl (getAppointmentsByDoctorAndDateRange Sample.store "d1"
          (toISOString Sample.monday) (toISOString (Sample.monday + msPerDay - 1)))
       (getAppointmentsByDoctorId Sample.store "d1").
Proof.
  assert (H1 : parseDate (startDateISO Sample.buddy) = Some (Sample.monday + 9 * msPerHour))
    by (vm_compute; reflexivity).
  assert (H2 : parseDate (endDateISO Sample.buddy) =
               Some (Sample.monday + 9 * msPerHour + 30 * msPerMinute))
    by (vm_compute; reflexivity).
  split; [exact (conj H1 H2) |].
  apply (range_query_meets_window Sample.store "d1" Sample.monday
           (Sample.monday + msPerDay - 1) Sample.buddy _ _ H1 H2);
    unfold msPerDay, msPerHour, msPerMinute; lia.
Defined.

(** From Friday 3 January 2025 the next Monday is three days later. *)
Lemma getNextWeekday_next_witness :
  0 <= 1 <= 6 /\
  exists k, 1 <= k <= 7 /\
    DateUtils.getNextWeekday 1 (Some Sample.friday) = Some (addDays Sample.friday k) /\
    getDay (addDays Sample.friday k) = 1 /\
    (forall j, 1 <= j < k -> getDay (addDays Sample.friday j) <> 1) /\
    (getDay Sample.friday = 1 -> k = 7).
Proof.
  split; [lia |]. apply (getNextWeekday_next 1 Sample.friday). lia.
Defined.

(** The seeded appointment, seen from the Friday: Monday 6 January 2025,
    09:00. *)
Lemma getNextMondayAt_future_witness :
  timeOfDay "09:00" = true /\
  exists k monday result,
    1 <= k <= 7 /\
    DateUtils.getNextWeekday 1 (Some Sample.friday) = Some monday /\
    monday = addDays Sample.friday k /\
    getDay monday = 1 /\
    LocalStorageDataSource.getNextMondayAt Sample.friday "09:00" = Some result /\
    combineDateAndTime monday "09:00" = Some result /\
    Sample.friday < result /\ getDay result = 1.
Proof.
  assert (H : timeOfDay "09:00" = true) by (vm_compute; reflexivity).
  split; [exact H |].
  exact (getNextMondayAt_future Sample.friday "09:00" H).
Defined.

(** Seen from the Friday at noon, the Monday at 00:00 is three days
    away. *)
Lemma getDaysBetween_ceiling_witness :
  Z.abs (Sample.monday - Sample.friday) < 2 ^ 53 /\
  (forall n, DateUtils.getDaysBetween (Some Sample.friday) (Some Sample.monday) = Some n <->
             (n - 1) * msPerDay < Sample.monday - Sample.friday <= n * msPerDay) /\
  (forall k, DateUtils.addDays (Some Sample.friday) k = Some Sample.monday ->
             DateUtils.getDaysBetween (Some Sample.friday) (Some Sample.monday) = Some k).
Proof.
  assert (H : Z.abs (Sample.monday - Sample.friday) < 2 ^ 53) by (vm_compute; reflexivity).
  split; [exact H |].
  exact (getDaysBetween_ceiling Sample.friday Sample.monday H).
Defined.

(** Buddy's appointment, Monday 09:00-09:30. *)
Lemma getDurationInMinutes_nearest_witness :
  Z.abs (Sample.monday + 9 * msPerHour + 30 * msPerMinute - (Sample.monday + 9 * msPerHour))
    < 2 ^ 53 /\
  (forall m,
     DateUtils.getDurationInMinutes (Some (Sample.monday + 9 * msPerHour))
       (Some (Sample.monday + 9 * msPerHour + 30 * msPerMinute)) = Some m <->
     m * msPerMinute - 30000 <=
       Sample.monday + 9 * msPerHour + 30 * msPerMinute - (Sample.monday + 9 * msPerHour)
       < m * msPerMinute + 30000) /\
  (forall s e d slots slot,
     generateSlotsForBlock s e d = Returns slots -> In slot slots ->
     slot_start slot = Sample.monday + 9 * msPerHour ->
     slot_end slot = Sample.monday + 9 * msPerHour + 30 * msPerMinute ->
     DateUtils.getDurationInMinutes (Some (Sample.monday + 9 * msPerHour))
       (Some (Sample.monday + 9 * msPerHour + 30 * msPerMinute)) = Some d).
Proof.
  assert (H : Z.abs (Sample.monday + 9 * msPerHour + 30 * msPerMinute -
                     (Sample.monday + 9 * msPerHour)) < 2 ^ 53)
    by (vm_compute; reflexivity).
  split; [exact H |].
  exact (getDurationInMinutes_nearest (Sample.monday + 9 * msPerHour)
           (Sample.monday + 9 * msPerHour + 30 * msPerMinute) H).
Defined.

(** A note with a semicolon, a comma and a line feed. *)
Lemma ical_text_round_trip_witness :
  existsb (Ascii.eqb IcalHelpers.backslash)
    (list_ascii_of_string ("Rex; fleas, itching" ++ newline ++ "come fasting")%string) = false /\
  IcalHelpers.unescapeICalText
    (IcalHelpers.escapeICalText ("Rex; fleas, itching" ++ newline ++ "come fasting")%string) =
  replaceChar IcalHelpers.carriageReturn ""
    ("Rex; fleas, itching" ++ newline ++ "come fasting")%string.
Proof.
  assert (H : existsb (Ascii.eqb IcalHelpers.backslash)
    (list_ascii_of_string ("Rex; fleas, itching" ++ newline ++ "come fasting")%string) = false)
    by (vm_compute; reflexivity).
  split; [exact H | exact (ical_text_round_trip _ H)].
Defined.

(** Friday 3 January 2025, 12:00:00.000. *)
Lemma ical_date_round_trip_witness :
  100 <= getFullYear Sample.friday <= 9999 /\
  IcalHelpers.parseICalDate (IcalHelpers.formatDateForICal Sample.friday) =
    Some (Sample.friday - Sample.friday mod 1000).
Proof.
  assert (H : 100 <= getFullYear Sample.friday <= 9999).
  { assert (E : getFullYear Sample.friday = 2025) by (vm_compute; reflexivity).
    rewrite E. lia. }
  split; [exact H | exact (ical_date_round_trip Sample.friday H)].
Defined.

(** The Monday as a window of one whole day: the five slots listed are
    clear of Buddy's appointment. *)
Lemma listed_slots_are_free_witness :
  (between_in_range rejecting_rrule /\
   getDoctorById Sample.store "d1" = Some Sample.drJohnson /\
   forallb keepsToItsDay (weeklyAvailability Sample.drJohnson) = true /\
   Sample.monday = startOfDay Sample.monday /\
   Sample.monday + msPerDay - 1 = startOfDay (Sample.monday + msPerDay - 1) + msPerDay - 1 /\
   GetAvailableSlotsUseCase.execute Sample.store Sample.friday "d1"
     (toISOString Sample.monday) (toISOString (Sample.monday + msPerDay - 1)) 30 =
     Returns Sample.mondayFree) /\
  forall slot, In slot Sample.mondayFree ->
    exists s1,
      parseDate (startISO slot) = Some s1 /\
      parseDate (endISO slot) = Some (s1 + 30 * msPerMinute) /\
      Sample.monday <= s1 /\ s1 + 30 * msPerMinute <= Sample.monday + msPerDay - 1 /\
      forall a s2 e2,
        In a (appointments Sample.store) -> doctorId a = "d1" -> status a <> cancelled ->
        parseDate (startDateISO a) = Some s2 -> parseDate (endDateISO a) = Some e2 ->
        s2 <= e2 ->
        s1 + 30 * msPerMinute <= s2 \/ e2 <= s1.
Proof.
  assert (H1 : getDoctorById Sample.store "d1" = Some Sample.drJohnson)
    by (vm_compute; reflexivity).
  assert (H2 : forallb keepsToItsDay (weeklyAvailability Sample.drJohnson) = true)
    by (vm_compute; reflexivity).
  assert (H3 : Sample.monday = startOfDay Sample.monday) by (vm_compute; reflexivity).
  assert (H4 : Sample.monday + msPerDay - 1 =
               startOfDay (Sample.monday + msPerDay - 1) + msPerDay - 1)
    by (vm_compute; reflexivity).
  assert (H5 : GetAvailableSlotsUseCase.execute Sample.store Sample.friday "d1"
     (toISOString Sample.monday) (toISOString (Sample.monday + msPerDay - 1)) 30 =
     Returns Sample.mondayFree) by (vm_compute; reflexivity).
  split; [exact (conj rejecting_rrule_in_range (conj H1 (conj H2 (conj H3 (conj H4 H5))))) |].
  exact (listed_slots_are_free Sample.store Sample.friday "d1" Sample.drJohnson
           Sample.monday (Sample.monday + msPerDay - 1) 30 Sample.mondayFree
           rejecting_rrule_in_range H1 H2 H3 H4 ltac:(lia) H5).
Defined.

(** The next three slots of Dr. Johnson, seen from the Friday. *)
Lemma next_slots_are_earliest_witness :
  getDoctorById Sample.store "d1" = Some Sample.drJohnson /\
  exists next rest,
    GetAvailableSlotsUseCase.getNextAvailableSlots Sample.store Sample.friday "d1" 3 30 =
      Returns next /\
    GetAvailableSlotsUseCase.execute Sample.store Sample.friday "d1"
      (toISOString Sample.friday) (toISOString (addDays Sample.friday 30)) 30 =
      Returns (next ++ rest) /\
    List.length next = Nat.min 3 (List.length (next ++ rest)) /\
    StronglySorted starts_before next /\
    (forall slot later, In slot next -> In later rest -> starts_before slot later).
Proof.
  assert (H : getDoctorById Sample.store "d1" = Some Sample.drJohnson)
    by (vm_compute; reflexivity).
  split; [exact H |].
  exact (next_slots_are_earliest Sample.store Sample.friday "d1" Sample.drJohnson 3 H).
Defined.

(** The Monday block of Dr. Johnson, 09:00-12:00, cut with a duration of
    minus 10^11 minutes: one step down fits into the range of a [Date],
    so the call returns one slot, which ends about 190,000 years before
    it starts. *)
Lemma nonpositive_duration_outcome_witness :
  (Sample.monday + 9 * msPerHour < Sample.monday + 12 * msPerHour /\
   - maxTime <= Sample.monday + 9 * msPerHour /\
   Sample.monday + 12 * msPerHour <= maxTime /\ -100000000000 <= 0) /\
  exists slots,
    generateSlotsForBlock (Some (Sample.monday + 9 * msPerHour))
      (Some (Sample.monday + 12 * msPerHour)) (-100000000000) = Returns slots /\
    Z.of_nat (List.length slots) =
      (Sample.monday + 9 * msPerHour + maxTime) / (- -100000000000 * msPerMinute) /\
    forall k slot, nth_error slots k = Some slot ->
      slot_start slot =
        Sample.monday + 9 * msPerHour + Z.of_nat k * (-100000000000 * msPerMinute) /\
      slot_end slot = slot_start slot + -100000000000 * msPerMinute /\
      - maxTime <= slot_end slot < slot_start slot.
Proof.
  assert (H1 : Sample.monday + 9 * msPerHour < Sample.monday + 12 * msPerHour)
    by (vm_compute; reflexivity).
  assert (H2 : - maxTime <= Sample.monday + 9 * msPerHour) by (vm_compute; discriminate).
  assert (H3 : Sample.monday + 12 * msPerHour <= maxTime) by (vm_compute; discriminate).
  assert (H4 : -100000000000 <= 0) by lia.
  split; [exact (conj H1 (conj H2 (conj H3 H4))) |].
  exact (proj2 (nonpositive_duration_outcome (Sample.monday + 9 * msPerHour)
                  (Sample.monday + 12 * msPerHour) (-100000000000) H1 H2 H3 H4)
               ltac:(lia)).
Defined.

(** The slot of that call. *)
Example negative_duration_slot :
  generateSlotsForBlock (Some (Sample.monday + 9 * msPerHour))
    (Some (Sample.monday + 12 * msPerHour)) (-100000000000) =
    Returns [{| slot_start := 1736154000000; slot_end := -5998263846000000 |}].
Proof. vm_compute. reflexivity. Qed.

(** Monday 10:00-10:30, listed for its day and booked. *)
Lemma book_listed_candidate_witness :
  (truthy (new_doctorId Sample.tenOClock) = true /\
   In (Sample.mondaySlot "10:00" "10:30")
      (dayCandidates Sample.store Sample.friday (new_doctorId Sample.tenOClock)
         (startISO (Sample.mondaySlot "10:00" "10:30")))) /\
  BookAppointmentUseCase.execute Sample.store Sample.friday "u1" Sample.tenOClock =
    Returns (BookAppointmentUseCase.booked (newAppointment Sample.friday "u1" Sample.tenOClock),
             createAppointment Sample.store
               (newAppointment Sample.friday "u1" Sample.tenOClock)) /\
  status (newAppointment Sample.friday "u1" Sample.tenOClock) = scheduled.
Proof.
  assert (H1 : truthy (new_doctorId Sample.tenOClock) = true) by (vm_compute; reflexivity).
  assert (H2 : In (Sample.mondaySlot "10:00" "10:30")
      (dayCandidates Sample.store Sample.friday (new_doctorId Sample.tenOClock)
         (startISO (Sample.mondaySlot "10:00" "10:30")))).
  { assert (E : dayCandidates Sample.store Sample.friday (new_doctorId Sample.tenOClock)
                  (startISO (Sample.mondaySlot "10:00" "10:30")) = Sample.mondayFree)
      by (vm_compute; reflexivity).
    rewrite E. right. left. reflexivity. }
  split; [exact (conj H1 H2) |].
  exact (book_listed_candidate Sample.store Sample.friday "u1" Sample.tenOClock
           (Sample.mondaySlot "10:00" "10:30") H1 H2 eq_refl eq_refl).
Defined.

(** A window that begins at Monday 10:00: the slot of 09:00 is listed,
    although Buddy's appointment stands on it.  The range query returns
    the appointments that meet the window, and this one ends before it. *)
Example partial_day_window :
  GetAvailableSlotsUseCase.execute Sample.store Sample.friday "d1"
    "2025-01-06T10:00:00.000Z" "2025-01-06T12:00:00.000Z" 30 =
  Returns (Sample.mondaySlot "09:00" "09:30" :: Sample.mondayFree).
Proof. vm_compute. reflexivity. Qed.

(** Rex booked with Dr. Johnson in the store of two providers: the
    Monday of Dr. Rodriguez lists its ten slots as before. *)
Lemma booking_leaves_other_providers_witness :
  (BookAppointmentUseCase.execute Sample.twoProviders Sample.friday "u1" Sample.tenOClock =
     Returns (BookAppointmentUseCase.booked Sample.rex, Sample.twoProvidersWithRex) /\
   "d3" <> new_doctorId Sample.tenOClock) /\
  GetAvailableSlotsUseCase.execute Sample.twoProvidersWithRex Sample.friday "d3"
    "2025-01-06T00:00:00.000Z" "2025-01-06T23:59:59.999Z" 30 =
  GetAvailableSlotsUseCase.execute Sample.twoProviders Sample.friday "d3"
    "2025-01-06T00:00:00.000Z" "2025-01-06T23:59:59.999Z" 30 /\
  exists slots,
    GetAvailableSlotsUseCase.execute Sample.twoProviders Sample.friday "d3"
      "2025-01-06T00:00:00.000Z" "2025-01-06T23:59:59.999Z" 30 = Returns slots /\
    List.length slots = 10%nat /\
    Forall (fun slot => slot_doctorId slot = "d3") slots.
Proof.
  assert (H1 : BookAppointmentUseCase.execute Sample.twoProviders Sample.friday "u1"
                 Sample.tenOClock =
     Returns (BookAppointmentUseCase.booked Sample.rex, Sample.twoProvidersWithRex))
    by (vm_compute; reflexivity).
  assert (H2 : "d3" <> new_doctorId Sample.tenOClock) by (intros H; discriminate H).
  split; [exact (conj H1 H2) |].
  split.
  - exact (booking_leaves_other_providers Sample.twoProviders Sample.twoProvidersWithRex
             Sample.friday Sample.friday "u1" Sample.tenOClock _ "d3" _ _ 30 H1 H2).
  - eexists. split; [vm_compute; reflexivity |].
    split; [reflexivity |]. repeat constructor.
Defined.


(** The appointments of the Monday cancelled by a date without a time:
    "2025-01-06" is read as the first instant of the day, and both
    appointments are cancelled. *)
Example cancel_day_date_only :
  match CancelAppointmentUseCase.cancelDoctorAppointmentsForDate Sample.storeWithRex
          Sample.fridayClock "d1" "2025-01-06" "closed" with
  | Returns (results, st') =>
      map cancel_success results = [true; true] /\
      map status (appointments st') = [cancelled; cancelled]
  | _ => False
  end.
Proof. vm_compute. split; reflexivity. Qed.

(** Numerals as [Number] reads them for [setHours]: a sign, blanks around
    the numeral, an exponent, a prefix, a fraction, the empty text; and
    texts that are no numerals. *)
Example numerals :
  map Number ["-2"; " 12 "; "1e3"; "0x10"; "12.9"; "-0.5"; ""; "Infinity"; "12abc"; "1_0"] =
  [Some (-2); Some 12; Some 1000; Some 16; Some 12; Some 0; Some 0; None; None; None].
Proof. vm_compute. reflexivity. Qed.

(** A rule that starts at "-2:00" has its block begin at 22:00 of the day
    before; and on a Sunday, the time "-30:00" puts the seeded appointment
    on the Saturday before, 18:00. *)
Example negative_times :
  combineDateAndTime Sample.monday "-2:00" = Some (Sample.monday - 2 * msPerHour) /\
  LocalStorageDataSource.getNextMondayAt (Sample.monday - msPerDay) "-30:00" =
    Some (Sample.monday - 2 * msPerDay + 18 * msPerHour).
Proof. split; vm_compute; reflexivity. Qed.

(** Two dates more than 2^53 milliseconds apart: the difference is
    rounded to a double before it is divided. *)
Example far_apart :
  DateUtils.getDaysBetween (Some (- 8640000000000000)) (Some 4320000000000001) =
    Some 150000000 /\
  DateUtils.getDurationInMinutes (Some (- 8640000000000000)) (Some 3360000000029999) =
    Some 200000000001.
Proof. split; vm_compute; reflexivity. Qed.

